(** * Downloads Galaxy: the scanner of [downloads-server.py]

    A shallow embedding of the scanning and aggregation code of
    [downloads-server.py] (classifier, size formatter, file prober, folder
    scanner, root scanner) and the properties its specification states.

    Conventions of the embedding:
    - Python [int] is [Z]; [str] is [string] (a byte string: names are taken
      as ASCII, [str.lower] and [len] on other code points are not modelled);
    - a raised exception is a value of [exn]; code that may raise returns
      [except A];
    - a [dict] with a fixed set of keys is a record, a key that one code path
      omits is an [option] field;
    - the file system is a tree of [node]s that carries the outcome of
      [os.stat] for every file, what listing each directory does and the
      order in which directories list their entries; [Path.is_dir] and
      [Path.is_file] follow pathlib: they call [stat()] and let through
      every error it raises but the few they ignore;
    - the scanner is given twice: as functions of that tree, and, for what
      is said of successive runs, as a program that calls the operating
      system; [scan_downloads_io_tree] relates the two. *)

From Stdlib Require Import ZArith List String Ascii Bool Lia.
From Stdlib Require Import DecimalString Sorted Permutation.
Import ListNotations.

Local Open Scope string_scope.
Local Open Scope list_scope.
Local Open Scope Z_scope.

(** ** Exceptions *)

(** [OSError] stands for an [OSError] of no more specific class whose
    [errno] is none of [ENOENT], [ENOTDIR], [EBADF], [ELOOP] (an I/O error,
    say). *)
Inductive exn : Type :=
| PermissionError
| NotADirectoryError
| FileNotFoundError
| OSError
| ValueError
| OverflowError.

(** [isinstance(e, OSError)]: [PermissionError], [NotADirectoryError] and
    [FileNotFoundError] are subclasses of [OSError]. *)
Definition is_OSError (e : exn) : bool :=
  match e with
  | PermissionError | NotADirectoryError | FileNotFoundError | OSError => true
  | ValueError | OverflowError => false
  end.

Definition is_PermissionError (e : exn) : bool :=
  match e with
  | PermissionError => true
  | _ => false
  end.

Inductive except (A : Type) : Type :=
| Returns (a : A)
| Raises (e : exn).

Arguments Returns {A} a.
Arguments Raises {A} e.

Definition bind {A B : Type} (m : except A) (k : A -> except B) : except B :=
  match m with
  | Returns a => k a
  | Raises e => Raises e
  end.

Notation "x <- m ;; k" := (bind m (fun x => k))
  (at level 61, m at next level, right associativity).

(** ** Strings *)

(** [s + t] on strings. *)
Infix "+++" := String.append (right associativity, at level 60).

(** [s.startswith(p)] *)
Definition startswith (p s : string) : bool := String.prefix p s.

(** [sub in s] *)
Fixpoint str_in (sub s : string) : bool :=
  String.prefix sub s ||
  match s with
  | EmptyString => false
  | String _ s' => str_in sub s'
  end.

Definition lower_ascii (c : ascii) : ascii :=
  let n := N_of_ascii c in
  if (65 <=? n)%N && (n <=? 90)%N then ascii_of_N (n + 32) else c.

(** [s.lower()] on ASCII strings *)
Fixpoint lower (s : string) : string :=
  match s with
  | EmptyString => EmptyString
  | String c s' => String (lower_ascii c) (lower s')
  end.

(** [s.rfind('.')]: index of the last dot, [None] for Python's [-1]. *)
Fixpoint rfind_dot (s : string) : option nat :=
  match s with
  | EmptyString => None
  | String c s' =>
      match rfind_dot s' with
      | Some i => Some (S i)
      | None => if Ascii.eqb c "."%char then Some O else None
      end
  end.

(** [str(n)] for an [int]. *)
Definition str_of_int (n : Z) : string := NilZero.string_of_int (Z.to_int n).

(** ** Size formatter *)

(** A finite double, held exactly as [mant / 2 ^ scale]. *)
Record float : Type := mkfloat { mant : Z; scale : Z }.

(** [a] rounded to 53 significant bits, ties to even. *)
Definition round53 (a : Z) : Z :=
  let bits := Z.log2 a + 1 in
  if bits <=? 53 then a
  else
    let sh := bits - 53 in
    let q := Z.shiftr a sh in
    let r := Z.land a (Z.ones sh) in
    let half := Z.shiftl 1 (sh - 1) in
    let q' := if r <? half then q
              else if half <? r then q + 1
              else if Z.even q then q else q + 1 in
    Z.shiftl q' sh.

(** [a / 2 ** k] for [int] operands, [0 <= a]: the quotient correctly
    rounded to a double, [OverflowError] when it does not fit one. *)
Definition truediv_pow2 (a k : Z) : except float :=
  let m := round53 a in
  if 2 ^ (1024 + k) <=? m then Raises OverflowError
  else Returns (mkfloat m k).

(** [num / den] rounded to an integer, ties to even ([0 < den]). *)
Definition round_half_even (num den : Z) : Z :=
  let q := num / den in
  let r := num mod den in
  if 2 * r <? den then q
  else if den <? 2 * r then q + 1
  else if Z.even q then q else q + 1.

Definition digit (d : Z) : ascii := ascii_of_N (48 + Z.to_N d).

(** The [d] decimal digits of [n], most significant first. *)
Fixpoint frac_digits (d : nat) (n : Z) : string :=
  match d with
  | O => EmptyString
  | S d' => frac_digits d' (n / 10) +++ String (digit (n mod 10)) EmptyString
  end.

(** The decimal numeral with [d] places after the point whose value is
    [n / 10 ^ d] ([0 <= n], [0 < d]). *)
Definition fixed_point (d : nat) (n : Z) : string :=
  str_of_int (n / 10 ^ Z.of_nat d) +++ "." +++
  frac_digits d (n mod 10 ^ Z.of_nat d).

(** [f"{x:.{d}f}"] for a non-negative double [x]: the exact value of [x]
    correctly rounded to [d] places, ties to even. *)
Definition format_f (d : nat) (x : float) : string :=
  fixed_point d (round_half_even (mant x * 10 ^ Z.of_nat d) (2 ^ scale x)).

Definition format_size (size_bytes : Z) : except string :=
  if size_bytes <? 1024 then
    Returns (str_of_int size_bytes +++ " B")
  else if size_bytes <? 1024 * 1024 then
    x <- truediv_pow2 size_bytes 10 ;;
    Returns (format_f 1 x +++ " KB")
  else if size_bytes <? 1024 * 1024 * 1024 then
    x <- truediv_pow2 size_bytes 20 ;;
    Returns (format_f 1 x +++ " MB")
  else
    x <- truediv_pow2 size_bytes 30 ;;
    Returns (format_f 2 x +++ " GB").

(** ** Classifier *)

Inductive category : Type :=
| video | audio | image | document | archive | installer | data | code | other.

(** The string the code uses for a category. *)
Definition category_str (c : category) : string :=
  match c with
  | video => "video" | audio => "audio" | image => "image"
  | document => "document" | archive => "archive" | installer => "installer"
  | data => "data" | code => "code" | other => "other"
  end.

(** [FILE_CATEGORIES], in the order of the dict literal. *)
Definition FILE_CATEGORIES : list (category * list string) :=
  [ (video, [".mp4"; ".mov"; ".avi"; ".mkv"; ".webm"; ".m4v"])
  ; (audio, [".mp3"; ".m4a"; ".wav"; ".flac"; ".aac"; ".ogg"; ".wma"])
  ; (image, [".jpg"; ".jpeg"; ".png"; ".gif"; ".webp"; ".svg"; ".bmp"; ".heic"; ".tiff"])
  ; (document, [".pdf"; ".doc"; ".docx"; ".txt"; ".rtf"; ".odt"; ".xls"; ".xlsx"; ".ppt"; ".pptx"; ".csv"])
  ; (archive, [".zip"; ".rar"; ".7z"; ".tar"; ".gz"; ".bz2"])
  ; (installer, [".dmg"; ".pkg"; ".app"; ".exe"; ".msi"])
  ; (data, [".json"; ".xml"; ".yaml"; ".yml"; ".sql"; ".db"])
  ; (code, [".py"; ".js"; ".ts"; ".html"; ".css"; ".java"; ".cpp"; ".c"; ".go"; ".rs"; ".rb"]) ].

(** [FOLDER_ICONS] *)
Definition FOLDER_ICONS : list (string * string) :=
  [ ("video", "ğŸ¬")
  ; ("music", "ğŸµ")
  ; ("images & screenshots", "ğŸ–¼ï¸")
  ; ("ai & evals", "ğŸ¤–")
  ; ("forms & documents", "ğŸ“‹")
  ; ("financial", "ğŸ’°")
  ; ("parenting & education podcasts", "ğŸ‘¨â€ğŸ‘©â€ğŸ‘§")
  ; ("installers & archives", "ğŸ“¦")
  ; ("code projects", "ğŸ’»")
  ; ("manuals & reference", "ğŸ“–")
  ; ("misc", "âœ¨") ].

(** [d.get(key, default)] on a dict literal with distinct keys. *)
Fixpoint dict_get (key : string) (d : list (string * string)) (default : string) : string :=
  match d with
  | [] => default
  | (k, v) :: d' => if String.eqb key k then v else dict_get key d' default
  end.

(** [Path(name).suffix] *)
Definition suffix (name : string) : string :=
  match rfind_dot name with
  | Some i =>
      if ((0 <? i) && (i <? String.length name - 1))%nat
      then substring i (String.length name - i) name
      else ""
  | None => ""
  end.

(** [Path(name).stem] *)
Definition stem (name : string) : string :=
  match rfind_dot name with
  | Some i =>
      if ((0 <? i) && (i <? String.length name - 1))%nat
      then substring 0 i name
      else name
  | None => name
  end.

(** The loop of [get_file_type] over the items of the table. *)
Fixpoint lookup_category (ext : string) (table : list (category * list string)) : category :=
  match table with
  | [] => other
  | (cat, extensions) :: table' =>
      if existsb (String.eqb ext) extensions then cat
      else lookup_category ext table'
  end.

Definition get_file_type (filename : string) : category :=
  let ext := lower (suffix filename) in
  lookup_category ext FILE_CATEGORIES.

(** The dict [icons] local to [get_file_icon]. *)
Definition icons : list (string * string) :=
  [ (".mp4", "ğŸ¥")
  ; (".mov", "ğŸ¥")
  ; (".avi", "ğŸ¥")
  ; (".mp3", "ğŸ™ï¸")
  ; (".m4a", "ğŸµ")
  ; (".wav", "ğŸµ")
  ; (".jpg", "ğŸ“¸")
  ; (".jpeg", "ğŸ“¸")
  ; (".png", "ğŸ“±")
  ; (".webp", "ğŸŒ")
  ; (".gif", "ğŸï¸")
  ; (".pdf", "ğŸ“„")
  ; (".doc", "ğŸ“")
  ; (".docx", "ğŸ“")
  ; (".txt", "ğŸ“")
  ; (".zip", "ğŸ“¦")
  ; (".rar", "ğŸ“¦")
  ; (".7z", "ğŸ“¦")
  ; (".dmg", "ğŸ’¿")
  ; (".pkg", "ğŸ“€")
  ; (".json", "ğŸ“Š")
  ; (".xml", "ğŸ“Š")
  ; (".py", "ğŸ")
  ; (".js", "ğŸ“œ")
  ; (".html", "ğŸŒ")
  ; (".srt", "ğŸ“")
  ; (".ics", "ğŸ“…")
  ; (".pkpass", "ğŸŸï¸") ].

Definition get_file_icon (filename : string) (is_dir : bool) : string :=
  if is_dir then "ğŸ“"
  else
    let ext := lower (suffix filename) in
    dict_get ext icons "ğŸ“„".

(** The [if]/[elif] chain of [scan_folder] on the lowercased folder name. *)
Definition folder_category (folder_lower : string) : category :=
  if str_in "video" folder_lower then video
  else if str_in "music" folder_lower || str_in "audio" folder_lower then audio
  else if str_in "image" folder_lower || str_in "screenshot" folder_lower
          || str_in "photo" folder_lower then image
  else if str_in "document" folder_lower || str_in "form" folder_lower then document
  else if str_in "install" folder_lower || str_in "archive" folder_lower then installer
  else if str_in "financial" folder_lower || str_in "finance" folder_lower then document
  else if str_in "ai" folder_lower || str_in "eval" folder_lower then document
  else if str_in "podcast" folder_lower || str_in "parenting" folder_lower
          || str_in "education" folder_lower then audio
  else if str_in "code" folder_lower || str_in "project" folder_lower then archive
  else if str_in "manual" folder_lower || str_in "reference" folder_lower then document
  else other.

(** The chain as the specification describes it: an ordered sequence of
    substring predicates, each a list of alternatives, with its category. *)
Definition heuristic_chain : list (list string * category) :=
  [ (["video"], video)
  ; (["music"; "audio"], audio)
  ; (["image"; "screenshot"; "photo"], image)
  ; (["document"; "form"], document)
  ; (["install"; "archive"], installer)
  ; (["financial"; "finance"], document)
  ; (["ai"; "eval"], document)
  ; (["podcast"; "parenting"; "education"], audio)
  ; (["code"; "project"], archive)
  ; (["manual"; "reference"], document) ].

Definition predicate_matches (alternatives : list string) (folder_lower : string) : bool :=
  existsb (fun sub => str_in sub folder_lower) alternatives.

(** First match wins; [other] when no predicate matches. *)
Fixpoint first_match (chain : list (list string * category)) (folder_lower : string)
  : category :=
  match chain with
  | [] => other
  | (alternatives, cat) :: chain' =>
      if predicate_matches alternatives folder_lower then cat
      else first_match chain' folder_lower
  end.

(** ** Paths and the file system *)

(** A path, as its sequence of segments. *)
Definition path : Type := list string.

(** [p.name] *)
Definition path_name (p : path) : string := last p "".

(** [str(p)] for a relative path. *)
Definition path_str (p : path) : string :=
  match p with
  | [] => "."
  | _ => String.concat "/" p
  end.

(** [p.relative_to(other)]: [None] stands for the [ValueError] raised when
    [other] is not a prefix of [p]. *)
Fixpoint relative_to_path (p other : path) {struct other} : option path :=
  match other with
  | [] => Some p
  | o :: other' =>
      match p with
      | [] => None
      | s :: p' => if String.eqb s o then relative_to_path p' other' else None
      end
  end.

(** [os.stat_result], the two fields the scanner reads. *)
Record stat_result : Type := mkstat { st_size : Z; st_mtime : Z }.

(** What listing a directory does: it yields the entries; or it is refused
    with a [PermissionError], which a recursive glob swallows (it skips the
    directory); or it raises [e], which a recursive glob lets out of the
    generator (any other [OSError], and a [PermissionError] where the glob
    does not swallow it). *)
Inductive dir_access : Type :=
| Listable
| DeniedSilently
| ListingRaises (e : exn).

(** A directory tree.  A file carries the outcome of [stat()] on it, a
    directory the order in which it lists its entries.  An entry on which
    [stat()] fails is a [File] with that outcome, whatever it is on disk:
    nothing but its name is known of it. *)
#[warnings="-register-all"]
Inductive node : Type :=
| File (name : string) (st : except stat_result)
| Dir (name : string) (access : dir_access) (entries : list node).

Definition node_name (n : node) : string :=
  match n with
  | File name _ => name
  | Dir name _ _ => name
  end.

(** [pathlib._ignore_error(e)]: the [errno] is one of [ENOENT], [ENOTDIR],
    [EBADF], [ELOOP]. *)
Definition ignore_error (e : exn) : bool :=
  match e with
  | FileNotFoundError | NotADirectoryError => true
  | _ => false
  end.

(** The [try] of [Path.is_dir] and [Path.is_file] around [stat()]: an
    [OSError] that is ignored and a [ValueError] give [False], every other
    exception is raised again. *)
Definition stat_mode_test (st : except stat_result) (mode_test : bool) : except bool :=
  match st with
  | Returns _ => Returns mode_test
  | Raises e =>
      if is_OSError e then
        if negb (ignore_error e) then Raises e else Returns false
      else
        match e with
        | ValueError => Returns false
        | _ => Raises e
        end
  end.

(** [item.is_dir()] *)
Definition is_dir (item : node) : except bool :=
  match item with
  | File _ st => stat_mode_test st false
  | Dir _ _ _ => Returns true
  end.

(** [item.is_file()] *)
Definition is_file (item : node) : except bool :=
  match item with
  | File _ st => stat_mode_test st true
  | Dir _ _ _ => Returns false
  end.

(** What a generator produces: an item, or an exception that ends it. *)
Inductive glob_event : Type :=
| Yield (rel : path) (item : node)
| GlobRaises (e : exn).

(** [folder.rglob('*')], with the path of each item relative to [folder]
    prefixed by [rel]: the entries of a directory, hidden ones included,
    then the same for each of its subdirectories in turn. *)
Fixpoint rglob_from (rel : path) (folder : node) {struct folder} : list glob_event :=
  match folder with
  | File _ _ => []
  | Dir _ Listable entries =>
      map (fun c => Yield (rel ++ [node_name c]) c) entries ++
      flat_map (fun c => rglob_from (rel ++ [node_name c]) c) entries
  | Dir _ DeniedSilently _ => []
  | Dir _ (ListingRaises e) _ => [GlobRaises e]
  end.

Definition rglob (folder : node) : list glob_event := rglob_from [] folder.

(** [list(root.iterdir())] *)
Definition iterdir (root : node) : except (list node) :=
  match root with
  | File _ _ => Raises NotADirectoryError
  | Dir _ Listable entries => Returns entries
  | Dir _ DeniedSilently _ => Raises PermissionError
  | Dir _ (ListingRaises e) _ => Raises e
  end.

(** ** Lists *)

(** [len(l)] *)
Definition len {A : Type} (l : list A) : Z := Z.of_nat (List.length l).

(** Truth value of a list. *)
Definition nonempty {A : Type} (l : list A) : bool :=
  match l with
  | [] => false
  | _ :: _ => true
  end.

(** [sum(l)] *)
Definition sum (l : list Z) : Z := fold_left Z.add l 0.

Fixpoint insert_desc {A : Type} (key : A -> Z) (x : A) (l : list A) : list A :=
  match l with
  | [] => [x]
  | y :: l' => if key x <? key y then y :: insert_desc key x l' else x :: l
  end.

(** [l.sort(key=key, reverse=True)]: the stable sort, largest key first;
    elements with equal keys keep their order. *)
Definition sort_desc {A : Type} (key : A -> Z) (l : list A) : list A :=
  fold_right (insert_desc key) [] l.

(** ** Data model *)

Module FileRecord.
Record t : Type := mk
  { name : string;
    display_name : string;
    extension : string;
    type : category;
    icon : string;
    size_bytes : Z;
    size : string;
    modified : string }.
End FileRecord.

(** A folder dict.  The dict built for the loose root files has no
    [total_files], [hidden_files] and [total_size_formatted] keys. *)
Module FolderSummary.
Record t : Type := mk
  { name : string;
    icon : string;
    category : category;
    files : list FileRecord.t;
    total_files : option Z;
    hidden_files : option Z;
    total_size : Z;
    total_size_formatted : option string }.
End FolderSummary.

(** The value under [file_types]: the initial [set()] or a count. *)
Inductive file_types_value : Type :=
| FileTypesSet (elements : list string)
| FileTypesCount (count : Z).

Module Stats.
Record t : Type := mk
  { total_files : Z;
    total_size : Z;
    categories : Z;
    file_types : file_types_value;
    total_size_formatted : option string }.
End Stats.

Module ScanResult.
Record t : Type := mk
  { folders : list FolderSummary.t;
    stats : Stats.t;
    scanned_at : string }.
End ScanResult.

(** ** Properties named by the specification *)

(** [key(l[i]) >= key(l[i+1])] for every valid [i]. *)
Definition descending {A : Type} (key : A -> Z) (l : list A) : Prop :=
  forall i a b, nth_error l i = Some a -> nth_error l (S i) = Some b -> key b <= key a.


(** A dot-prefixed name. *)
Definition hidden_name (s : string) : bool := startswith "." s.

(** The trash-folder name. *)
Definition trash_name (s : string) : bool := String.eqb s "$RECYCLE.BIN".

Definition excluded_segment (s : string) : bool := hidden_name s || trash_name s.

(** The files of a tree, each with its path ([rel] is the path of [n]
    itself) and the outcome of [stat()] on it. *)
Fixpoint tree_files (rel : path) (n : node) {struct n} : list (path * except stat_result) :=
  match n with
  | File _ st => [(rel, st)]
  | Dir _ _ entries => flat_map (fun c => tree_files (rel ++ [node_name c]) c) entries
  end.

(** Largest key first. *)
Definition ge_key {A : Type} (key : A -> Z) (a b : A) : Prop := key b <= key a.

(** No predicate of [chain] matches. *)
Definition none_matches (chain : list (list string * category)) (folder_lower : string)
  : Prop :=
  Forall (fun p => predicate_matches (fst p) folder_lower = false) chain.

(** The [name] of the record [get_file_data] builds. *)
Definition record_name (file_path : path) (relative_to : option path) : string :=
  match relative_to with
  | Some ancestor =>
      match relative_to_path file_path ancestor with
      | Some rel => path_str rel
      | None => path_name file_path
      end
  | None => path_name file_path
  end.

(** ** Example trees *)

Definition example_path : path := ["home"; "user"; "Downloads"].

Definition example_clock (t : Z) : except string := Returns "2024-01-01T00:00:00".

Definition readable (size : Z) : except stat_result := Returns (mkstat size 0).

(** A subfolder that holds a trash folder and a hidden directory. *)
Definition nested_trash_root : node :=
  Dir "Downloads" Listable
    [ Dir "Videos" Listable
        [ File "clip.mp4" (readable 2000);
          Dir "$RECYCLE.BIN" Listable [ File "old.txt" (readable 7) ];
          Dir ".cache" Listable [ File "a.bin" (readable 5) ] ] ].


(** One hidden file, one file of 10 bytes, one subfolder with a file of
    2000 bytes. *)
Definition scenario_root : node :=
  Dir "Downloads" Listable
    [ File ".DS_Store" (readable 99);
      File "notes.txt" (readable 10);
      Dir "Videos" Listable [ File "clip.mp4" (readable 2000) ] ].

(** What the scans of the example trees return. *)

Definition example_now : string := "2024-06-01T12:00:00".

Definition clip_record : FileRecord.t :=
  {| FileRecord.name := "clip.mp4";
     FileRecord.display_name := "clip";
     FileRecord.extension := "mp4";
     FileRecord.type := video;
     FileRecord.icon := "ğŸ¥";
     FileRecord.size_bytes := 2000;
     FileRecord.size := "2.0 KB";
     FileRecord.modified := "2024-01-01T00:00:00" |}.

Definition old_txt_record : FileRecord.t :=
  {| FileRecord.name := "$RECYCLE.BIN/old.txt";
     FileRecord.display_name := "old";
     FileRecord.extension := "txt";
     FileRecord.type := document;
     FileRecord.icon := "ğŸ“";
     FileRecord.size_bytes := 7;
     FileRecord.size := "7 B";
     FileRecord.modified := "2024-01-01T00:00:00" |}.

Definition a_bin_record : FileRecord.t :=
  {| FileRecord.name := ".cache/a.bin";
     FileRecord.display_name := "a";
     FileRecord.extension := "bin";
     FileRecord.type := other;
     FileRecord.icon := "ğŸ“„";
     FileRecord.size_bytes := 5;
     FileRecord.size := "5 B";
     FileRecord.modified := "2024-01-01T00:00:00" |}.

Definition small_record : FileRecord.t :=
  {| FileRecord.name := "small.txt";
     FileRecord.display_name := "small";
     FileRecord.extension := "txt";
     FileRecord.type := document;
     FileRecord.icon := "ğŸ“";
     FileRecord.size_bytes := 1;
     FileRecord.size := "1 B";
     FileRecord.modified := "2024-01-01T00:00:00" |}.


Definition notes_record : FileRecord.t :=
  {| FileRecord.name := "notes.txt";
     FileRecord.display_name := "notes";
     FileRecord.extension := "txt";
     FileRecord.type := document;
     FileRecord.icon := "ğŸ“";
     FileRecord.size_bytes := 10;
     FileRecord.size := "10 B";
     FileRecord.modified := "2024-01-01T00:00:00" |}.

Definition nested_trash_videos : FolderSummary.t :=
  {| FolderSummary.name := "Videos";
     FolderSummary.icon := "ğŸ“";
     FolderSummary.category := video;
     FolderSummary.files := [clip_record; old_txt_record; a_bin_record];
     FolderSummary.total_files := Some 3;
     FolderSummary.hidden_files := Some 0;
     FolderSummary.total_size := 2012;
     FolderSummary.total_size_formatted := Some "2.0 KB" |}.

Definition nested_trash_result : ScanResult.t :=
  {| ScanResult.folders := [nested_trash_videos];
     ScanResult.stats :=
       {| Stats.total_files := 3;
          Stats.total_size := 2012;
          Stats.categories := 1;
          Stats.file_types := FileTypesCount 3;
          Stats.total_size_formatted := Some "2.0 KB" |};
     ScanResult.scanned_at := example_now |}.



Definition scenario_videos : FolderSummary.t :=
  {| FolderSummary.name := "Videos";
     FolderSummary.icon := "ğŸ“";
     FolderSummary.category := video;
     FolderSummary.files := [clip_record];
     FolderSummary.total_files := Some 1;
     FolderSummary.hidden_files := Some 0;
     FolderSummary.total_size := 2000;
     FolderSummary.total_size_formatted := Some "2.0 KB" |}.

Definition scenario_uncategorized : FolderSummary.t :=
  {| FolderSummary.name := "Uncategorized";
     FolderSummary.icon := "ğŸ“‚";
     FolderSummary.category := other;
     FolderSummary.files := [notes_record];
     FolderSummary.total_files := None;
     FolderSummary.hidden_files := None;
     FolderSummary.total_size := 10;
     FolderSummary.total_size_formatted := None |}.

Definition scenario_result : ScanResult.t :=
  {| ScanResult.folders := [scenario_videos; scenario_uncategorized];
     ScanResult.stats :=
       {| Stats.total_files := 2;
          Stats.total_size := 2010;
          Stats.categories := 2;
          Stats.file_types := FileTypesCount 2;
          Stats.total_size_formatted := Some "2.0 KB" |};
     ScanResult.scanned_at := example_now |}.

(** ** Further notions *)

(** The suffix an extension comes from: the extension after a dot, the
    empty string for the empty extension. *)
Definition dotted (extension : string) : string :=
  match extension with
  | EmptyString => ""
  | _ => "." +++ extension
  end.

(** Every file of the tree that can be probed has a non-negative size. *)
Definition sizes_nonneg (root : node) : Prop :=
  forall rel stat, In (rel, Returns stat) (tree_files [] root) -> 0 <= st_size stat.

(** An entry the root scanner looks at: neither hidden nor the trash
    folder. *)
Definition visible (item : node) : bool := negb (excluded_segment (node_name item)).

(** An entry on which [stat()] fails with an [OSError] that [is_dir()]
    ignores (a symbolic link to nothing, say). *)
Definition unavailable (item : node) : bool :=
  match item with
  | File _ (Raises e) => is_OSError e && ignore_error e
  | _ => false
  end.

(** Nothing that the glob reaches raises: no directory when it is listed,
    no entry when [is_file()] is called on it. *)
Fixpoint never_raising (n : node) {struct n} : bool :=
  match n with
  | File _ st =>
      match stat_mode_test st true with
      | Returns _ => true
      | Raises _ => false
      end
  | Dir _ Listable entries => forallb never_raising entries
  | Dir _ DeniedSilently _ => true
  | Dir _ (ListingRaises _) _ => false
  end.

(** The files of a tree that can be reached through directories that list
    their entries, each with its path ([rel] is the path of [n] itself). *)
Fixpoint listed_files (rel : path) (n : node) {struct n}
  : list (path * except stat_result) :=
  match n with
  | File _ st => [(rel, st)]
  | Dir _ Listable entries =>
      flat_map (fun c => listed_files (rel ++ [node_name c]) c) entries
  | Dir _ _ _ => []
  end.

(** The subfolder of [nested_trash_root]. *)
Definition videos_dir : node :=
  Dir "Videos" Listable
    [ File "clip.mp4" (readable 2000);
      Dir "$RECYCLE.BIN" Listable [ File "old.txt" (readable 7) ];
      Dir ".cache" Listable [ File "a.bin" (readable 5) ] ].




(** A root with an entry that cannot be probed. *)
Definition locked_root : node :=
  Dir "Downloads" Listable
    [ File "locked.sys" (Raises PermissionError);
      File "notes.txt" (readable 10) ].

(** ** Programs that call the operating system *)

(** The calls the scanner makes: it reads the clock and it reads the file
    system. *)
Inductive os_call : Type :=
| Now
| Exists (p : path)
| Iterdir (p : path)
| IsDir (p : path)
| Rglob (p : path)
| IsFile (p : path)
| Stat (p : path).

(** What a call answers: [datetime.now().isoformat()]; [p.exists()]; the
    names of [list(p.iterdir())], in the order of the listing; [p.is_dir()];
    for [p.rglob('*')], the paths that the generator yields, relative to
    [p], and the exception that ends it, if any; [p.is_file()];
    [p.stat()].  The generator is lazy, it lists a directory when the loop
    asks for the next item: [Rglob p] stands for its whole enumeration. *)
Definition answer (c : os_call) : Type :=
  match c with
  | Now => string
  | Exists _ => except bool
  | Iterdir _ => except (list string)
  | IsDir _ => except bool
  | Rglob _ => (list path * option exn)%type
  | IsFile _ => except bool
  | Stat _ => except stat_result
  end.

(** A program: it returns, or it makes a call and goes on with the
    answer. *)
Inductive prog (A : Type) : Type :=
| Ret (a : A)
| Call (c : os_call) (k : answer c -> prog A).

Arguments Ret {A} a.
Arguments Call {A} c k.

Fixpoint prog_bind {A B : Type} (m : prog A) (k : A -> prog B) : prog B :=
  match m with
  | Ret a => k a
  | Call c k' => Call c (fun x => prog_bind (k' x) k)
  end.

(** An operating system answers a call in a state of the world and leaves
    the world in a state.  A run of a program starts in a world and ends in
    one. *)
Fixpoint run {world A : Type} (os : forall c : os_call, world -> answer c * world)
    (m : prog A) (w : world) : A * world :=
  match m with
  | Ret a => (a, w)
  | Call c k => let '(x, w') := os c w in run os (k x) w'
  end.

Definition reads_file_system (c : os_call) : bool :=
  match c with
  | Now => false
  | _ => true
  end.

(** The directory tree does not change: whatever the state of the world, a
    read of the file system has the same answer. *)
Definition unchanged_tree {world : Type}
    (os : forall c : os_call, world -> answer c * world) : Prop :=
  forall c w w', reads_file_system c = true -> fst (os c w) = fst (os c w').

(** A program that does not read the clock. *)
Fixpoint no_clock {A : Type} (m : prog A) : Prop :=
  match m with
  | Ret _ => True
  | Call c k => reads_file_system c = true /\ forall x, no_clock (k x)
  end.

(** Two outcomes of a scan that differ at most in the time stamp. *)
Definition same_content (r1 r2 : except ScanResult.t) : Prop :=
  match r1, r2 with
  | Returns res1, Returns res2 =>
      ScanResult.folders res1 = ScanResult.folders res2 /\
      ScanResult.stats res1 = ScanResult.stats res2
  | Raises e1, Raises e2 => e1 = e2
  | _, _ => False
  end.

(** The entry at the relative path [p] below [n]. *)
Fixpoint lookup (n : node) (p : path) {struct p} : option node :=
  match p with
  | [] => Some n
  | s :: p' =>
      match n with
      | Dir _ Listable entries =>
          match find (fun c => String.eqb (node_name c) s) entries with
          | Some c => lookup c p'
          | None => None
          end
      | _ => None
      end
  end.

(** What a generator with these events yields before it ends, and the
    exception that ends it. *)
Fixpoint glob_answer (events : list glob_event) : list path * option exn :=
  match events with
  | [] => ([], None)
  | Yield rel _ :: events' =>
      let '(yielded, ended) := glob_answer events' in (rel :: yielded, ended)
  | GlobRaises e :: _ => ([], Some e)
  end.

(** The names of a list are pairwise distinct. *)
Fixpoint distinct (names : list string) : bool :=
  match names with
  | [] => true
  | name :: names' => negb (existsb (String.eqb name) names') && distinct names'
  end.

(** No directory of the tree holds two entries of the same name. *)
Fixpoint unique_names (n : node) {struct n} : bool :=
  match n with
  | File _ _ => true
  | Dir _ _ entries =>
      distinct (map node_name entries) && forallb unique_names entries
  end.

(** ** The scanner *)

Section Scanner.

(** The module constant [DOWNLOADS_PATH]. *)
Variable DOWNLOADS_PATH : path.

(** [datetime.fromtimestamp(t).isoformat()]: it depends on the local time
    zone and raises for a time stamp it cannot represent. *)
Variable fromtimestamp_isoformat : Z -> except string.

(** [get_file_data(file_path, relative_to)]; [st] is what
    [file_path.stat()] does.  The result [None] is Python's [None]. *)
Definition get_file_data (file_path : path) (st : except stat_result)
    (relative_to : option path) : except (option FileRecord.t) :=
  let body :=
    stat <- st ;;
    let name := path_name file_path in
    let name :=
      match relative_to with
      | Some ancestor =>
          match relative_to_path file_path ancestor with
          | Some rel => path_str rel
          | None => path_name file_path
          end
      | None => name
      end in
    let ext := lower (suffix (path_name file_path)) in
    let file_stem := stem (path_name file_path) in
    size <- format_size (st_size stat) ;;
    modified <- fromtimestamp_isoformat (st_mtime stat) ;;
    Returns (Some
      {| FileRecord.name := name;
         FileRecord.display_name :=
           substring 0 50 file_stem +++
           (if (50 <? String.length file_stem)%nat then "..." else "");
         FileRecord.extension :=
           match ext with
           | EmptyString => ""
           | String _ ext' => ext'
           end;
         FileRecord.type := get_file_type (path_name file_path);
         FileRecord.icon := get_file_icon (path_name file_path) false;
         FileRecord.size_bytes := st_size stat;
         FileRecord.size := size;
         FileRecord.modified := modified |}) in
  match body with
  | Raises e => if is_OSError e then Returns None else Raises e
  | returned => returned
  end.

(** The [for] loop of [scan_folder] over the events of the glob.  It
    returns the list and the sum it had built when it ended, and the
    exception that ended it, if any: one out of the generator, out of
    [item.is_file()] or out of [get_file_data].  On a directory
    [is_file()] is [False]. *)
Fixpoint scan_folder_loop (folder_path : path) (events : list glob_event)
    (files : list FileRecord.t) (total_size : Z)
  : list FileRecord.t * Z * option exn :=
  match events with
  | [] => (files, total_size, None)
  | GlobRaises e :: _ => (files, total_size, Some e)
  | Yield rel (Dir _ _ _) :: events' =>
      scan_folder_loop folder_path events' files total_size
  | Yield rel (File name st) :: events' =>
      match is_file (File name st) with
      | Raises e => (files, total_size, Some e)
      | Returns regular =>
          if regular && negb (startswith "." name) then
            match get_file_data (folder_path ++ rel) st (Some folder_path) with
            | Raises e => (files, total_size, Some e)
            | Returns (Some file_data) =>
                scan_folder_loop folder_path events' (files ++ [file_data])
                  (total_size + FileRecord.size_bytes file_data)
            | Returns None => scan_folder_loop folder_path events' files total_size
            end
          else scan_folder_loop folder_path events' files total_size
      end
  end.

Definition scan_folder (folder_path : path) (folder : node) : except FolderSummary.t :=
  let folder_name := path_name folder_path in
  let folder_lower := lower folder_name in
  let icon := dict_get folder_lower FOLDER_ICONS "ğŸ“" in
  let category := folder_category folder_lower in
  let '(files, total_size, raised) :=
    scan_folder_loop folder_path (rglob folder) [] 0 in
  _ <- match raised with
       | Some e => if is_PermissionError e then Returns tt else Raises e
       | None => Returns tt
       end ;;
  let files := sort_desc FileRecord.size_bytes files in
  let display_files := firstn 20 files in
  let hidden_count := if 20 <? len files then len files - 20 else 0 in
  total_size_formatted <- format_size total_size ;;
  Returns
    {| FolderSummary.name := folder_name;
       FolderSummary.icon := icon;
       FolderSummary.category := category;
       FolderSummary.files := display_files;
       FolderSummary.total_files := Some (len files);
       FolderSummary.hidden_files := Some hidden_count;
       FolderSummary.total_size := total_size;
       FolderSummary.total_size_formatted := Some total_size_formatted |}.

(** The [for item in items] loop of [scan_downloads].  [item.is_dir()] is
    [True] on a directory; on a file it is [False] or it raises, outside
    every [try]. *)
Fixpoint scan_items (items : list node) (folders : list FolderSummary.t)
    (root_files : list FileRecord.t)
  : except (list FolderSummary.t * list FileRecord.t) :=
  match items with
  | [] => Returns (folders, root_files)
  | item :: items' =>
      if startswith "." (node_name item) then scan_items items' folders root_files
      else if String.eqb (node_name item) "$RECYCLE.BIN" then
        scan_items items' folders root_files
      else
        match item with
        | Dir _ _ _ =>
            folder_data <- scan_folder (DOWNLOADS_PATH ++ [node_name item]) item ;;
            if nonempty (FolderSummary.files folder_data)
            then scan_items items' (folders ++ [folder_data]) root_files
            else scan_items items' folders root_files
        | File _ st =>
            _ <- is_dir item ;;
            file_data <- get_file_data (DOWNLOADS_PATH ++ [node_name item]) st None ;;
            match file_data with
            | Some file_data => scan_items items' folders (root_files ++ [file_data])
            | None => scan_items items' folders root_files
            end
        end
  end.

(** The dict appended for the loose root files. *)
Definition uncategorized (root_files : list FileRecord.t) : FolderSummary.t :=
  {| FolderSummary.name := "Uncategorized";
     FolderSummary.icon := "ğŸ“‚";
     FolderSummary.category := other;
     FolderSummary.files := root_files;
     FolderSummary.total_files := None;
     FolderSummary.hidden_files := None;
     FolderSummary.total_size := sum (map FileRecord.size_bytes root_files);
     FolderSummary.total_size_formatted := None |}.

(** The [result] dict as [scan_downloads] first builds it. *)
Definition initial_result (now : string) : ScanResult.t :=
  {| ScanResult.folders := [];
     ScanResult.stats :=
       {| Stats.total_files := 0;
          Stats.total_size := 0;
          Stats.categories := 0;
          Stats.file_types := FileTypesSet [];
          Stats.total_size_formatted := None |};
     ScanResult.scanned_at := now |}.

(** [scan_downloads()].  [root] is what is found at [DOWNLOADS_PATH]
    ([None]: the path does not exist), [now] is
    [datetime.now().isoformat()]. *)
Definition scan_downloads (root : option node) (now : string) : except ScanResult.t :=
  let result := initial_result now in
  match root with
  | None => Returns result
  | Some root_dir =>
      items <- iterdir root_dir ;;
      scanned <- scan_items items [] [] ;;
      let '(folders, root_files) := scanned in
      let folders :=
        if nonempty root_files then folders ++ [uncategorized root_files]
        else folders in
      let folders := sort_desc FolderSummary.total_size folders in
      let all_files := flat_map FolderSummary.files folders in
      let total_size := sum (map FileRecord.size_bytes all_files) in
      total_size_formatted <- format_size total_size ;;
      Returns
        {| ScanResult.folders := folders;
           ScanResult.stats :=
             {| Stats.total_files := len all_files;
                Stats.total_size := total_size;
                Stats.categories := len folders;
                Stats.file_types :=
                  FileTypesCount
                    (len (nodup string_dec
                            (filter (fun e => negb (String.eqb e ""))
                               (map FileRecord.extension all_files))));
                Stats.total_size_formatted := Some total_size_formatted |};
           ScanResult.scanned_at := ScanResult.scanned_at result |}
  end.

(** Where a record of the result comes from: the file at [rel] below the
    root, probed as the scanner probes a loose file (one segment) or a file
    of the subfolder named by the first segment. *)
Definition provenance (root_dir : node) (fs : FolderSummary.t) (r : FileRecord.t)
    (rel : path) : Prop :=
  exists st,
    In (rel, st) (tree_files [] root_dir) /\
    match rel with
    | [] => False
    | [_] =>
        get_file_data (DOWNLOADS_PATH ++ rel) st None = Returns (Some r) /\
        FolderSummary.name fs = "Uncategorized"
    | d :: _ =>
        get_file_data (DOWNLOADS_PATH ++ rel) st (Some (DOWNLOADS_PATH ++ [d]))
          = Returns (Some r) /\
        FolderSummary.name fs = d
    end.

(** Every record of a scan comes from a path none of whose segments is
    hidden or the trash folder. *)
Definition excluded_at_every_level (root_dir : node) (now : string) : Prop :=
  forall res fs r,
    scan_downloads (Some root_dir) now = Returns res ->
    In fs (ScanResult.folders res) ->
    In r (FolderSummary.files fs) ->
    exists rel,
      provenance root_dir fs r rel /\
      forallb (fun s => negb (excluded_segment s)) rel = true.


(** ** The scanner as a program *)

(** [get_file_data(file_path, relative_to)] with its call of [stat()]. *)
Definition get_file_data_io (file_path : path) (relative_to : option path)
  : prog (except (option FileRecord.t)) :=
  Call (Stat file_path) (fun st => Ret (get_file_data file_path st relative_to)).

(** The [for] loop of [scan_folder] over the paths that the generator
    yields; [ended] is the exception that ends the generator. *)
Fixpoint scan_folder_loop_io (folder_path : path) (yielded : list path)
    (ended : option exn) (files : list FileRecord.t) (total_size : Z)
  : prog (list FileRecord.t * Z * option exn) :=
  match yielded with
  | [] => Ret (files, total_size, ended)
  | rel :: yielded' =>
      let item := folder_path ++ rel in
      Call (IsFile item) (fun regular =>
        match regular with
        | Raises e => Ret (files, total_size, Some e)
        | Returns regular =>
            if regular && negb (startswith "." (path_name item)) then
              Call (Stat item) (fun st =>
                match get_file_data item st (Some folder_path) with
                | Raises e => Ret (files, total_size, Some e)
                | Returns (Some file_data) =>
                    scan_folder_loop_io folder_path yielded' ended
                      (files ++ [file_data])
                      (total_size + FileRecord.size_bytes file_data)
                | Returns None =>
                    scan_folder_loop_io folder_path yielded' ended files total_size
                end)
            else scan_folder_loop_io folder_path yielded' ended files total_size
        end)
  end.

(** What [scan_folder] does once its loop has ended. *)
Definition folder_summary (folder_path : path) (files : list FileRecord.t)
    (total_size : Z) (raised : option exn) : except FolderSummary.t :=
  let folder_name := path_name folder_path in
  let folder_lower := lower folder_name in
  let icon := dict_get folder_lower FOLDER_ICONS "ğŸ“" in
  let category := folder_category folder_lower in
  _ <- match raised with
       | Some e => if is_PermissionError e then Returns tt else Raises e
       | None => Returns tt
       end ;;
  let files := sort_desc FileRecord.size_bytes files in
  let display_files := firstn 20 files in
  let hidden_count := if 20 <? len files then len files - 20 else 0 in
  total_size_formatted <- format_size total_size ;;
  Returns
    {| FolderSummary.name := folder_name;
       FolderSummary.icon := icon;
       FolderSummary.category := category;
       FolderSummary.files := display_files;
       FolderSummary.total_files := Some (len files);
       FolderSummary.hidden_files := Some hidden_count;
       FolderSummary.total_size := total_size;
       FolderSummary.total_size_formatted := Some total_size_formatted |}.

(** [scan_folder(folder_path)] with its calls. *)
Definition scan_folder_io (folder_path : path) : prog (except FolderSummary.t) :=
  Call (Rglob folder_path) (fun globbed =>
    let '(yielded, ended) := globbed in
    prog_bind (scan_folder_loop_io folder_path yielded ended [] 0) (fun looped =>
      let '(files, total_size, raised) := looped in
      Ret (folder_summary folder_path files total_size raised))).

(** The [for item in items] loop of [scan_downloads] with its calls. *)
Fixpoint scan_items_io (names : list string) (folders : list FolderSummary.t)
    (root_files : list FileRecord.t)
  : prog (except (list FolderSummary.t * list FileRecord.t)) :=
  match names with
  | [] => Ret (Returns (folders, root_files))
  | name :: names' =>
      let item := DOWNLOADS_PATH ++ [name] in
      if startswith "." name then scan_items_io names' folders root_files
      else if String.eqb name "$RECYCLE.BIN" then
        scan_items_io names' folders root_files
      else
        Call (IsDir item) (fun directory =>
          match directory with
          | Raises e => Ret (Raises e)
          | Returns true =>
              prog_bind (scan_folder_io item) (fun folder_data =>
                match folder_data with
                | Raises e => Ret (Raises e)
                | Returns folder_data =>
                    if nonempty (FolderSummary.files folder_data)
                    then scan_items_io names' (folders ++ [folder_data]) root_files
                    else scan_items_io names' folders root_files
                end)
          | Returns false =>
              prog_bind (get_file_data_io item None) (fun file_data =>
                match file_data with
                | Raises e => Ret (Raises e)
                | Returns (Some file_data) =>
                    scan_items_io names' folders (root_files ++ [file_data])
                | Returns None => scan_items_io names' folders root_files
                end)
          end)
  end.

(** What [scan_downloads] does once its loop has ended. *)
Definition scan_result (now : string) (folders : list FolderSummary.t)
    (root_files : list FileRecord.t) : except ScanResult.t :=
  let result := initial_result now in
  let folders :=
    if nonempty root_files then folders ++ [uncategorized root_files]
    else folders in
  let folders := sort_desc FolderSummary.total_size folders in
  let all_files := flat_map FolderSummary.files folders in
  let total_size := sum (map FileRecord.size_bytes all_files) in
  total_size_formatted <- format_size total_size ;;
  Returns
    {| ScanResult.folders := folders;
       ScanResult.stats :=
         {| Stats.total_files := len all_files;
            Stats.total_size := total_size;
            Stats.categories := len folders;
            Stats.file_types :=
              FileTypesCount
                (len (nodup string_dec
                        (filter (fun e => negb (String.eqb e ""))
                           (map FileRecord.extension all_files))));
            Stats.total_size_formatted := Some total_size_formatted |};
       ScanResult.scanned_at := ScanResult.scanned_at result |}.

(** [scan_downloads()] from the point where it has read the clock. *)
Definition scan_downloads_at (now : string) : prog (except ScanResult.t) :=
  let result := initial_result now in
  Call (Exists DOWNLOADS_PATH) (fun found =>
    match found with
    | Raises e => Ret (Raises e)
    | Returns false => Ret (Returns result)
    | Returns true =>
        Call (Iterdir DOWNLOADS_PATH) (fun items =>
          match items with
          | Raises e => Ret (Raises e)
          | Returns names =>
              prog_bind (scan_items_io names [] []) (fun scanned =>
                match scanned with
                | Raises e => Ret (Raises e)
                | Returns (folders, root_files) =>
                    Ret (scan_result now folders root_files)
                end)
          end)
    end).

(** [scan_downloads()] with its calls. *)
Definition scan_downloads_io : prog (except ScanResult.t) :=
  Call Now scan_downloads_at.

(** What is found at the path [p] when the tree [root] is at
    [DOWNLOADS_PATH]. *)
Definition entry_at (root : option node) (p : path) : option node :=
  match relative_to_path p DOWNLOADS_PATH, root with
  | Some rel, Some n => lookup n rel
  | _, _ => None
  end.

(** An operating system with the tree [root] at [DOWNLOADS_PATH], which
    never changes, and a clock that every call advances. *)
Definition tree_os (root : option node) (c : os_call) (clock : Z) : answer c * Z :=
  (match c return answer c with
   | Now => str_of_int clock
   | Exists p =>
       match entry_at root p with
       | Some _ => Returns true
       | None => Returns false
       end
   | Iterdir p =>
       match entry_at root p with
       | Some n => entries <- iterdir n ;; Returns (map node_name entries)
       | None => Raises FileNotFoundError
       end
   | IsDir p =>
       match entry_at root p with
       | Some n => is_dir n
       | None => Returns false
       end
   | Rglob p =>
       match entry_at root p with
       | Some n => glob_answer (rglob n)
       | None => ([], None)
       end
   | IsFile p =>
       match entry_at root p with
       | Some n => is_file n
       | None => Returns false
       end
   | Stat p =>
       match entry_at root p with
       | Some (File _ st) => st
       | Some (Dir _ _ _) => Returns (mkstat 0 0)
       | None => Raises FileNotFoundError
       end
   end, clock + 1).

(** * Properties *)

(** ** Size formatter *)

Lemma append_assoc (a b c : string) : (a +++ b) +++ c = a +++ b +++ c.
Proof.
  induction a as [| ch a IH]; simpl; [reflexivity | now rewrite IH].
Qed.

Lemma round53_small (a : Z) : 0 <= a < 2 ^ 53 -> round53 a = a.
Proof.
  intros [H0 H1]. unfold round53.
  assert (Hbits : Z.log2 a + 1 <= 53).
  { destruct (Z.eq_dec a 0) as [-> | Hne]; [simpl; lia |].
    assert (Z.log2 a < 53) by (apply Z.log2_lt_pow2; lia). lia. }
  apply Z.leb_le in Hbits. now rewrite Hbits.
Qed.

Lemma round_half_even_near (num den : Z) :
  0 < den -> Z.abs (2 * num - 2 * den * round_half_even num den) <= den.
Proof.
  intros Hden. unfold round_half_even.
  pose proof (Z.div_mod num den ltac:(lia)) as Hdm.
  pose proof (Z.mod_pos_bound num den Hden) as Hr.
  set (q := num / den) in *. set (r := num mod den) in *.
  destruct (2 * r <? den) eqn:E1; [apply Z.ltb_lt in E1; nia |].
  apply Z.ltb_ge in E1.
  destruct (den <? 2 * r) eqn:E2; [apply Z.ltb_lt in E2; nia |].
  apply Z.ltb_ge in E2.
  destruct (Z.even q); nia.
Qed.

Lemma round_half_even_nonneg (num den : Z) :
  0 <= num -> 0 < den -> 0 <= round_half_even num den.
Proof.
  intros Hnum Hden. unfold round_half_even.
  assert (0 <= num / den) by (apply Z.div_pos; lia).
  repeat match goal with |- context [if ?c then _ else _] => destruct c end; lia.
Qed.

(** A numeral with one decimal: the digits of the value in tenths. *)
Lemma fixed_point_1 (n : Z) (tail : string) :
  fixed_point 1 n +++ tail =
  str_of_int (n / 10) +++ "." +++ String (digit (n mod 10)) tail.
Proof.
  unfold fixed_point. change (10 ^ Z.of_nat 1) with 10.
  cbn [frac_digits].
  rewrite Z.mod_mod by lia.
  rewrite !append_assoc. reflexivity.
Qed.

(** A numeral with two decimals: the digits of the value in hundredths. *)
Lemma fixed_point_2 (n : Z) (tail : string) :
  fixed_point 2 n +++ tail =
  str_of_int (n / 100) +++ "." +++
  String (digit (n / 10 mod 10)) (String (digit (n mod 10)) tail).
Proof.
  clear DOWNLOADS_PATH fromtimestamp_isoformat.
  unfold fixed_point. change (10 ^ Z.of_nat 2) with 100.
  cbn [frac_digits].
  replace ((n mod 100 / 10) mod 10) with (n / 10 mod 10)
    by (Z.div_mod_to_equations; lia).
  replace ((n mod 100) mod 10) with (n mod 10)
    by (Z.div_mod_to_equations; lia).
  rewrite !append_assoc. reflexivity.
Qed.

(** What [round53] does above 53 bits, with the bit operations written as
    arithmetic: [a = q * t + r] with [t = 2 * half], and the result is
    [q * t] or [(q + 1) * t]. *)
Lemma round53_large (a : Z) :
  53 < Z.log2 a + 1 ->
  exists half q r q',
    0 < half /\ 2 ^ (Z.log2 a + 1) = 2 ^ 53 * (2 * half) /\
    (Z.log2 a + 1 = 1054 -> half = 2 ^ 1000) /\
    a = q * (2 * half) + r /\ 0 <= r < 2 * half /\
    2 ^ 52 <= q < 2 ^ 53 /\
    q' = (if r <? half then q
          else if half <? r then q + 1
          else if Z.even q then q else q + 1) /\
    round53 a = q' * (2 * half).
Proof.
  intros Hbits.
  assert (Hpos : 0 < a).
  { destruct (Z.le_gt_cases a 0); [| assumption].
    rewrite Z.log2_nonpos in Hbits by assumption. lia. }
  pose proof (Z.log2_spec a Hpos) as [Hlo Hhi].
  set (L := Z.log2 a) in *.
  set (sh := L + 1 - 53).
  assert (Hsh : 1 <= sh) by (unfold sh; lia).
  assert (Hhalf : 0 < 2 ^ (sh - 1)) by (apply Z.pow_pos_nonneg; lia).
  assert (HT : 2 ^ sh = 2 * 2 ^ (sh - 1)).
  { replace sh with (1 + (sh - 1)) at 1 by lia.
    rewrite Z.pow_add_r by lia. reflexivity. }
  assert (HL1 : 2 ^ (L + 1) = 2 ^ 53 * 2 ^ sh).
  { replace (L + 1) with (53 + sh) by (unfold sh; lia).
    apply Z.pow_add_r; lia. }
  assert (HL0 : 2 ^ L = 2 ^ 52 * 2 ^ sh).
  { replace L with (52 + sh) at 1 by (unfold sh; lia).
    apply Z.pow_add_r; lia. }
  exists (2 ^ (sh - 1)), (a / 2 ^ sh), (a mod 2 ^ sh).
  eexists. rewrite <- HT.
  repeat split; try reflexivity.
  - assumption.
  - assumption.
  - intros E. replace (sh - 1) with 1000 by (unfold sh; lia). reflexivity.
  - rewrite Z.mul_comm. apply Z.div_mod. lia.
  - apply Z.mod_pos_bound. lia.
  - apply Z.mod_pos_bound. lia.
  - apply Z.div_le_lower_bound; lia.
  - apply Z.div_lt_upper_bound; lia.
  - unfold round53. fold L.
    destruct (L + 1 <=? 53) eqn:E; [apply Z.leb_le in E; lia |].
    fold sh.
    rewrite Z.shiftr_div_pow2, Z.land_ones, !Z.shiftl_mul_pow2 by lia.
    rewrite Z.mul_1_l. reflexivity.
Qed.

Lemma round53_fits (b : Z) :
  0 <= b < 2 ^ 1054 - 2 ^ 1000 -> round53 b < 2 ^ 1054.
Proof.
  intros [H0 H1].
  assert (Hp : 0 < 2 ^ 1000) by (apply Z.pow_pos_nonneg; lia).
  destruct (Z.le_gt_cases (Z.log2 b + 1) 53) as [Hs | Hl].
  - unfold round53. apply Z.leb_le in Hs. rewrite Hs. lia.
  - destruct (round53_large b Hl)
      as (half & q & r & q' & Hh & Hpow & H1054 & Hb & Hr & Hq & Hq' & ->).
    assert (Hle : q' * (2 * half) <= b + half /\ q' <= 2 ^ 53).
    { subst q'.
      destruct (r <? half) eqn:E1; [apply Z.ltb_lt in E1; nia |].
      apply Z.ltb_ge in E1.
      destruct (half <? r); [nia |].
      destruct (Z.even q); nia. }
    destruct Hle as [Hle1 Hle2].
    destruct (Z.lt_trichotomy (Z.log2 b + 1) 1054) as [Hlt | [Heq | Hgt]].
    + assert (2 ^ (Z.log2 b + 1) <= 2 ^ 1053) by (apply Z.pow_le_mono_r; lia).
      assert (2 ^ 1054 = 2 * 2 ^ 1053) by (change 1054 with (1 + 1053);
        rewrite Z.pow_add_r by lia; reflexivity).
      assert (0 < 2 ^ 1053) by (apply Z.pow_pos_nonneg; lia).
      nia.
    + rewrite (H1054 Heq) in *. lia.
    + assert (2 ^ 1054 <= 2 ^ Z.log2 b) by (apply Z.pow_le_mono_r; lia).
      assert (0 < b) by (destruct (Z.eq_dec b 0) as [-> |]; [simpl in Hl |]; lia).
      pose proof (Z.log2_spec b H2). lia.
Qed.

Lemma round53_overflows (b : Z) :
  2 ^ 1054 - 2 ^ 1000 <= b -> 2 ^ 1054 <= round53 b.
Proof.
  intros H1.
  assert (Hp : 0 < 2 ^ 1000) by (apply Z.pow_pos_nonneg; lia).
  assert (H1053 : 2 ^ 1053 <= b).
  { assert (2 ^ 1054 = 2 * 2 ^ 1053) by (change 1054 with (1 + 1053);
      rewrite Z.pow_add_r by lia; reflexivity).
    assert (2 ^ 1000 <= 2 ^ 1053) by (apply Z.pow_le_mono_r; lia).
    lia. }
  assert (Hpos : 0 < b).
  { assert (0 < 2 ^ 1053) by (apply Z.pow_pos_nonneg; lia). lia. }
  assert (Hl : 1053 <= Z.log2 b) by (apply Z.log2_le_pow2; lia).
  destruct (round53_large b ltac:(lia))
    as (half & q & r & q' & Hh & Hpow & H1054 & Hb & Hr & Hq & Hq' & ->).
  assert (Hge : q <= q').
  { subst q'. repeat match goal with |- context [if ?c then _ else _] => destruct c end; lia. }
  destruct (Z.eq_dec (Z.log2 b + 1) 1054) as [Heq | Hne].
  - rewrite Heq in Hpow. specialize (H1054 Heq). subst half.
    assert (Hq53 : q = 2 ^ 53 - 1) by nia.
    assert (Hrh : 2 ^ 1000 <= r) by nia.
    assert (Hq'53 : q' = q + 1).
    { subst q'.
      destruct (r <? 2 ^ 1000) eqn:E1; [apply Z.ltb_lt in E1; lia |].
      destruct (2 ^ 1000 <? r); [reflexivity |].
      rewrite Hq53. reflexivity. }
    nia.
  - assert (2 ^ 1054 <= 2 ^ Z.log2 b) by (apply Z.pow_le_mono_r; lia).
    assert (2 ^ (Z.log2 b + 1) = 2 * 2 ^ Z.log2 b).
    { rewrite Z.add_comm, Z.pow_add_r by lia. reflexivity. }
    nia.
Qed.

Lemma truediv_pow2_exact (a k : Z) :
  0 <= a < 2 ^ 53 -> 0 <= k -> truediv_pow2 a k = Returns (mkfloat a k).
Proof.
  intros Ha Hk. unfold truediv_pow2. rewrite round53_small by assumption.
  assert (2 ^ 53 <= 2 ^ (1024 + k)) by (apply Z.pow_le_mono_r; lia).
  destruct (2 ^ (1024 + k) <=? a) eqn:E; [apply Z.leb_le in E; lia | reflexivity].
Qed.

Lemma format_one_decimal (m k : Z) (tail : string) :
  0 <= m -> 0 <= k ->
  exists whole tenth,
    0 <= whole /\ 0 <= tenth <= 9 /\
    format_f 1 (mkfloat m k) +++ tail =
      str_of_int whole +++ "." +++ String (digit tenth) tail /\
    2 * Z.abs (10 * m - 2 ^ k * (10 * whole + tenth)) <= 2 ^ k.
Proof.
  intros Hm Hk. unfold format_f. cbn [mant scale].
  change (10 ^ Z.of_nat 1) with 10.
  assert (Hden : 0 < 2 ^ k) by (apply Z.pow_pos_nonneg; lia).
  pose proof (round_half_even_near (m * 10) (2 ^ k) Hden) as Hnear.
  pose proof (round_half_even_nonneg (m * 10) (2 ^ k) ltac:(lia) Hden) as Hnn.
  set (n := round_half_even (m * 10) (2 ^ k)) in *.
  exists (n / 10), (n mod 10).
  pose proof (Z.div_mod n 10 ltac:(lia)) as Hdm.
  pose proof (Z.mod_pos_bound n 10 ltac:(lia)) as Hr.
  repeat split.
  - apply Z.div_pos; lia.
  - lia.
  - lia.
  - apply fixed_point_1.
  - rewrite <- Hdm. lia.
Qed.

Lemma format_two_decimals (m k : Z) (tail : string) :
  0 <= m -> 0 <= k ->
  exists whole d1 d2,
    0 <= whole /\ 0 <= d1 <= 9 /\ 0 <= d2 <= 9 /\
    format_f 2 (mkfloat m k) +++ tail =
      str_of_int whole +++ "." +++ String (digit d1) (String (digit d2) tail) /\
    2 * Z.abs (100 * m - 2 ^ k * (100 * whole + 10 * d1 + d2)) <= 2 ^ k.
Proof.
  clear DOWNLOADS_PATH fromtimestamp_isoformat.
  intros Hm Hk. unfold format_f. cbn [mant scale].
  change (10 ^ Z.of_nat 2) with 100.
  assert (Hden : 0 < 2 ^ k) by (apply Z.pow_pos_nonneg; lia).
  pose proof (round_half_even_near (m * 100) (2 ^ k) Hden) as Hnear.
  pose proof (round_half_even_nonneg (m * 100) (2 ^ k) ltac:(lia) Hden) as Hnn.
  set (n := round_half_even (m * 100) (2 ^ k)) in *.
  exists (n / 100), (n / 10 mod 10), (n mod 10).
  assert (Hn : 100 * (n / 100) + 10 * (n / 10 mod 10) + n mod 10 = n)
    by (Z.div_mod_to_equations; lia).
  repeat split.
  - apply Z.div_pos; lia.
  - apply Z.mod_pos_bound; lia.
  - pose proof (Z.mod_pos_bound (n / 10) 10 ltac:(lia)); lia.
  - apply Z.mod_pos_bound; lia.
  - pose proof (Z.mod_pos_bound n 10 ltac:(lia)); lia.
  - apply fixed_point_2.
  - rewrite Hn. lia.
Qed.

(** C3 (as amended).  For every byte count [b] the formatter picks the
    unit by the 1024-based thresholds: the decimal numeral and [" B"] below
    1024; below [1024 ^ 2] a numeral with one decimal, the nearest tenth of
    [b / 1024], and [" KB"]; below [1024 ^ 3] the same in [" MB"]; from
    there on a numeral with two decimals and [" GB"] (the nearest hundredth
    of [b / 1024 ^ 3] as long as [b] is exact as a double), up to the first
    [b] whose quotient is no double, [2 ^ 1054 - 2 ^ 1000]; from that [b]
    on the division raises [OverflowError].  The four values the
    specification lists are as it gives them. *)
Theorem format_size_units (b : Z) :
  (0 <= b < 1024 -> format_size b = Returns (str_of_int b +++ " B")) /\
  (1024 <= b < 1024 ^ 2 ->
     exists whole tenth,
       0 <= whole /\ 0 <= tenth <= 9 /\
       format_size b =
         Returns (str_of_int whole +++ "." +++ String (digit tenth) " KB") /\
       Z.abs (10 * b - 1024 * (10 * whole + tenth)) <= 512) /\
  (1024 ^ 2 <= b < 1024 ^ 3 ->
     exists whole tenth,
       0 <= whole /\ 0 <= tenth <= 9 /\
       format_size b =
         Returns (str_of_int whole +++ "." +++ String (digit tenth) " MB") /\
       2 * Z.abs (10 * b - 1024 ^ 2 * (10 * whole + tenth)) <= 1024 ^ 2) /\
  (1024 ^ 3 <= b < 2 ^ 1054 - 2 ^ 1000 ->
     exists whole d1 d2,
       0 <= whole /\ 0 <= d1 <= 9 /\ 0 <= d2 <= 9 /\
       format_size b =
         Returns (str_of_int whole +++ "." +++
                  String (digit d1) (String (digit d2) " GB")) /\
       (b < 2 ^ 53 ->
        2 * Z.abs (100 * b - 1024 ^ 3 * (100 * whole + 10 * d1 + d2)) <= 1024 ^ 3)) /\
  (2 ^ 1054 - 2 ^ 1000 <= b -> format_size b = Raises OverflowError) /\
  format_size 500 = Returns "500 B" /\
  format_size 2048 = Returns "2.0 KB" /\
  format_size 1500000 = Returns "1.4 MB" /\
  format_size 2147483648 = Returns "2.00 GB".
Proof.
  assert (E10 : 2 ^ 10 = 1024) by reflexivity.
  assert (E20 : 2 ^ 20 = 1024 ^ 2) by reflexivity.
  assert (E30 : 2 ^ 30 = 1024 ^ 3) by reflexivity.
  assert (Hp : 0 < 2 ^ 1000) by (apply Z.pow_pos_nonneg; lia).
  assert (H53 : 1024 ^ 3 < 2 ^ 53) by reflexivity.
  assert (Hbig : 2 ^ 53 <= 2 ^ 1054 - 2 ^ 1000).
  { assert (2 ^ 53 <= 2 ^ 1000) by (apply Z.pow_le_mono_r; lia).
    assert (2 ^ 1054 = 2 ^ 54 * 2 ^ 1000) by (change 1054 with (54 + 1000);
      apply Z.pow_add_r; lia).
    assert (2 <= 2 ^ 54) by (change 2 with (2 ^ 1) at 1; apply Z.pow_le_mono_r; lia).
    nia. }
  split; [| split; [| split; [| split; [| split]]]];
    [ | | | | | repeat split; vm_compute; reflexivity ].
  - intros [H0 H1]. unfold format_size.
    apply Z.ltb_lt in H1. now rewrite H1.
  - intros [H0 H1]. unfold format_size.
    destruct (b <? 1024) eqn:A; [apply Z.ltb_lt in A; lia |].
    destruct (b <? 1024 * 1024) eqn:B; [| apply Z.ltb_ge in B; lia].
    rewrite truediv_pow2_exact by lia. cbn [bind].
    destruct (format_one_decimal b 10 " KB" ltac:(lia) ltac:(lia))
      as (whole & tenth & Hw & Ht & Hs & Hn).
    exists whole, tenth. rewrite Hs, E10 in *.
    repeat split; try assumption; lia.
  - intros [H0 H1]. unfold format_size.
    destruct (b <? 1024) eqn:A; [apply Z.ltb_lt in A; lia |].
    destruct (b <? 1024 * 1024) eqn:B; [apply Z.ltb_lt in B; lia |].
    destruct (b <? 1024 * 1024 * 1024) eqn:C; [| apply Z.ltb_ge in C; lia].
    rewrite truediv_pow2_exact by lia. cbn [bind].
    destruct (format_one_decimal b 20 " MB" ltac:(lia) ltac:(lia))
      as (whole & tenth & Hw & Ht & Hs & Hn).
    exists whole, tenth. rewrite Hs, E20 in *.
    repeat split; try assumption; lia.
  - intros [H0 H1]. unfold format_size.
    destruct (b <? 1024) eqn:A; [apply Z.ltb_lt in A; lia |].
    destruct (b <? 1024 * 1024) eqn:B; [apply Z.ltb_lt in B; lia |].
    destruct (b <? 1024 * 1024 * 1024) eqn:C; [apply Z.ltb_lt in C; lia |].
    unfold truediv_pow2.
    pose proof (round53_fits b ltac:(lia)) as Hfit.
    change (1024 + 30) with 1054.
    destruct (2 ^ 1054 <=? round53 b) eqn:D; [apply Z.leb_le in D; lia |].
    cbn [bind].
    assert (Hm : 0 <= round53 b).
    { destruct (Z.le_gt_cases (Z.log2 b + 1) 53) as [Hs | Hl].
      - unfold round53. apply Z.leb_le in Hs. rewrite Hs. lia.
      - destruct (round53_large b Hl)
          as (half & q & r & q' & Hh & _ & _ & _ & _ & Hq & Hq' & ->).
        assert (0 <= q').
        { assert (0 < 2 ^ 52) by (apply Z.pow_pos_nonneg; lia).
          subst q'.
          repeat match goal with
                 | |- context [if ?c then _ else _] => destruct c
                 end; lia. }
        nia. }
    destruct (format_two_decimals (round53 b) 30 " GB" Hm ltac:(lia))
      as (whole & d1 & d2 & Hw & Hd1 & Hd2 & Hs & Hn).
    exists whole, d1, d2. rewrite Hs.
    repeat split; try assumption; try lia.
    intros Hb53. rewrite round53_small, E30 in Hn by lia. exact Hn.
  - intros Hb. unfold format_size.
    assert (1024 ^ 3 < b) by lia.
    destruct (b <? 1024) eqn:A; [apply Z.ltb_lt in A; lia |].
    destruct (b <? 1024 * 1024) eqn:B; [apply Z.ltb_lt in B; lia |].
    destruct (b <? 1024 * 1024 * 1024) eqn:C; [apply Z.ltb_lt in C; lia |].
    unfold truediv_pow2. change (1024 + 30) with 1054.
    pose proof (round53_overflows b Hb) as Hov.
    apply Z.leb_le in Hov. now rewrite Hov.
Qed.

(** ** Classifier *)

Lemma first_match_skip (earlier later : list (list string * category))
    (folder_lower : string) :
  none_matches earlier folder_lower ->
  first_match (earlier ++ later) folder_lower = first_match later folder_lower.
Proof.
  induction 1 as [| [alternatives cat] earlier Hhead _ IH]; simpl.
  - reflexivity.
  - simpl in Hhead. rewrite Hhead. exact IH.
Qed.

Lemma first_match_none (chain : list (list string * category)) (folder_lower : string) :
  none_matches chain folder_lower -> first_match chain folder_lower = other.
Proof.
  intros H. rewrite <- (app_nil_r chain). now rewrite first_match_skip.
Qed.

Ltac split_str_in :=
  repeat (match goal with
          | |- context [str_in ?sub ?s] => destruct (str_in sub s)
          end; cbn [orb]; try reflexivity).

(** The [if]/[elif] chain is the first-match search over [heuristic_chain]. *)
Lemma folder_category_chain (folder_lower : string) :
  folder_category folder_lower = first_match heuristic_chain folder_lower.
Proof.
  unfold folder_category, heuristic_chain.
  cbn [first_match predicate_matches existsb].
  split_str_in.
Qed.

(** C4.  The folder heuristic is an ordered first-match-wins chain: it is
    the first-match search over the ordered list of predicates; whenever a
    predicate matches and none before it does, its category is returned;
    when none matches the result is [other]; and "Video Projects" is
    [video] although the predicate for "project" matches it too. *)
Theorem folder_category_first_match_wins :
  (forall name,
     folder_category (lower name) = first_match heuristic_chain (lower name)) /\
  (forall name earlier alternatives cat later,
     heuristic_chain = earlier ++ (alternatives, cat) :: later ->
     none_matches earlier (lower name) ->
     predicate_matches alternatives (lower name) = true ->
     folder_category (lower name) = cat) /\
  (forall name,
     none_matches heuristic_chain (lower name) ->
     folder_category (lower name) = other) /\
  folder_category (lower "Video Projects") = video /\
  predicate_matches ["code"; "project"] (lower "Video Projects") = true.
Proof.
  split; [| split; [| split; [| split]]].
  - intros name. apply folder_category_chain.
  - intros name earlier alternatives cat later Hchain Hnone Hmatch.
    rewrite folder_category_chain, Hchain, first_match_skip by assumption.
    cbn [first_match]. now rewrite Hmatch.
  - intros name Hnone. rewrite folder_category_chain.
    now apply first_match_none.
  - reflexivity.
  - reflexivity.
Qed.

(** C9.  The folder heuristic only returns [video], [audio], [image],
    [document], [installer], [archive] or [other], never [code] or [data];
    a name with "code" or "project" that matches none of the eight earlier
    predicates is [archive]; a name with "ai" that matches none of the six
    earlier predicates is [document], as "Email" and "Repair" are. *)
Theorem folder_category_range (name : string) :
  In (folder_category (lower name))
     [video; audio; image; document; installer; archive; other] /\
  folder_category (lower name) <> code /\
  folder_category (lower name) <> data /\
  (none_matches (firstn 8 heuristic_chain) (lower name) ->
   str_in "code" (lower name) || str_in "project" (lower name) = true ->
   folder_category (lower name) = archive) /\
  (none_matches (firstn 6 heuristic_chain) (lower name) ->
   str_in "ai" (lower name) = true ->
   folder_category (lower name) = document) /\
  folder_category (lower "Email") = document /\
  folder_category (lower "Repair") = document.
Proof.
  assert (Hrange : In (folder_category (lower name))
                      [video; audio; image; document; installer; archive; other]).
  { unfold folder_category.
    repeat match goal with
           | |- context [if ?c then _ else _] => destruct c
           end; simpl; tauto. }
  split; [exact Hrange |].
  split; [intros E; rewrite E in Hrange; simpl in Hrange;
          repeat (destruct Hrange as [Hrange | Hrange]; try discriminate Hrange);
          exact Hrange |].
  split; [intros E; rewrite E in Hrange; simpl in Hrange;
          repeat (destruct Hrange as [Hrange | Hrange]; try discriminate Hrange);
          exact Hrange |].
  split; [| split; [| split; reflexivity]].
  - intros Hnone Hmatch. rewrite folder_category_chain.
    change heuristic_chain
      with (firstn 8 heuristic_chain ++ skipn 8 heuristic_chain).
    rewrite first_match_skip by assumption.
    cbn [skipn heuristic_chain first_match predicate_matches existsb].
    rewrite orb_false_r, Hmatch. reflexivity.
  - intros Hnone Hmatch. rewrite folder_category_chain.
    change heuristic_chain
      with (firstn 6 heuristic_chain ++ skipn 6 heuristic_chain).
    rewrite first_match_skip by assumption.
    cbn [skipn heuristic_chain first_match predicate_matches existsb].
    rewrite Hmatch. reflexivity.
Qed.

(** ** Sorting and truncation *)

Lemma insert_desc_perm {A : Type} (key : A -> Z) (x : A) (l : list A) :
  Permutation (insert_desc key x l) (x :: l).
Proof.
  induction l as [| y l IH]; simpl.
  - apply Permutation_refl.
  - destruct (key x <? key y).
    + eapply perm_trans; [apply perm_skip, IH | apply perm_swap].
    + apply Permutation_refl.
Qed.

Lemma sort_desc_perm {A : Type} (key : A -> Z) (l : list A) :
  Permutation (sort_desc key l) l.
Proof.
  induction l as [| x l IH]; simpl.
  - apply perm_nil.
  - eapply perm_trans; [apply insert_desc_perm | apply perm_skip, IH].
Qed.

Lemma sort_desc_In {A : Type} (key : A -> Z) (l : list A) (x : A) :
  In x (sort_desc key l) <-> In x l.
Proof.
  split; apply Permutation_in;
    [apply sort_desc_perm | apply Permutation_sym, sort_desc_perm].
Qed.

Lemma sort_desc_length {A : Type} (key : A -> Z) (l : list A) :
  len (sort_desc key l) = len l.
Proof.
  unfold len. now rewrite (Permutation_length (sort_desc_perm key l)).
Qed.

Lemma insert_desc_sorted {A : Type} (key : A -> Z) (x : A) (l : list A) :
  StronglySorted (ge_key key) l -> StronglySorted (ge_key key) (insert_desc key x l).
Proof.
  induction 1 as [| y l Hs IH Hall]; simpl.
  - constructor; constructor.
  - destruct (key x <? key y) eqn:E.
    + apply Z.ltb_lt in E. constructor; [exact IH |].
      apply Forall_forall. intros z Hz.
      apply (Permutation_in _ (insert_desc_perm key x l)) in Hz.
      destruct Hz as [<- | Hz]; [unfold ge_key; lia |].
      rewrite Forall_forall in Hall. now apply Hall.
    + apply Z.ltb_ge in E. constructor; [now constructor |].
      constructor; [exact E |].
      eapply Forall_impl; [| exact Hall].
      intros z Hz. unfold ge_key in *. lia.
Qed.

Lemma sort_desc_sorted {A : Type} (key : A -> Z) (l : list A) :
  StronglySorted (ge_key key) (sort_desc key l).
Proof.
  induction l as [| x l IH]; simpl; [constructor | now apply insert_desc_sorted].
Qed.

Lemma In_firstn {A : Type} (n : nat) (l : list A) (x : A) :
  In x (firstn n l) -> In x l.
Proof.
  revert l. induction n as [| n IH]; intros [| y l]; simpl; try tauto.
  intros [H | H]; [now left | right; now apply IH].
Qed.


Lemma sorted_descending {A : Type} (key : A -> Z) (l : list A) :
  StronglySorted (ge_key key) l -> descending key l.
Proof.
  induction 1 as [| y l Hs IH Hall]; intros i a b Ha Hb.
  - destruct i; discriminate Ha.
  - destruct i as [| i]; simpl in Ha, Hb.
    + injection Ha as <-. destruct l as [| z l]; [discriminate Hb |].
      simpl in Hb. injection Hb as <-.
      inversion Hall; assumption.
    + exact (IH i a b Ha Hb).
Qed.


(** ** Paths *)

Lemma path_name_child (p : path) (name : string) : path_name (p ++ [name]) = name.
Proof.
  apply last_last.
Qed.

Lemma relative_to_path_prefix (p rel : path) : relative_to_path (p ++ rel) p = Some rel.
Proof.
  induction p as [| s p IH]; simpl; [reflexivity |].
  now rewrite String.eqb_refl.
Qed.

Lemma node_nested_ind (P : node -> Prop) :
  (forall name st, P (File name st)) ->
  (forall name access entries, Forall P entries -> P (Dir name access entries)) ->
  forall n, P n.
Proof.
  intros HF HD. fix IH 1. intros [name st | name access entries].
  - apply HF.
  - apply HD. revert entries. fix IHl 1. intros [| c cs].
    + constructor.
    + constructor; [apply IH | apply IHl].
Qed.

(** Every file the glob yields is a file of the tree, at the path the glob
    gives it; the last segment of that path is the name of the file. *)
Lemma rglob_tree_files (folder : node) :
  forall (rel pfx rel' : path) (name : string) (st : except stat_result),
    In (Yield rel' (File name st)) (rglob_from rel folder) ->
    In (pfx ++ rel', st) (tree_files (pfx ++ rel) folder) /\
    exists parent, rel' = rel ++ parent ++ [name].
Proof.
  induction folder as [name0 st0 | name0 access entries IH] using node_nested_ind;
    intros rel pfx rel' name st Hin.
  - contradiction.
  - destruct access; simpl in Hin; try contradiction.
    + apply in_app_or in Hin. destruct Hin as [Hin | Hin].
      * apply in_map_iff in Hin. destruct Hin as (c & Hc & Hin).
        injection Hc as <- ->. split.
        -- simpl. apply in_flat_map. exists (File name st). split; [exact Hin |].
           simpl. left. now rewrite app_assoc.
        -- exists []. reflexivity.
      * apply in_flat_map in Hin. destruct Hin as (c & Hc & Hin).
        rewrite Forall_forall in IH.
        destruct (IH c Hc _ pfx _ _ _ Hin) as [Htree (parent & ->)]. split.
        -- simpl. apply in_flat_map. exists c. split; [exact Hc |].
           rewrite <- (app_assoc pfx rel). exact Htree.
        -- exists (node_name c :: parent). now rewrite <- app_assoc.
    + destruct Hin as [Hin | []]. discriminate Hin.
Qed.

(** ** File prober *)

Lemma get_file_data_inv (file_path : path) (st : except stat_result)
    (relative_to : option path) (r : FileRecord.t) :
  get_file_data file_path st relative_to = Returns (Some r) ->
  exists stat,
    st = Returns stat /\
    FileRecord.size_bytes r = st_size stat /\
    FileRecord.name r = record_name file_path relative_to.
Proof.
  unfold get_file_data, record_name. destruct st as [stat | e]; cbn [bind].
  - destruct (format_size (st_size stat)) as [size | e]; cbn [bind].
    + destruct (fromtimestamp_isoformat (st_mtime stat)) as [modified | e]; cbn [bind].
      * intros H. injection H as <-. exists stat. repeat split.
      * destruct (is_OSError e); discriminate.
    + destruct (is_OSError e); discriminate.
  - destruct (is_OSError e); discriminate.
Qed.

(** C7.  [get_file_data] never lets a permission or OS-level error out: an
    exception it raises is not an [OSError]; when [stat()] fails with such
    an error the result is [None]; when [stat()] succeeds and the record can
    be built, the result is the complete record, whose name is the bare file
    name when no ancestor is given or when the path is not relative to the
    ancestor given, and the relative path otherwise. *)
Theorem get_file_data_unavailable (file_path : path) (st : except stat_result)
    (relative_to : option path) :
  (forall e, get_file_data file_path st relative_to = Raises e -> is_OSError e = false) /\
  (forall e, st = Raises e -> is_OSError e = true ->
     get_file_data file_path st relative_to = Returns None) /\
  (forall stat size modified,
     st = Returns stat ->
     format_size (st_size stat) = Returns size ->
     fromtimestamp_isoformat (st_mtime stat) = Returns modified ->
     exists r,
       get_file_data file_path st relative_to = Returns (Some r) /\
       FileRecord.display_name r =
         substring 0 50 (stem (path_name file_path)) +++
         (if (50 <? String.length (stem (path_name file_path)))%nat
          then "..." else "") /\
       FileRecord.extension r =
         match lower (suffix (path_name file_path)) with
         | EmptyString => ""
         | String _ ext' => ext'
         end /\
       FileRecord.type r = get_file_type (path_name file_path) /\
       FileRecord.icon r = get_file_icon (path_name file_path) false /\
       FileRecord.size_bytes r = st_size stat /\
       FileRecord.size r = size /\
       FileRecord.modified r = modified /\
       (relative_to = None -> FileRecord.name r = path_name file_path) /\
       (forall ancestor,
          relative_to = Some ancestor ->
          relative_to_path file_path ancestor = None ->
          FileRecord.name r = path_name file_path) /\
       (forall ancestor rel,
          relative_to = Some ancestor ->
          relative_to_path file_path ancestor = Some rel ->
          FileRecord.name r = path_str rel)).
Proof.
  split; [| split].
  - unfold get_file_data. intros e.
    match goal with
    | |- match ?body with _ => _ end = _ -> _ => destruct body as [r | e']
    end.
    + discriminate.
    + destruct (is_OSError e') eqn:E; [discriminate |].
      intros H. injection H as <-. exact E.
  - intros e -> He. unfold get_file_data. cbn [bind]. now rewrite He.
  - intros stat size modified -> Hsize Hmod. unfold get_file_data. cbn [bind].
    rewrite Hsize. cbn [bind]. rewrite Hmod. cbn [bind].
    eexists. split; [reflexivity |]. cbn.
    repeat split.
    + intros ->. reflexivity.
    + intros ancestor -> ->. reflexivity.
    + intros ancestor rel -> ->. reflexivity.
Qed.

(** ** Folder scanner *)

(** Every record the loop adds is the record of a yielded file whose own
    name is not hidden. *)
Lemma scan_folder_loop_files (folder_path : path) (events : list glob_event) :
  forall files0 total0 files total raised,
    scan_folder_loop folder_path events files0 total0 = (files, total, raised) ->
    forall r,
      In r files ->
      In r files0 \/
      exists rel name st,
        In (Yield rel (File name st)) events /\
        hidden_name name = false /\
        get_file_data (folder_path ++ rel) st (Some folder_path) = Returns (Some r).
Proof.
  induction events as [| ev events IH]; intros files0 total0 files total raised Hloop r Hr.
  - simpl in Hloop. injection Hloop as <- _ _. now left.
  - destruct ev as [rel [name st | name access entries] | e]; simpl in Hloop.
    + destruct (stat_mode_test st true) as [regular | e] eqn:Hreg;
        [| injection Hloop as <- _ _; now left].
      destruct (regular && negb (startswith "." name)) eqn:Htest.
      * apply andb_true_iff in Htest. destruct Htest as [_ Hhid].
        apply negb_true_iff in Hhid.
        destruct (get_file_data (folder_path ++ rel) st (Some folder_path))
          as [[file_data |] | e] eqn:Hdata.
        -- destruct (IH _ _ _ _ _ Hloop r Hr) as [H | (rel' & n' & st' & Hin & H)].
           ++ apply in_app_or in H. destruct H as [H | [<- | []]]; [now left |].
              right. exists rel, name, st. split; [now left | now split].
           ++ right; exists rel', n', st'; split; [now right | exact H].
        -- destruct (IH _ _ _ _ _ Hloop r Hr) as [H | (rel' & n' & st' & Hin & H)];
             [now left | right; exists rel', n', st'; split; [now right | exact H]].
        -- injection Hloop as <- _ _. now left.
      * destruct (IH _ _ _ _ _ Hloop r Hr) as [H | (rel' & n' & st' & Hin & H)];
          [now left | right; exists rel', n', st'; split; [now right | exact H]].
    + destruct (IH _ _ _ _ _ Hloop r Hr) as [H | (rel' & n' & st' & Hin & H)];
        [now left | right; exists rel', n', st'; split; [now right | exact H]].
    + injection Hloop as <- _ _. now left.
Qed.

Lemma scan_folder_inv (folder_path : path) (folder : node) (fs : FolderSummary.t) :
  scan_folder folder_path folder = Returns fs ->
  exists files total raised,
    scan_folder_loop folder_path (rglob folder) [] 0 = (files, total, raised) /\
    FolderSummary.name fs = path_name folder_path /\
    FolderSummary.files fs = firstn 20 (sort_desc FileRecord.size_bytes files) /\
    FolderSummary.total_files fs = Some (len files) /\
    FolderSummary.hidden_files fs =
      Some (if 20 <? len files then len files - 20 else 0).
Proof.
  unfold scan_folder.
  destruct (scan_folder_loop folder_path (rglob folder) [] 0)
    as [[files total] raised].
  intros H. exists files, total, raised. split; [reflexivity |].
  destruct raised as [e |]; [destruct (is_PermissionError e) |]; cbn [bind] in H;
    try discriminate H;
    rewrite sort_desc_length in H;
    (destruct (format_size total) as [formatted | e']; cbn [bind] in H;
     [injection H as <-; repeat split | discriminate H]).
Qed.


(** ** Root scanner *)

Lemma scan_items_inv (items : list node) :
  forall folders0 root_files0 folders root_files,
    scan_items items folders0 root_files0 = Returns (folders, root_files) ->
    (forall fs,
       In fs folders ->
       In fs folders0 \/
       exists name access entries,
         In (Dir name access entries) items /\
         excluded_segment name = false /\
         scan_folder (DOWNLOADS_PATH ++ [name]) (Dir name access entries)
           = Returns fs) /\
    (forall r,
       In r root_files ->
       In r root_files0 \/
       exists name st,
         In (File name st) items /\
         excluded_segment name = false /\
         get_file_data (DOWNLOADS_PATH ++ [name]) st None = Returns (Some r)).
Proof.
  induction items as [| item items IH];
    intros folders0 root_files0 folders root_files Hscan.
  - simpl in Hscan. injection Hscan as <- <-. split; intros; now left.
  - cbn [scan_items] in Hscan.
    assert (Hskip :
      forall f0 r0,
        scan_items items f0 r0 = Returns (folders, root_files) ->
        (forall fs, In fs f0 -> In fs folders0) ->
        (forall r, In r r0 -> In r root_files0) ->
        (forall fs,
           In fs folders ->
           In fs folders0 \/
           exists name access entries,
             In (Dir name access entries) (item :: items) /\
             excluded_segment name = false /\
             scan_folder (DOWNLOADS_PATH ++ [name]) (Dir name access entries)
               = Returns fs) /\
        (forall r,
           In r root_files ->
           In r root_files0 \/
           exists name st,
             In (File name st) (item :: items) /\
             excluded_segment name = false /\
             get_file_data (DOWNLOADS_PATH ++ [name]) st None = Returns (Some r))).
    { intros f0 r0 H Hf Hr. destruct (IH _ _ _ _ H) as [IHf IHr]. split.
      - intros fs Hfs. destruct (IHf fs Hfs) as [Hin | (n & a & e & Hin & Hrest)].
        + left. now apply Hf.
        + right. exists n, a, e. split; [now right | exact Hrest].
      - intros r Hin. destruct (IHr r Hin) as [Hin' | (n & st & Hin' & Hrest)].
        + left. now apply Hr.
        + right. exists n, st. split; [now right | exact Hrest]. }
    destruct (startswith "." (node_name item)) eqn:Hhid;
      [apply (Hskip _ _ Hscan); auto |].
    destruct (String.eqb (node_name item) "$RECYCLE.BIN") eqn:Htrash;
      [apply (Hskip _ _ Hscan); auto |].
    assert (Hexcl : excluded_segment (node_name item) = false).
    { unfold excluded_segment, hidden_name, trash_name. now rewrite Hhid, Htrash. }
    destruct item as [name st | name access entries]; cbn [node_name] in *.
    + destruct (is_dir (File name st)) as [d | e] eqn:Hdir; cbn [bind] in Hscan;
        [| discriminate Hscan].
      destruct (get_file_data (DOWNLOADS_PATH ++ [name]) st None)
        as [[file_data |] | e] eqn:Hdata; cbn [bind] in Hscan;
        [| apply (Hskip _ _ Hscan); auto | discriminate Hscan].
      destruct (IH _ _ _ _ Hscan) as [IHf IHr]. split.
      * intros fs Hfs. destruct (IHf fs Hfs) as [Hin | (n & a & e & Hin & Hrest)].
        -- now left.
        -- right. exists n, a, e. split; [now right | exact Hrest].
      * intros r Hin. destruct (IHr r Hin) as [Hin' | (n & st' & Hin' & Hrest)].
        -- apply in_app_or in Hin'. destruct Hin' as [Hin' | [<- | []]]; [now left |].
           right. exists name, st. split; [now left | now split].
        -- right. exists n, st'. split; [now right | exact Hrest].
    + destruct (scan_folder (DOWNLOADS_PATH ++ [name]) (Dir name access entries))
        as [folder_data | e] eqn:Hfolder; cbn [bind] in Hscan;
        [| discriminate Hscan].
      destruct (nonempty (FolderSummary.files folder_data));
        [| apply (Hskip _ _ Hscan); auto].
      destruct (IH _ _ _ _ Hscan) as [IHf IHr]. split.
      * intros fs Hfs. destruct (IHf fs Hfs) as [Hin | (n & a & e & Hin & Hrest)].
        -- apply in_app_or in Hin. destruct Hin as [Hin | [<- | []]]; [now left |].
           right. exists name, access, entries. split; [now left | now split].
        -- right. exists n, a, e. split; [now right | exact Hrest].
      * intros r Hin. destruct (IHr r Hin) as [Hin' | (n & st' & Hin' & Hrest)].
        -- now left.
        -- right. exists n, st'. split; [now right | exact Hrest].
Qed.

Lemma scan_downloads_inv (root_dir : node) (now : string) (res : ScanResult.t) :
  scan_downloads (Some root_dir) now = Returns res ->
  exists items folders root_files all_files formatted,
    iterdir root_dir = Returns items /\
    scan_items items [] [] = Returns (folders, root_files) /\
    ScanResult.folders res =
      sort_desc FolderSummary.total_size
        (if nonempty root_files then folders ++ [uncategorized root_files]
         else folders) /\
    all_files = flat_map FolderSummary.files (ScanResult.folders res) /\
    format_size (sum (map FileRecord.size_bytes all_files)) = Returns formatted /\
    ScanResult.stats res =
      {| Stats.total_files := len all_files;
         Stats.total_size := sum (map FileRecord.size_bytes all_files);
         Stats.categories := len (ScanResult.folders res);
         Stats.file_types :=
           FileTypesCount
             (len (nodup string_dec
                     (filter (fun e => negb (String.eqb e ""))
                        (map FileRecord.extension all_files))));
         Stats.total_size_formatted := Some formatted |} /\
    ScanResult.scanned_at res = now.
Proof.
  unfold scan_downloads.
  destruct (iterdir root_dir) as [items | e] eqn:Hiter; cbn [bind]; [| discriminate].
  destruct (scan_items items [] []) as [[folders root_files] | e] eqn:Hitems;
    cbn [bind]; [| discriminate].
  match goal with
  | |- bind (format_size ?t) _ = _ -> _ =>
      destruct (format_size t) as [formatted | e] eqn:Hfmt
  end; cbn [bind]; [| discriminate].
  intros H. injection H as <-.
  exists items, folders, root_files. eexists. exists formatted.
  cbn [ScanResult.folders ScanResult.stats ScanResult.scanned_at initial_result].
  split; [reflexivity |]. split; [exact Hitems |].
  split; [reflexivity |]. split; [reflexivity |].
  split; [exact Hfmt |]. split; reflexivity.
Qed.

Lemma iterdir_inv (root_dir : node) (items : list node) :
  iterdir root_dir = Returns items ->
  exists name, root_dir = Dir name Listable items.
Proof.
  destruct root_dir as [name st | name [| |] entries]; simpl; try discriminate.
  intros H. injection H as <-. now exists name.
Qed.

(** Where the folder dicts of a scan come from: the folder scanner run on a
    top-level directory that is neither hidden nor the trash folder, or the
    dict built for the loose root files. *)
Lemma scan_downloads_folders (root_dir : node) (now : string) (res : ScanResult.t)
    (fs : FolderSummary.t) :
  scan_downloads (Some root_dir) now = Returns res ->
  In fs (ScanResult.folders res) ->
  exists items folders root_files,
    iterdir root_dir = Returns items /\
    scan_items items [] [] = Returns (folders, root_files) /\
    ((exists name access entries,
        In (Dir name access entries) items /\
        excluded_segment name = false /\
        scan_folder (DOWNLOADS_PATH ++ [name]) (Dir name access entries)
          = Returns fs) \/
     (root_files <> [] /\ fs = uncategorized root_files)).
Proof.
  intros Hscan Hfs.
  destruct (scan_downloads_inv _ _ _ Hscan)
    as (items & folders & root_files & all_files & formatted
        & Hiter & Hitems & Hfolders & _).
  exists items, folders, root_files. split; [exact Hiter |]. split; [exact Hitems |].
  rewrite Hfolders in Hfs. apply sort_desc_In in Hfs.
  destruct (scan_items_inv _ _ _ _ _ Hitems) as [Hf _].
  assert (Hsub : In fs folders ->
    exists name access entries,
      In (Dir name access entries) items /\
      excluded_segment name = false /\
      scan_folder (DOWNLOADS_PATH ++ [name]) (Dir name access entries) = Returns fs).
  { intros Hin. destruct (Hf fs Hin) as [[] | H]. exact H. }
  destruct root_files as [| r root_files]; cbn [nonempty] in Hfs.
  - left. now apply Hsub.
  - apply in_app_or in Hfs. destruct Hfs as [Hin | [<- | []]].
    + left. now apply Hsub.
    + right. split; [discriminate | reflexivity].
Qed.

(** C6.  When the root path does not exist the scan returns, without
    raising, a result with no folder and zero counts. *)
Theorem scan_missing_root (now : string) :
  exists res,
    scan_downloads None now = Returns res /\
    ScanResult.folders res = [] /\
    Stats.total_files (ScanResult.stats res) = 0 /\
    Stats.total_size (ScanResult.stats res) = 0 /\
    Stats.categories (ScanResult.stats res) = 0 /\
    ScanResult.scanned_at res = now.
Proof.
  exists (initial_result now). repeat split.
Qed.

(** ** Successive scans *)

Lemma run_bind {world A B : Type} (os : forall c : os_call, world -> answer c * world)
    (m : prog A) (k : A -> prog B) :
  forall w,
    run os (prog_bind m k) w = run os (k (fst (run os m w))) (snd (run os m w)).
Proof.
  induction m as [a | c k' IH]; intros w; [reflexivity |].
  cbn [prog_bind run]. destruct (os c w) as [x w']. apply IH.
Qed.

(** While the tree does not change, what a program that does not read the
    clock returns does not depend on the state of the world it starts in. *)
Lemma run_no_clock {world A : Type} (os : forall c : os_call, world -> answer c * world)
    (m : prog A) :
  unchanged_tree os ->
  no_clock m ->
  forall w w', fst (run os m w) = fst (run os m w').
Proof.
  intros Hos. induction m as [a | c k IH]; intros Hm w w'; [reflexivity |].
  destruct Hm as [Hc Hk]. cbn [run].
  pose proof (Hos c w w' Hc) as Hsame.
  destruct (os c w) as [x w1], (os c w') as [x' w1']. cbn [fst] in Hsame.
  subst x'. apply IH, Hk.
Qed.

Lemma no_clock_bind {A B : Type} (m : prog A) (k : A -> prog B) :
  no_clock m -> (forall a, no_clock (k a)) -> no_clock (prog_bind m k).
Proof.
  intros Hm Hk. induction m as [a | c k' IH]; [apply Hk |].
  destruct Hm as [Hc Hk']. split; [exact Hc |]. intros x. apply IH, Hk'.
Qed.

Lemma scan_folder_loop_io_no_clock (folder_path : path) (yielded : list path)
    (ended : option exn) :
  forall files total_size,
    no_clock (scan_folder_loop_io folder_path yielded ended files total_size).
Proof.
  induction yielded as [| rel yielded IH]; intros files total_size; [exact I |].
  split; [reflexivity |]. intros [regular | e]; [| exact I].
  destruct (regular && negb (startswith "." (path_name (folder_path ++ rel))));
    [| apply IH].
  split; [reflexivity |]. intros st.
  destruct (get_file_data (folder_path ++ rel) st (Some folder_path))
    as [[file_data |] | e]; [apply IH | apply IH | exact I].
Qed.

Lemma scan_folder_io_no_clock (folder_path : path) :
  no_clock (scan_folder_io folder_path).
Proof.
  split; [reflexivity |]. intros [yielded ended].
  apply no_clock_bind; [apply scan_folder_loop_io_no_clock |].
  intros [[files total_size] raised]. exact I.
Qed.

Lemma scan_items_io_no_clock (names : list string) :
  forall folders root_files, no_clock (scan_items_io names folders root_files).
Proof.
  induction names as [| name names IH]; intros folders root_files; [exact I |].
  cbn [scan_items_io].
  destruct (startswith "." name); [apply IH |].
  destruct (String.eqb name "$RECYCLE.BIN"); [apply IH |].
  split; [reflexivity |]. intros [[|] | e]; [| | exact I].
  - apply no_clock_bind; [apply scan_folder_io_no_clock |].
    intros [folder_data | e]; [| exact I].
    destruct (nonempty (FolderSummary.files folder_data)); apply IH.
  - apply no_clock_bind; [split; [reflexivity | intros st; exact I] |].
    intros [[file_data |] | e]; [apply IH | apply IH | exact I].
Qed.

Lemma scan_downloads_at_no_clock (now : string) : no_clock (scan_downloads_at now).
Proof.
  split; [reflexivity |]. intros [[|] | e]; [| exact I | exact I].
  split; [reflexivity |]. intros [names | e]; [| exact I].
  apply no_clock_bind; [apply scan_items_io_no_clock |].
  intros [[folders root_files] | e]; exact I.
Qed.

(** The clock reading reaches the time stamp only. *)
Lemma scan_result_same_content (now1 now2 : string) (folders : list FolderSummary.t)
    (root_files : list FileRecord.t) :
  same_content (scan_result now1 folders root_files)
    (scan_result now2 folders root_files).
Proof.
  unfold scan_result.
  match goal with
  | |- context [format_size ?t] => destruct (format_size t) as [formatted | e]
  end; cbn [bind same_content]; [split |]; reflexivity.
Qed.

Lemma scan_downloads_at_same_content {world : Type}
    (os : forall c : os_call, world -> answer c * world) (now1 now2 : string) (w : world) :
  same_content (fst (run os (scan_downloads_at now1) w))
    (fst (run os (scan_downloads_at now2) w)).
Proof.
  unfold scan_downloads_at. cbn [run].
  destruct (os (Exists DOWNLOADS_PATH) w) as [[[|] | e] w1]; cbn [run fst];
    [| split; reflexivity | reflexivity].
  destruct (os (Iterdir DOWNLOADS_PATH) w1) as [[names | e] w2]; cbn [run fst];
    [| reflexivity].
  rewrite !run_bind.
  destruct (run os (scan_items_io names [] []) w2) as [[[folders root_files] | e] w3];
    cbn [run fst snd]; [apply scan_result_same_content | reflexivity].
Qed.

(** C8.  Two successive scans, the second one run in the world that the
    first one has left, end alike while the directory tree does not change
    (every read of the file system has the same answer whenever it is
    made, whatever the clock answers): both return, with the same folders
    and the same stats, or both raise the same exception.  The time stamp
    of a result is the answer of the clock in its own run. *)
Theorem successive_scans_agree {world : Type}
    (os : forall c : os_call, world -> answer c * world) (w : world) :
  unchanged_tree os ->
  same_content
    (fst (run os scan_downloads_io w))
    (fst (run os scan_downloads_io (snd (run os scan_downloads_io w)))) /\
  (forall res,
     fst (run os scan_downloads_io w) = Returns res ->
     ScanResult.scanned_at res = fst (os Now w)).
Proof.
  intros Hos. split.
  - set (w1 := snd (run os scan_downloads_io w)). clearbody w1.
    unfold scan_downloads_io. cbn [run].
    destruct (os Now w) as [now1 wa], (os Now w1) as [now2 wb].
    rewrite (run_no_clock os (scan_downloads_at now2) Hos
               (scan_downloads_at_no_clock now2) wb wa).
    apply scan_downloads_at_same_content.
  - unfold scan_downloads_io, scan_downloads_at. cbn [run].
    destruct (os Now w) as [now wa]. cbn [fst].
    destruct (os (Exists DOWNLOADS_PATH) wa) as [[[|] | e] w1]; cbn [run fst];
      intros res H; [| now injection H as <- | discriminate H].
    destruct (os (Iterdir DOWNLOADS_PATH) w1) as [[names | e] w2]; cbn [run fst] in H;
      [| discriminate H].
    rewrite run_bind in H.
    destruct (run os (scan_items_io names [] []) w2) as [[[folders root_files] | e] w3];
      cbn [run fst snd] in H; [| discriminate H].
    unfold scan_result in H.
    match type of H with
    | context [format_size ?t] => destruct (format_size t) as [formatted | e]
    end; cbn [bind] in H; [| discriminate H].
    now injection H as <-.
Qed.

(** ** The program and the function *)

Lemma find_distinct (entries : list node) (c : node) :
  distinct (map node_name entries) = true ->
  In c entries ->
  find (fun c' => String.eqb (node_name c') (node_name c)) entries = Some c.
Proof.
  induction entries as [| a entries IH]; intros Hd Hin; [contradiction |].
  cbn [map distinct] in Hd. apply andb_true_iff in Hd. destruct Hd as [Hfresh Hd].
  cbn [find]. destruct Hin as [-> | Hin]; [now rewrite String.eqb_refl |].
  destruct (String.eqb (node_name a) (node_name c)) eqn:E; [| now apply IH].
  exfalso. apply String.eqb_eq in E. apply negb_true_iff in Hfresh.
  assert (H : existsb (String.eqb (node_name a)) (map node_name entries) = true).
  { apply existsb_exists. exists (node_name c).
    split; [now apply in_map | rewrite E; apply String.eqb_refl]. }
  congruence.
Qed.

(** In a tree with distinct names, an item the glob yields is what is found
    at the path the glob gives it. *)
Lemma rglob_lookup (folder : node) :
  unique_names folder = true ->
  forall rel rel' item,
    In (Yield rel' item) (rglob_from rel folder) ->
    exists q,
      rel' = rel ++ q /\ lookup folder q = Some item /\
      last q "" = node_name item /\ q <> [].
Proof.
  induction folder as [name st | name access entries IH] using node_nested_ind;
    intros Hunique rel rel' item Hin.
  - contradiction.
  - destruct access; simpl in Hin; try contradiction;
      [| destruct Hin as [Hin | []]; discriminate Hin].
    cbn [unique_names] in Hunique. apply andb_true_iff in Hunique.
    destruct Hunique as [Hdistinct Hall]. rewrite forallb_forall in Hall.
    apply in_app_or in Hin. destruct Hin as [Hin | Hin].
    + apply in_map_iff in Hin. destruct Hin as (c & Hc & Hin).
      injection Hc as <- <-. exists [node_name c].
      split; [reflexivity |]. split; [| split; [reflexivity | discriminate]].
      cbn [lookup]. now rewrite (find_distinct _ _ Hdistinct Hin).
    + apply in_flat_map in Hin. destruct Hin as (c & Hc & Hin).
      rewrite Forall_forall in IH.
      destruct (IH c Hc (Hall c Hc) _ _ _ Hin) as (q & -> & Hlookup & Hlast & Hq).
      exists (node_name c :: q). split; [now rewrite <- app_assoc |].
      split; [| split; [| discriminate]].
      * cbn [lookup]. now rewrite (find_distinct _ _ Hdistinct Hc).
      * destruct q as [| s q]; [contradiction | exact Hlast].
Qed.

Lemma entry_at_below (n : node) (q : path) :
  entry_at (Some n) (DOWNLOADS_PATH ++ q) = lookup n q.
Proof.
  unfold entry_at. now rewrite relative_to_path_prefix.
Qed.

Lemma last_app_nonempty (p q : path) : q <> [] -> last (p ++ q) "" = last q "".
Proof.
  intros Hq. induction p as [| s p IH]; [reflexivity |].
  cbn [app]. rewrite <- IH. destruct (p ++ q) eqn:E; [| reflexivity].
  apply app_eq_nil in E. destruct E as [_ E]. contradiction.
Qed.

Lemma scan_folder_loop_io_tree (root : option node) (folder_path : path)
    (events : list glob_event) :
  (forall rel item,
     In (Yield rel item) events ->
     entry_at root (folder_path ++ rel) = Some item /\
     path_name (folder_path ++ rel) = node_name item) ->
  forall files total_size clock,
    fst (run (tree_os root)
           (scan_folder_loop_io folder_path (fst (glob_answer events))
              (snd (glob_answer events)) files total_size) clock)
    = scan_folder_loop folder_path events files total_size.
Proof.
  induction events as [| ev events IH]; intros Hev files total_size clock;
    [reflexivity |].
  destruct ev as [rel item | e]; [| reflexivity].
  destruct (Hev rel item (or_introl eq_refl)) as [Hat Hname].
  assert (Hev' : forall rel item,
            In (Yield rel item) events ->
            entry_at root (folder_path ++ rel) = Some item /\
            path_name (folder_path ++ rel) = node_name item)
    by (intros rel' item' H; apply Hev; now right).
  specialize (IH Hev'). cbn [glob_answer].
  destruct (glob_answer events) as [yielded ended]. cbn [fst snd] in IH |- *.
  cbn [scan_folder_loop_io run tree_os]. rewrite Hat, Hname.
  destruct item as [name st | name access entries]; cbn [is_file node_name].
  - cbn [scan_folder_loop is_file].
    destruct (stat_mode_test st true) as [regular | e]; [| reflexivity].
    destruct (regular && negb (startswith "." name)); [| apply IH].
    cbn [run tree_os]. rewrite Hat.
    destruct (get_file_data (folder_path ++ rel) st (Some folder_path))
      as [[file_data |] | e]; [apply IH | apply IH | reflexivity].
  - cbn [andb scan_folder_loop]. apply IH.
Qed.

Lemma scan_folder_io_tree (root : option node) (folder_path : path) (folder : node)
    (clock : Z) :
  entry_at root folder_path = Some folder ->
  (forall rel item,
     In (Yield rel item) (rglob folder) ->
     entry_at root (folder_path ++ rel) = Some item /\
     path_name (folder_path ++ rel) = node_name item) ->
  fst (run (tree_os root) (scan_folder_io folder_path) clock)
  = scan_folder folder_path folder.
Proof.
  intros Hat Hev. unfold scan_folder_io. cbn [run tree_os]. rewrite Hat.
  pose proof (scan_folder_loop_io_tree root folder_path (rglob folder) Hev [] 0
                (clock + 1)) as Hloop.
  destruct (glob_answer (rglob folder)) as [yielded ended]. cbn [fst snd] in Hloop.
  rewrite run_bind, Hloop. unfold scan_folder, folder_summary.
  destruct (scan_folder_loop folder_path (rglob folder) [] 0)
    as [[files total_size] raised].
  reflexivity.
Qed.

Lemma scan_items_io_tree (root : option node) (items : list node) :
  (forall item,
     In item items ->
     entry_at root (DOWNLOADS_PATH ++ [node_name item]) = Some item /\
     forall rel yielded,
       In (Yield rel yielded) (rglob item) ->
       entry_at root ((DOWNLOADS_PATH ++ [node_name item]) ++ rel) = Some yielded /\
       path_name ((DOWNLOADS_PATH ++ [node_name item]) ++ rel) = node_name yielded) ->
  forall folders root_files clock,
    fst (run (tree_os root)
           (scan_items_io (map node_name items) folders root_files) clock)
    = scan_items items folders root_files.
Proof.
  induction items as [| item items IH]; intros Hitems folders root_files clock;
    [reflexivity |].
  destruct (Hitems item (or_introl eq_refl)) as [Hat Hglob].
  assert (Hitems' : forall item',
            In item' items ->
            entry_at root (DOWNLOADS_PATH ++ [node_name item']) = Some item' /\
            forall rel yielded,
              In (Yield rel yielded) (rglob item') ->
              entry_at root ((DOWNLOADS_PATH ++ [node_name item']) ++ rel)
              = Some yielded /\
              path_name ((DOWNLOADS_PATH ++ [node_name item']) ++ rel)
              = node_name yielded)
    by (intros item' H; apply Hitems; now right).
  specialize (IH Hitems'). cbn [map scan_items_io scan_items].
  destruct (startswith "." (node_name item)); [apply IH |].
  destruct (String.eqb (node_name item) "$RECYCLE.BIN"); [apply IH |].
  cbn [run tree_os]. rewrite Hat.
  destruct item as [name st | name access entries]; cbn [is_dir node_name] in *.
  - destruct (stat_mode_test st false) as [directory | e] eqn:Hdir; cbn [bind];
      [| reflexivity].
    assert (directory = false) as ->.
    { destruct st as [stat | e]; cbn in Hdir; [now injection Hdir as <- |].
      destruct e; cbn in Hdir; try discriminate Hdir; now injection Hdir as <-. }
    unfold get_file_data_io. cbn [prog_bind run tree_os]. rewrite Hat.
    destruct (get_file_data (DOWNLOADS_PATH ++ [name]) st None)
      as [[file_data |] | e]; cbn [bind]; [apply IH | apply IH | reflexivity].
  - rewrite run_bind.
    rewrite (scan_folder_io_tree root _ (Dir name access entries) _ Hat Hglob).
    destruct (scan_folder (DOWNLOADS_PATH ++ [name]) (Dir name access entries))
      as [folder_data | e]; cbn [bind]; [| reflexivity].
    destruct (nonempty (FolderSummary.files folder_data)); apply IH.
Qed.

(** Run by an operating system that answers from a tree with distinct
    names, the program returns what the function [scan_downloads] returns
    on that tree at the reading of the clock. *)
Lemma scan_downloads_io_tree (root : option node) (clock : Z) :
  match root with
  | Some root_dir => unique_names root_dir = true
  | None => True
  end ->
  fst (run (tree_os root) scan_downloads_io clock)
  = scan_downloads root (str_of_int clock).
Proof.
  intros Hunique. unfold scan_downloads_io, scan_downloads_at, scan_downloads.
  cbn [run tree_os].
  destruct root as [root_dir |];
    [| unfold entry_at;
       destruct (relative_to_path DOWNLOADS_PATH DOWNLOADS_PATH); reflexivity].
  pose proof (entry_at_below root_dir []) as Hroot. rewrite app_nil_r in Hroot.
  rewrite Hroot. cbn [lookup run tree_os]. rewrite Hroot. cbn [lookup].
  destruct (iterdir root_dir) as [items | e] eqn:Hiter; cbn [bind run fst];
    [| reflexivity].
  rewrite run_bind.
  rewrite (scan_items_io_tree (Some root_dir) items).
  - destruct (scan_items items [] []) as [[folders root_files] | e]; reflexivity.
  - destruct root_dir as [name st | name [| | e] entries]; try discriminate Hiter.
    injection Hiter as ->.
    cbn [unique_names] in Hunique. apply andb_true_iff in Hunique.
    destruct Hunique as [Hdistinct Hall]. rewrite forallb_forall in Hall.
    intros item Hitem.
    assert (Hat : entry_at (Some (Dir name Listable items))
                    (DOWNLOADS_PATH ++ [node_name item]) = Some item).
    { rewrite entry_at_below. cbn [lookup].
      now rewrite (find_distinct _ _ Hdistinct Hitem). }
    split; [exact Hat |].
    intros rel yielded Hyield.
    destruct (rglob_lookup item (Hall item Hitem) [] rel yielded Hyield)
      as (q & -> & Hlookup & Hlast & Hq).
    cbn [app]. rewrite <- app_assoc. split.
    + rewrite entry_at_below. cbn [app lookup].
      now rewrite (find_distinct _ _ Hdistinct Hitem).
    + unfold path_name. rewrite !last_app_nonempty; [exact Hlast | exact Hq |].
      destruct q; [contradiction | discriminate].
Qed.

(** C10.  The stats of a scan of a missing root have no formatted total
    size and hold the empty set under [file_types]; the stats of every scan
    that finds the root hold a count there and a formatted total size, the
    one of their total size. *)
Theorem stats_shape (now : string) :
  (exists res,
     scan_downloads None now = Returns res /\
     Stats.total_size_formatted (ScanResult.stats res) = None /\
     Stats.file_types (ScanResult.stats res) = FileTypesSet []) /\
  (forall root_dir res,
     scan_downloads (Some root_dir) now = Returns res ->
     exists count formatted,
       Stats.file_types (ScanResult.stats res) = FileTypesCount count /\
       0 <= count /\
       Stats.total_size_formatted (ScanResult.stats res) = Some formatted /\
       format_size (Stats.total_size (ScanResult.stats res)) = Returns formatted).
Proof.
  split.
  - exists (initial_result now). repeat split.
  - intros root_dir res Hscan.
    destruct (scan_downloads_inv _ _ _ Hscan)
      as (items & folders & root_files & all_files & formatted
          & _ & _ & _ & _ & Hfmt & Hstats & _).
    rewrite Hstats. cbn.
    eexists. exists formatted. split; [reflexivity |].
    split; [apply Nat2Z.is_nonneg |]. split; [reflexivity | exact Hfmt].
Qed.


(** C1 (as amended).  Every file record of a scan comes from a file of the
    tree whose first segment below the root is neither hidden nor the trash
    folder and whose own name, the last segment, is not hidden. *)
Theorem hidden_and_trash_excluded (root_dir : node) (now : string)
    (res : ScanResult.t) (fs : FolderSummary.t) (r : FileRecord.t) :
  scan_downloads (Some root_dir) now = Returns res ->
  In fs (ScanResult.folders res) ->
  In r (FolderSummary.files fs) ->
  exists rel,
    provenance root_dir fs r rel /\
    excluded_segment (hd "" rel) = false /\
    hidden_name (last rel "") = false.
Proof.
  intros Hscan Hfs Hr.
  destruct (scan_downloads_folders _ _ _ _ Hscan Hfs)
    as (items & folders & root_files & Hiter & Hitems & Hcases).
  destruct (iterdir_inv _ _ Hiter) as [root_name ->].
  destruct Hcases as [(name & access & entries & Hin & Hexcl & Hfolder) | [Hne ->]].
  - destruct (scan_folder_inv _ _ _ Hfolder)
      as (files & total & raised & Hloop & Hname & Hfiles & _).
    rewrite Hfiles in Hr. apply In_firstn, sort_desc_In in Hr.
    destruct (scan_folder_loop_files _ _ _ _ _ _ _ Hloop r Hr)
      as [[] | (rel & fname & st & Hyield & Hhid & Hdata)].
    destruct (rglob_tree_files _ [] [name] rel fname st Hyield)
      as [Htree (parent & Hrel)].
    simpl in Hrel. subst rel.
    exists (name :: parent ++ [fname]). split; [| split].
    + exists st. split.
      * simpl. apply in_flat_map. exists (Dir name access entries).
        split; [exact Hin | exact Htree].
      * rewrite <- app_assoc in Hdata. rewrite path_name_child in Hname.
        destruct parent; simpl; split; assumption.
    + exact Hexcl.
    + change (name :: parent ++ [fname]) with ((name :: parent) ++ [fname]).
      rewrite last_last. exact Hhid.
  - destruct (scan_items_inv _ _ _ _ _ Hitems) as [_ Hroot].
    destruct (Hroot r Hr) as [[] | (name & st & Hin & Hexcl & Hdata)].
    exists [name]. split; [| split].
    + exists st. split.
      * simpl. apply in_flat_map. exists (File name st). split; [exact Hin |].
        now left.
      * split; [exact Hdata | reflexivity].
    + exact Hexcl.
    + simpl. unfold excluded_segment in Hexcl.
      now apply orb_false_elim in Hexcl.
Qed.

(** ** The scenario of the specification *)

Lemma Permutation_3_inv {A : Type} (a b c : A) (l : list A) :
  Permutation l [a; b; c] ->
  l = [a; b; c] \/ l = [a; c; b] \/ l = [b; a; c] \/
  l = [b; c; a] \/ l = [c; a; b] \/ l = [c; b; a].
Proof.
  intros H. pose proof (Permutation_length H) as Hlen.
  destruct l as [| x [| y [| z [| w l]]]]; try discriminate Hlen.
  assert (Hx : In x [a; b; c]) by (apply (Permutation_in _ H); now left).
  destruct Hx as [<- | [<- | [<- | []]]].
  - apply (Permutation_cons_app_inv [] [b; c]) in H.
    apply Permutation_sym, Permutation_length_2_inv in H.
    destruct H as [H | H]; injection H as -> ->; tauto.
  - apply (Permutation_cons_app_inv [a] [c]) in H.
    apply Permutation_sym, Permutation_length_2_inv in H.
    destruct H as [H | H]; injection H as -> ->; tauto.
  - apply (Permutation_cons_app_inv [a; b] []) in H.
    apply Permutation_sym, Permutation_length_2_inv in H.
    destruct H as [H | H]; injection H as -> ->; tauto.
Qed.

Lemma get_file_data_returns (file_path : path) (stat : stat_result)
    (relative_to : option path) (size modified : string) :
  format_size (st_size stat) = Returns size ->
  fromtimestamp_isoformat (st_mtime stat) = Returns modified ->
  exists r,
    get_file_data file_path (Returns stat) relative_to = Returns (Some r) /\
    FileRecord.size_bytes r = st_size stat /\
    FileRecord.name r = record_name file_path relative_to.
Proof.
  intros Hsize Hmod. unfold get_file_data. cbn [bind].
  rewrite Hsize. cbn [bind]. rewrite Hmod. cbn [bind].
  eexists. repeat split.
Qed.

Lemma hidden_name_differs (a b : string) :
  hidden_name a = true -> hidden_name b = false -> b <> a.
Proof.
  intros Ha Hb ->. rewrite Ha in Hb. discriminate Hb.
Qed.

(** The folder scanner on a folder that holds one file of 2000 bytes. *)
Lemma scan_folder_single (folder inner : string) (mtime : Z) (modified : string) :
  hidden_name inner = false ->
  fromtimestamp_isoformat mtime = Returns modified ->
  exists sub r,
    scan_folder (DOWNLOADS_PATH ++ [folder])
      (Dir folder Listable [File inner (Returns (mkstat 2000 mtime))])
      = Returns sub /\
    FolderSummary.name sub = folder /\
    FolderSummary.icon sub = dict_get (lower folder) FOLDER_ICONS "ğŸ“" /\
    FolderSummary.category sub = folder_category (lower folder) /\
    FolderSummary.files sub = [r] /\
    FolderSummary.total_size sub = 2000 /\
    FileRecord.size_bytes r = 2000 /\
    FileRecord.name r = inner.
Proof.
  intros Hinner Hmod.
  destruct (get_file_data_returns ((DOWNLOADS_PATH ++ [folder]) ++ [inner])
              (mkstat 2000 mtime) (@Some path (DOWNLOADS_PATH ++ [folder]))
              "2.0 KB" modified eq_refl Hmod)
    as (r & Hdata & Hsize & Hname).
  unfold record_name in Hname. rewrite relative_to_path_prefix in Hname.
  cbn in Hsize, Hname.
  unfold hidden_name in Hinner.
  eexists. exists r. split.
  - unfold scan_folder, rglob. cbn [rglob_from map flat_map app node_name].
    cbn [scan_folder_loop]. rewrite Hinner.
    cbn [negb]. rewrite Hdata. cbn [app scan_folder_loop]. rewrite Hsize.
    cbn [is_PermissionError bind sort_desc fold_right insert_desc firstn].
    change (format_size (0 + 2000)) with (Returns "2.0 KB"). cbn [bind].
    reflexivity.
  - cbn [FolderSummary.name FolderSummary.icon FolderSummary.category
         FolderSummary.files FolderSummary.total_size].
    rewrite path_name_child. repeat split; assumption.
Qed.

(** C5.  A root that lists, in any order, one hidden file, one file of 10
    bytes and one subfolder that holds one file of 2000 bytes (names not
    hidden and not the trash folder, time stamps that convert) scans to
    exactly two folder dicts: the one of the subfolder, with the icon and
    category of its name, then "Uncategorized" with the loose file;
    [total_files] is 2 and [total_size] is 2010; no record has the name of
    the hidden file. *)
Theorem scan_scenario (root_name hidden regular folder inner : string)
    (hidden_stat : except stat_result) (mtime1 mtime2 : Z)
    (modified1 modified2 now : string) (items : list node) :
  hidden_name hidden = true ->
  excluded_segment regular = false ->
  excluded_segment folder = false ->
  hidden_name inner = false ->
  fromtimestamp_isoformat mtime1 = Returns modified1 ->
  fromtimestamp_isoformat mtime2 = Returns modified2 ->
  Permutation items
    [ File hidden hidden_stat;
      File regular (Returns (mkstat 10 mtime1));
      Dir folder Listable [File inner (Returns (mkstat 2000 mtime2))] ] ->
  exists res sub loose in_sub in_loose,
    scan_downloads (Some (Dir root_name Listable items)) now = Returns res /\
    ScanResult.folders res = [sub; loose] /\
    FolderSummary.name sub = folder /\
    FolderSummary.icon sub = dict_get (lower folder) FOLDER_ICONS "ğŸ“" /\
    FolderSummary.category sub = folder_category (lower folder) /\
    FolderSummary.files sub = [in_sub] /\
    FileRecord.name in_sub = inner /\
    FileRecord.size_bytes in_sub = 2000 /\
    FolderSummary.name loose = "Uncategorized" /\
    FolderSummary.files loose = [in_loose] /\
    FileRecord.name in_loose = regular /\
    FileRecord.size_bytes in_loose = 10 /\
    Stats.total_files (ScanResult.stats res) = 2 /\
    Stats.total_size (ScanResult.stats res) = 2010 /\
    Stats.categories (ScanResult.stats res) = 2 /\
    (forall fs r,
       In fs (ScanResult.folders res) ->
       In r (FolderSummary.files fs) ->
       FileRecord.name r <> hidden).
Proof.
  intros Hhidden Hregular Hfolder Hinner Hmod1 Hmod2 Hperm.
  destruct (scan_folder_single folder inner mtime2 modified2 Hinner Hmod2)
    as (sub & in_sub & Hsub & Hsub_name & Hsub_icon & Hsub_cat & Hsub_files
        & Hsub_total & Hin_sub_size & Hin_sub_name).
  destruct (get_file_data_returns (DOWNLOADS_PATH ++ [regular]) (mkstat 10 mtime1)
              (@None path) "10 B" modified1 eq_refl Hmod1)
    as (in_loose & Hloose & Hin_loose_size & Hin_loose_name).
  cbn in Hin_loose_size, Hin_loose_name. rewrite path_name_child in Hin_loose_name.
  unfold excluded_segment, hidden_name, trash_name in *.
  apply orb_false_elim in Hregular, Hfolder.
  destruct Hregular as [Hreg1 Hreg2]. destruct Hfolder as [Hfol1 Hfol2].
  assert (Hitems : scan_items items [] [] = Returns ([sub], [in_loose])).
  { destruct (Permutation_3_inv _ _ _ _ Hperm)
      as [-> | [-> | [-> | [-> | [-> | ->]]]]];
      cbn [scan_items node_name];
      repeat (rewrite ?Hhidden, ?Hreg1, ?Hreg2, ?Hfol1, ?Hfol2, ?Hsub, ?Hloose,
                ?Hsub_files;
              cbn [bind nonempty app scan_items node_name]);
      reflexivity. }
  exists {| ScanResult.folders := [sub; uncategorized [in_loose]];
            ScanResult.stats :=
              {| Stats.total_files := 2;
                 Stats.total_size := 2010;
                 Stats.categories := 2;
                 Stats.file_types :=
                   FileTypesCount
                     (len (nodup string_dec
                             (filter (fun e => negb (String.eqb e ""))
                                (map FileRecord.extension [in_sub; in_loose]))));
                 Stats.total_size_formatted := Some "2.0 KB" |};
            ScanResult.scanned_at := now |}.
  exists sub, (uncategorized [in_loose]), in_sub, in_loose.
  split.
  - unfold scan_downloads. cbn [iterdir bind]. rewrite Hitems.
    cbn [bind nonempty app sort_desc fold_right insert_desc uncategorized
         FolderSummary.total_size map].
    rewrite Hin_loose_size, Hsub_total.
    change (2000 <? sum [10]) with false.
    cbn [flat_map FolderSummary.files uncategorized app].
    rewrite Hsub_files. cbn [app map]. rewrite Hin_sub_size, Hin_loose_size.
    change (sum [2000; 10]) with 2010.
    change (format_size 2010) with (Returns "2.0 KB").
    cbn [bind]. reflexivity.
  - cbn [ScanResult.folders ScanResult.stats Stats.total_files Stats.total_size
         Stats.categories uncategorized FolderSummary.name FolderSummary.files].
    repeat split; try assumption.
    intros fs r [<- | [<- | []]] Hr.
    + rewrite Hsub_files in Hr. destruct Hr as [<- | []].
      rewrite Hin_sub_name. now apply hidden_name_differs.
    + destruct Hr as [<- | []].
      rewrite Hin_loose_name. now apply hidden_name_differs.
Qed.

(** * Further properties of the code *)

(** ** Strings and suffixes *)

Lemma lower_ascii_dot (c : ascii) :
  Ascii.eqb (lower_ascii c) "."%char = Ascii.eqb c "."%char.
Proof.
  destruct c as [[] [] [] [] [] [] [] []]; reflexivity.
Qed.

Lemma lower_ascii_idem (c : ascii) : lower_ascii (lower_ascii c) = lower_ascii c.
Proof.
  destruct c as [[] [] [] [] [] [] [] []]; reflexivity.
Qed.

Lemma lower_idem (s : string) : lower (lower s) = lower s.
Proof.
  induction s as [| c s IH]; simpl; [reflexivity |].
  now rewrite lower_ascii_idem, IH.
Qed.

Lemma length_lower (s : string) : String.length (lower s) = String.length s.
Proof.
  induction s as [| c s IH]; simpl; [reflexivity | now rewrite IH].
Qed.

Lemma lower_append (a b : string) : lower (a +++ b) = lower a +++ lower b.
Proof.
  induction a as [| c a IH]; simpl; [reflexivity | now rewrite IH].
Qed.

Lemma rfind_dot_lower (s : string) : rfind_dot (lower s) = rfind_dot s.
Proof.
  induction s as [| c s IH]; simpl; [reflexivity |].
  now rewrite IH, lower_ascii_dot.
Qed.

Lemma substring_lower (s : string) :
  forall n m, substring n m (lower s) = lower (substring n m s).
Proof.
  induction s as [| c s IH]; intros [| n] [| m]; simpl;
    try reflexivity; try apply IH.
  now rewrite IH.
Qed.

Lemma length_append (a b : string) :
  String.length (a +++ b) = (String.length a + String.length b)%nat.
Proof.
  induction a as [| c a IH]; simpl; [reflexivity | now rewrite IH].
Qed.

Lemma substring_skip (a b : string) (m : nat) :
  substring (String.length a) m (a +++ b) = substring 0 m b.
Proof.
  induction a as [| c a IH]; simpl; [reflexivity | exact IH].
Qed.

Lemma substring_all (s : string) (m : nat) :
  (String.length s <= m)%nat -> substring 0 m s = s.
Proof.
  revert m. induction s as [| c s IH]; intros [| m] H; simpl in *;
    try reflexivity; try (exfalso; inversion H; fail).
  rewrite IH; [reflexivity | now apply le_S_n].
Qed.

Lemma length_substring_0 (s : string) (m : nat) :
  String.length (substring 0 m s) = Nat.min m (String.length s).
Proof.
  revert m. induction s as [| c s IH]; intros [| m]; simpl; try reflexivity.
  now rewrite IH.
Qed.

(** The last dot splits a string: what follows it holds no dot. *)
Lemma rfind_dot_split (s : string) (i : nat) :
  rfind_dot s = Some i ->
  exists before rest,
    s = before +++ String "." rest /\
    String.length before = i /\
    rfind_dot rest = None.
Proof.
  revert i. induction s as [| c s IH]; intros i H; simpl in H; [discriminate H |].
  destruct (rfind_dot s) as [j |] eqn:Hs.
  - injection H as <-. destruct (IH j eq_refl) as (before & rest & -> & <- & Hrest).
    exists (String c before), rest. repeat split. exact Hrest.
  - destruct (Ascii.eqb c ".") eqn:Hc; [| discriminate H].
    injection H as <-. apply Ascii.eqb_eq in Hc. subst c.
    exists "", s. repeat split. exact Hs.
Qed.

Lemma rfind_dot_app (before rest : string) :
  rfind_dot rest = None ->
  rfind_dot (before +++ String "." rest) = Some (String.length before).
Proof.
  intros Hrest. induction before as [| c before IH]; simpl.
  - now rewrite Hrest.
  - now rewrite IH.
Qed.

(** The suffix of a name that ends in a dot and a dot-free, non-empty
    extension, after a non-empty base. *)
Lemma suffix_app (base rest : string) :
  base <> "" -> rest <> "" -> rfind_dot rest = None ->
  suffix (base +++ String "." rest) = String "." rest.
Proof.
  intros Hbase Hne Hrest. unfold suffix.
  rewrite (rfind_dot_app _ _ Hrest), length_append. simpl String.length.
  assert (Hb : (0 < String.length base)%nat)
    by (destruct base; [contradiction | simpl; apply Nat.lt_0_succ]).
  assert (Hr : (0 < String.length rest)%nat)
    by (destruct rest; [contradiction | simpl; apply Nat.lt_0_succ]).
  assert (H1 : (0 <? String.length base)%nat = true) by now apply Nat.ltb_lt.
  assert (H2 : (String.length base <?
                String.length base + S (String.length rest) - 1)%nat = true)
    by (apply Nat.ltb_lt; lia).
  rewrite H1, H2. cbn [andb].
  rewrite substring_skip. apply substring_all. simpl. lia.
Qed.

(** A suffix is empty, or a dot followed by a non-empty string without a
    dot. *)
Lemma suffix_shape (name : string) :
  suffix name = "" \/
  exists rest, suffix name = String "." rest /\ rest <> "" /\ rfind_dot rest = None.
Proof.
  unfold suffix. destruct (rfind_dot name) as [i |] eqn:Hi; [| now left].
  destruct ((0 <? i) && (i <? String.length name - 1))%nat eqn:Hc; [| now left].
  right. destruct (rfind_dot_split _ _ Hi) as (before & rest & -> & <- & Hrest).
  exists rest.
  apply andb_prop in Hc. destruct Hc as [_ Hc]. apply Nat.ltb_lt in Hc.
  rewrite length_append in *. simpl String.length in *.
  split; [| split; [| exact Hrest]].
  - rewrite substring_skip. apply substring_all. simpl. lia.
  - intros ->. simpl in Hc. lia.
Qed.

Lemma suffix_lower (name : string) : suffix (lower name) = lower (suffix name).
Proof.
  unfold suffix. rewrite rfind_dot_lower, length_lower.
  destruct (rfind_dot name) as [i |]; [| reflexivity].
  destruct ((0 <? i) && (i <? String.length name - 1))%nat; [| reflexivity].
  apply substring_lower.
Qed.

(** ** File classifier *)

(** Every extension of [FILE_CATEGORIES] is a dot and a dot-free,
    non-empty, lowercase string, and the table maps it to the category that
    lists it. *)
Lemma file_categories_listed (cat : category) (extensions : list string) (ext : string) :
  In (cat, extensions) FILE_CATEGORIES -> In ext extensions ->
  cat <> other /\
  lookup_category ext FILE_CATEGORIES = cat /\
  exists rest, ext = String "." rest /\ rest <> "" /\ rfind_dot rest = None.
Proof.
  intros Hcat Hext. unfold FILE_CATEGORIES in Hcat. simpl in Hcat.
  repeat (destruct Hcat as [Hcat | Hcat];
          [injection Hcat as <- <-; simpl in Hext;
           repeat (destruct Hext as [<- | Hext];
                   [split; [discriminate |];
                    split; [reflexivity |];
                    eexists; split; [reflexivity |];
                    split; [discriminate | reflexivity] |]);
           contradiction |]).
  contradiction.
Qed.

Lemma lookup_category_unlisted (ext : string) (table : list (category * list string)) :
  (forall cat extensions, In (cat, extensions) table -> ~ In ext extensions) ->
  lookup_category ext table = other.
Proof.
  induction table as [| [cat extensions] table IH]; intros H; simpl; [reflexivity |].
  destruct (existsb (String.eqb ext) extensions) eqn:E.
  - apply existsb_exists in E. destruct E as (e & He & Heq).
    apply String.eqb_eq in Heq. subst e.
    exfalso. apply (H cat extensions); [now left | exact He].
  - apply IH. intros c es Hin. apply (H c es). now right.
Qed.

Lemma lookup_category_listed (ext : string) (table : list (category * list string)) :
  lookup_category ext table <> other ->
  exists extensions,
    In (lookup_category ext table, extensions) table /\ In ext extensions.
Proof.
  induction table as [| [cat extensions] table IH]; simpl; intros H.
  - now contradiction H.
  - destruct (existsb (String.eqb ext) extensions) eqn:E.
    + apply existsb_exists in E. destruct E as (e & He & Heq).
      apply String.eqb_eq in Heq. subst e.
      exists extensions. split; [now left | exact He].
    + destruct (IH H) as (es & Hin & He). exists es. split; [now right | exact He].
Qed.

(** X1.  A file whose name is a non-empty base followed by an extension
    that, lowercased, is in [FILE_CATEGORIES] gets the category that lists
    the extension, whatever the case of the name. *)
Theorem get_file_type_listed (base ext : string) (cat : category)
    (extensions : list string) :
  base <> "" ->
  In (cat, extensions) FILE_CATEGORIES ->
  In (lower ext) extensions ->
  get_file_type (base +++ ext) = cat.
Proof.
  intros Hbase Hcat Hext.
  destruct (file_categories_listed _ _ _ Hcat Hext)
    as (_ & Hlookup & rest & Hshape & Hne & Hrest).
  unfold get_file_type.
  rewrite <- suffix_lower, lower_append, Hshape, suffix_app; try assumption.
  - rewrite <- Hshape. exact Hlookup.
  - destruct base; [contradiction | discriminate].
Qed.

(** X2.  Classification ignores the case of the name: lowercasing a file
    name changes neither its category nor its icon. *)
Theorem classification_ignores_case (filename : string) (is_dir : bool) :
  get_file_type (lower filename) = get_file_type filename /\
  get_file_icon (lower filename) is_dir = get_file_icon filename is_dir.
Proof.
  unfold get_file_type, get_file_icon.
  rewrite suffix_lower, lower_idem. split; reflexivity.
Qed.

(** X3.  [get_file_type] returns [other] exactly when the lowercased
    suffix of the name is in no list of [FILE_CATEGORIES]; any other
    category it returns is one whose list holds that suffix. *)
Theorem get_file_type_sound (filename : string) :
  (get_file_type filename = other <->
   forall cat extensions,
     In (cat, extensions) FILE_CATEGORIES ->
     ~ In (lower (suffix filename)) extensions) /\
  (get_file_type filename <> other ->
   exists extensions,
     In (get_file_type filename, extensions) FILE_CATEGORIES /\
     In (lower (suffix filename)) extensions).
Proof.
  unfold get_file_type. split; [split |].
  - intros Hother cat extensions Hcat Hext.
    destruct (file_categories_listed _ _ _ Hcat Hext) as (Hne & Hlookup & _).
    rewrite Hlookup in Hother. contradiction.
  - apply lookup_category_unlisted.
  - apply lookup_category_listed.
Qed.

(** ** Size formatter, at the unit thresholds *)

Lemma round_half_even_up (num den q : Z) :
  0 < den -> q * den <= num < (q + 1) * den -> den < 2 * (num - q * den) ->
  round_half_even num den = q + 1.
Proof.
  intros Hden Hq Hr. unfold round_half_even.
  assert (Hdiv : num / den = q) by (symmetry; apply Z.div_unique with (r := num - q * den); lia).
  assert (Hmod : num mod den = num - q * den).
  { pose proof (Z.div_mod num den ltac:(lia)) as H. rewrite Hdiv in H. lia. }
  rewrite Hdiv, Hmod.
  destruct (2 * (num - q * den) <? den) eqn:E1; [apply Z.ltb_lt in E1; lia |].
  destruct (den <? 2 * (num - q * den)) eqn:E2; [reflexivity |].
  apply Z.ltb_ge in E2. lia.
Qed.

(** X4.  The unit is chosen on the byte count, not on the rounded value:
    just below a threshold the formatter shows 1024.0 of the smaller unit. *)
Theorem format_size_shows_1024 (b : Z) :
  (1048525 <= b < 1048576 -> format_size b = Returns "1024.0 KB") /\
  (1073689396 <= b < 1073741824 -> format_size b = Returns "1024.0 MB").
Proof.
  split; intros [Hlo Hhi]; unfold format_size.
  - destruct (b <? 1024) eqn:A; [apply Z.ltb_lt in A; lia |].
    destruct (b <? 1024 * 1024) eqn:B; [| apply Z.ltb_ge in B; lia].
    rewrite truediv_pow2_exact by lia. cbn [bind]. unfold format_f. cbn [mant scale].
    change (10 ^ Z.of_nat 1) with 10. change (2 ^ 10) with 1024.
    rewrite (round_half_even_up (b * 10) 1024 10239) by lia.
    reflexivity.
  - destruct (b <? 1024) eqn:A; [apply Z.ltb_lt in A; lia |].
    destruct (b <? 1024 * 1024) eqn:B; [apply Z.ltb_lt in B; lia |].
    destruct (b <? 1024 * 1024 * 1024) eqn:C; [| apply Z.ltb_ge in C; lia].
    rewrite truediv_pow2_exact by lia. cbn [bind]. unfold format_f. cbn [mant scale].
    change (10 ^ Z.of_nat 1) with 10. change (2 ^ 20) with 1048576.
    rewrite (round_half_even_up (b * 10) 1048576 10239) by lia.
    reflexivity.
Qed.

(** ** File prober, field by field *)

Lemma get_file_data_fields (file_path : path) (st : except stat_result)
    (relative_to : option path) (r : FileRecord.t) :
  get_file_data file_path st relative_to = Returns (Some r) ->
  exists stat,
    st = Returns stat /\
    format_size (st_size stat) = Returns (FileRecord.size r) /\
    fromtimestamp_isoformat (st_mtime stat) = Returns (FileRecord.modified r) /\
    FileRecord.size_bytes r = st_size stat /\
    FileRecord.name r = record_name file_path relative_to /\
    FileRecord.display_name r =
      substring 0 50 (stem (path_name file_path)) +++
      (if (50 <? String.length (stem (path_name file_path)))%nat then "..." else "") /\
    FileRecord.extension r =
      match lower (suffix (path_name file_path)) with
      | EmptyString => ""
      | String _ ext' => ext'
      end /\
    FileRecord.type r = get_file_type (path_name file_path) /\
    FileRecord.icon r = get_file_icon (path_name file_path) false.
Proof.
  unfold get_file_data, record_name. destruct st as [stat | e]; cbn [bind].
  - destruct (format_size (st_size stat)) as [size | e] eqn:Hsize; cbn [bind].
    + destruct (fromtimestamp_isoformat (st_mtime stat)) as [modified | e] eqn:Hmod;
        cbn [bind].
      * intros H. injection H as <-. exists stat. cbn. repeat split; assumption.
      * destruct (is_OSError e); discriminate.
    + destruct (is_OSError e); discriminate.
  - destruct (is_OSError e); discriminate.
Qed.

Lemma get_file_data_raises (file_path : path) (st : except stat_result)
    (relative_to : option path) (e : exn) :
  get_file_data file_path st relative_to = Raises e -> is_OSError e = false.
Proof.
  unfold get_file_data.
  match goal with
  | |- match ?body with _ => _ end = _ -> _ => destruct body as [r | e']
  end.
  - discriminate.
  - destruct (is_OSError e') eqn:E; [discriminate |].
    intros H. injection H as <-. exact E.
Qed.

(** The lowercased suffix of a name, from the extension field. *)
Lemma lower_suffix_dotted (name : string) :
  lower (suffix name) =
  dotted match lower (suffix name) with
         | EmptyString => ""
         | String _ ext' => ext'
         end.
Proof.
  destruct (suffix_shape name) as [-> | (rest & -> & Hne & _)]; [reflexivity |].
  simpl. destruct rest as [| c rest]; [contradiction | reflexivity].
Qed.

(** X5.  The display name of a record has at most 53 characters: it is the
    stem of the file name when that has at most 50 characters, and its
    first 50 characters followed by "..." otherwise. *)
Theorem display_name_bounded (file_path : path) (st : except stat_result)
    (relative_to : option path) (r : FileRecord.t) :
  get_file_data file_path st relative_to = Returns (Some r) ->
  (String.length (FileRecord.display_name r) <= 53)%nat /\
  ((String.length (stem (path_name file_path)) <= 50)%nat ->
   FileRecord.display_name r = stem (path_name file_path)) /\
  ((50 < String.length (stem (path_name file_path)))%nat ->
   FileRecord.display_name r = substring 0 50 (stem (path_name file_path)) +++ "..." /\
   String.length (FileRecord.display_name r) = 53%nat).
Proof.
  intros H.
  destruct (get_file_data_fields _ _ _ _ H) as (stat & _ & _ & _ & _ & _ & Hd & _).
  rewrite Hd. set (s := stem (path_name file_path)).
  destruct (50 <? String.length s)%nat eqn:E.
  - apply Nat.ltb_lt in E.
    assert (Hlen : String.length (substring 0 50 s +++ "...") = 53%nat).
    { rewrite length_append, length_substring_0.
      change (String.length "...") with 3%nat. lia. }
    split; [rewrite Hlen; lia |]. split; [lia |]. intros _. split; [reflexivity | exact Hlen].
  - apply Nat.ltb_ge in E.
    assert (Hs : substring 0 50 s +++ "" = s).
    { rewrite (substring_all s 50 E). clear. induction s; simpl; congruence. }
    rewrite Hs. split; [lia |]. split; [reflexivity | lia].
Qed.

(** X6.  The type and the icon of a record depend on its extension only:
    two records with the same extension have the same type and icon. *)
Theorem same_extension_same_type (path1 path2 : path) (st1 st2 : except stat_result)
    (relative1 relative2 : option path) (r1 r2 : FileRecord.t) :
  get_file_data path1 st1 relative1 = Returns (Some r1) ->
  get_file_data path2 st2 relative2 = Returns (Some r2) ->
  FileRecord.extension r1 = FileRecord.extension r2 ->
  FileRecord.type r1 = FileRecord.type r2 /\
  FileRecord.icon r1 = FileRecord.icon r2.
Proof.
  intros H1 H2 Hext.
  destruct (get_file_data_fields _ _ _ _ H1)
    as (_ & _ & _ & _ & _ & _ & _ & He1 & Ht1 & Hi1).
  destruct (get_file_data_fields _ _ _ _ H2)
    as (_ & _ & _ & _ & _ & _ & _ & He2 & Ht2 & Hi2).
  assert (Hsuffix : lower (suffix (path_name path1)) = lower (suffix (path_name path2))).
  { rewrite (lower_suffix_dotted (path_name path1)),
      (lower_suffix_dotted (path_name path2)), <- He1, <- He2, Hext.
    reflexivity. }
  rewrite Ht1, Ht2, Hi1, Hi2. unfold get_file_type, get_file_icon.
  rewrite Hsuffix. split; reflexivity.
Qed.

(** X7.  The fields of a record agree: [size] is the formatted
    [size_bytes]; the extension is lowercase, holds no dot, and is what
    the type is looked up under. *)
Theorem record_fields_agree (file_path : path) (st : except stat_result)
    (relative_to : option path) (r : FileRecord.t) :
  get_file_data file_path st relative_to = Returns (Some r) ->
  format_size (FileRecord.size_bytes r) = Returns (FileRecord.size r) /\
  lower (FileRecord.extension r) = FileRecord.extension r /\
  rfind_dot (FileRecord.extension r) = None /\
  FileRecord.type r = lookup_category (dotted (FileRecord.extension r)) FILE_CATEGORIES /\
  (FileRecord.extension r = "" -> FileRecord.type r = other).
Proof.
  intros H.
  destruct (get_file_data_fields _ _ _ _ H)
    as (stat & _ & Hsize & _ & Hbytes & _ & _ & He & Ht & _).
  assert (Htype : FileRecord.type r
                  = lookup_category (dotted (FileRecord.extension r)) FILE_CATEGORIES).
  { rewrite Ht, He. unfold get_file_type.
    now rewrite <- lower_suffix_dotted. }
  split; [rewrite Hbytes; exact Hsize |].
  split; [| split; [| split; [exact Htype |]]].
  - rewrite He.
    destruct (suffix_shape (path_name file_path)) as [-> | (rest & -> & _ & _)];
      [reflexivity |].
    simpl. apply lower_idem.
  - rewrite He.
    destruct (suffix_shape (path_name file_path)) as [-> | (rest & -> & _ & Hrest)];
      [reflexivity |].
    simpl. now rewrite rfind_dot_lower.
  - intros E. rewrite Htype, E. reflexivity.
Qed.

(** ** Sums *)

Lemma fold_add_acc (l : list Z) (a : Z) : fold_left Z.add l a = a + sum l.
Proof.
  unfold sum. revert a. induction l as [| x l IH]; intros a; simpl; [lia |].
  rewrite (IH (a + x)), (IH x). lia.
Qed.

Lemma sum_cons (x : Z) (l : list Z) : sum (x :: l) = x + sum l.
Proof.
  unfold sum at 1. simpl. rewrite fold_add_acc. lia.
Qed.

Lemma sum_app (a b : list Z) : sum (a ++ b) = sum a + sum b.
Proof.
  induction a as [| x a IH]; simpl; [reflexivity |].
  rewrite !sum_cons, IH. lia.
Qed.

Lemma sum_perm (a b : list Z) : Permutation a b -> sum a = sum b.
Proof.
  induction 1; rewrite ?sum_cons; lia.
Qed.

Lemma sum_firstn_le (n : nat) (l : list Z) :
  Forall (fun x => 0 <= x) l -> sum (firstn n l) <= sum l.
Proof.
  intros H. revert n. induction H as [| x l Hx Hl IH]; intros [| n]; simpl.
  - lia.
  - lia.
  - rewrite sum_cons. assert (0 <= sum l).
    { clear IH. induction Hl as [| y l Hy _ IHl]; [reflexivity |].
      rewrite sum_cons. lia. }
    change (sum []) with 0. lia.
  - rewrite !sum_cons. specialize (IH n). lia.
Qed.

(** ** Folder scanner: errors and totals *)

Lemma format_size_raises (b : Z) (e : exn) :
  format_size b = Raises e -> e = OverflowError.
Proof.
  unfold format_size, truediv_pow2.
  repeat match goal with
         | |- context [if ?c then _ else _] => destruct c
         end; cbn [bind]; intros H; try discriminate H; now injection H as <-.
Qed.

Lemma is_PermissionError_OSError (e : exn) :
  is_PermissionError e = true -> is_OSError e = true.
Proof.
  now destruct e.
Qed.

(** What [is_dir()] or [is_file()] raises is what [stat()] raised. *)
Lemma stat_mode_test_raises (st : except stat_result) (mode_test : bool) (e : exn) :
  stat_mode_test st mode_test = Raises e -> st = Raises e.
Proof.
  destruct st as [stat | e']; [discriminate |].
  destruct e'; cbn; intros H; try discriminate H; now injection H as <-.
Qed.

(** The loop ends early on what the glob raises, on what [is_file()] raises
    or on what the file prober lets out, which is no [OSError]. *)
Lemma scan_folder_loop_raised (folder_path : path) (events : list glob_event) :
  forall files0 total0 files total e,
    scan_folder_loop folder_path events files0 total0 = (files, total, Some e) ->
    In (GlobRaises e) events \/
    (exists rel name st,
       In (Yield rel (File name st)) events /\
       is_file (File name st) = Raises e) \/
    is_OSError e = false.
Proof.
  induction events as [| ev events IH]; intros files0 total0 files total e Hloop.
  - discriminate Hloop.
  - assert (Hnext :
      forall f t,
        scan_folder_loop folder_path events f t = (files, total, Some e) ->
        In (GlobRaises e) (ev :: events) \/
        (exists rel name st,
           In (Yield rel (File name st)) (ev :: events) /\
           is_file (File name st) = Raises e) \/
        is_OSError e = false).
    { intros f t H.
      destruct (IH _ _ _ _ _ H) as [Hin | [(rel & name & st & Hin & Hfile) | Hos]].
      - left. now right.
      - right. left. exists rel, name, st. split; [now right | exact Hfile].
      - right. now right. }
    destruct ev as [rel [name st | name access entries] | e']; simpl in Hloop.
    + destruct (stat_mode_test st true) as [regular | e'] eqn:Hreg.
      * destruct (regular && negb (startswith "." name)); [| exact (Hnext _ _ Hloop)].
        destruct (get_file_data (folder_path ++ rel) st (Some folder_path))
          as [[file_data |] | e'] eqn:Hdata; try exact (Hnext _ _ Hloop).
        injection Hloop as _ _ <-. right. right.
        exact (get_file_data_raises _ _ _ _ Hdata).
      * injection Hloop as _ _ <-. right. left. exists rel, name, st.
        split; [now left | exact Hreg].
    + exact (Hnext _ _ Hloop).
    + injection Hloop as _ _ <-. left. now left.
Qed.

(** The loop adds records at the end of the list and their sizes to the
    total. *)
Lemma scan_folder_loop_total (folder_path : path) (events : list glob_event) :
  forall files0 total0 files total raised,
    scan_folder_loop folder_path events files0 total0 = (files, total, raised) ->
    exists added,
      files = files0 ++ added /\
      total = total0 + sum (map FileRecord.size_bytes added).
Proof.
  induction events as [| ev events IH]; intros files0 total0 files total raised Hloop.
  - injection Hloop as <- <- _. exists []. rewrite app_nil_r. split; [reflexivity |].
    change (sum (map FileRecord.size_bytes [])) with 0. lia.
  - assert (Hstop : (files0, total0, raised) = (files, total, raised) ->
              exists added,
                files = files0 ++ added /\
                total = total0 + sum (map FileRecord.size_bytes added)).
    { intros H. injection H as <- <-. exists []. rewrite app_nil_r.
      split; [reflexivity |].
      change (sum (map FileRecord.size_bytes [])) with 0. lia. }
    destruct ev as [rel [name st | name access entries] | e']; simpl in Hloop.
    + destruct (stat_mode_test st true) as [regular | e'];
        [| injection Hloop as <- <- <-; now apply Hstop].
      destruct (regular && negb (startswith "." name)); [| exact (IH _ _ _ _ _ Hloop)].
      destruct (get_file_data (folder_path ++ rel) st (Some folder_path))
        as [[file_data |] | e'] eqn:Hdata.
      * destruct (IH _ _ _ _ _ Hloop) as (added & -> & ->).
        exists (file_data :: added). rewrite <- app_assoc. split; [reflexivity |].
        cbn [map]. rewrite sum_cons. lia.
      * exact (IH _ _ _ _ _ Hloop).
      * injection Hloop as <- <- <-. now apply Hstop.
    + exact (IH _ _ _ _ _ Hloop).
    + injection Hloop as <- <- <-. now apply Hstop.
Qed.


Lemma scan_folder_totals (folder_path : path) (folder : node) (fs : FolderSummary.t) :
  scan_folder folder_path folder = Returns fs ->
  exists files formatted,
    (exists total raised,
       scan_folder_loop folder_path (rglob folder) [] 0 = (files, total, raised)) /\
    FolderSummary.files fs = firstn 20 (sort_desc FileRecord.size_bytes files) /\
    FolderSummary.total_files fs = Some (len files) /\
    FolderSummary.hidden_files fs =
      Some (if 20 <? len files then len files - 20 else 0) /\
    FolderSummary.total_size fs = sum (map FileRecord.size_bytes files) /\
    FolderSummary.total_size_formatted fs = Some formatted /\
    format_size (FolderSummary.total_size fs) = Returns formatted.
Proof.
  unfold scan_folder.
  destruct (scan_folder_loop folder_path (rglob folder) [] 0)
    as [[files total] raised] eqn:Hloop.
  destruct (scan_folder_loop_total _ _ _ _ _ _ _ Hloop) as (added & Hfiles & Htotal).
  simpl in Hfiles, Htotal. subst added.
  intros H. exists files.
  assert (Hex : exists total' raised',
            (files, total, raised) = (files, total', raised'))
    by (now exists total, raised).
  destruct raised as [e |]; [destruct (is_PermissionError e) |]; cbn [bind] in H;
    try discriminate H;
    rewrite sort_desc_length in H;
    (destruct (format_size total) as [formatted | e'] eqn:Hfmt; cbn [bind] in H;
     [injection H as <-; exists formatted; cbn; repeat split; assumption
     | discriminate H]).
Qed.

(** No [PermissionError] leaves the folder scanner. *)
Lemma scan_folder_raises (folder_path : path) (folder : node) (e : exn) :
  scan_folder folder_path folder = Raises e -> is_PermissionError e = false.
Proof.
  unfold scan_folder.
  destruct (scan_folder_loop folder_path (rglob folder) [] 0)
    as [[files total] raised] eqn:Hloop.
  destruct raised as [e' |].
  - destruct (is_PermissionError e') eqn:Hperm; cbn [bind].
    + destruct (format_size total) as [formatted | e''] eqn:Hfmt; cbn [bind];
        [discriminate |].
      intros H. injection H as <-.
      now rewrite (format_size_raises _ _ Hfmt).
    + intros H. now injection H as <-.
  - cbn [bind].
    destruct (format_size total) as [formatted | e''] eqn:Hfmt; cbn [bind];
      [discriminate |].
    intros H. injection H as <-. now rewrite (format_size_raises _ _ Hfmt).
Qed.


(** X12.  In what the folder scanner returns, the files displayed and the
    files hidden add up to the total: [len(files) + hidden_files =
    total_files], and files are hidden only when 20 are displayed. *)
Theorem displayed_plus_hidden (folder_path : path) (folder : node)
    (fs : FolderSummary.t) :
  scan_folder folder_path folder = Returns fs ->
  exists total hidden,
    FolderSummary.total_files fs = Some total /\
    FolderSummary.hidden_files fs = Some hidden /\
    len (FolderSummary.files fs) + hidden = total /\
    0 <= hidden /\
    (0 < hidden -> len (FolderSummary.files fs) = 20).
Proof.
  intros H.
  destruct (scan_folder_totals _ _ _ H)
    as (files & formatted & _ & Hfiles & Htotal & Hhidden & _).
  exists (len files), (if 20 <? len files then len files - 20 else 0).
  split; [exact Htotal |]. split; [exact Hhidden |].
  rewrite Hfiles. unfold len. rewrite length_firstn.
  rewrite (Permutation_length (sort_desc_perm FileRecord.size_bytes files)).
  unfold len in *.
  destruct (20 <? Z.of_nat (Datatypes.length files)) eqn:E;
    [apply Z.ltb_lt in E | apply Z.ltb_ge in E]; repeat split; lia.
Qed.

(** X13.  The totals of a folder summary agree: [total_size_formatted] is
    the formatted [total_size], and when no file is hidden [total_size] is
    the sum of the sizes of the files listed. *)
Theorem folder_totals_agree (folder_path : path) (folder : node)
    (fs : FolderSummary.t) :
  scan_folder folder_path folder = Returns fs ->
  (exists formatted,
     FolderSummary.total_size_formatted fs = Some formatted /\
     format_size (FolderSummary.total_size fs) = Returns formatted) /\
  (FolderSummary.hidden_files fs = Some 0 ->
   FolderSummary.total_size fs
   = sum (map FileRecord.size_bytes (FolderSummary.files fs))).
Proof.
  intros H.
  destruct (scan_folder_totals _ _ _ H)
    as (files & formatted & _ & Hfiles & Htotal & Hhidden & Hsize & Hfmt & Hformat).
  split; [now exists formatted |].
  intros Hzero. rewrite Hhidden in Hzero. injection Hzero as Hzero.
  assert (Hlen : (Datatypes.length files <= 20)%nat).
  { unfold len in Hzero.
    destruct (20 <? Z.of_nat (Datatypes.length files)) eqn:E;
      [apply Z.ltb_lt in E | apply Z.ltb_ge in E]; lia. }
  rewrite Hfiles, Hsize, firstn_all2
    by now rewrite (Permutation_length (sort_desc_perm FileRecord.size_bytes files)).
  apply sum_perm, Permutation_map, Permutation_sym, sort_desc_perm.
Qed.

(** X18.  The name of a record of a folder summary is the path of its file
    relative to the folder, segments joined by "/": nested files show with
    their subdirectory prefix, and the last segment is the name of the
    file, which is not hidden. *)
Theorem nested_names_have_prefix (folder_path : path) (folder : node)
    (fs : FolderSummary.t) (r : FileRecord.t) :
  scan_folder folder_path folder = Returns fs ->
  In r (FolderSummary.files fs) ->
  exists rel name st,
    In (Yield rel (File name st)) (rglob folder) /\
    FileRecord.name r = String.concat "/" rel /\
    last rel "" = name /\
    hidden_name name = false.
Proof.
  intros H Hr.
  destruct (scan_folder_inv _ _ _ H) as (files & total & raised & Hloop & _ & Hfiles & _).
  rewrite Hfiles in Hr. apply In_firstn, sort_desc_In in Hr.
  destruct (scan_folder_loop_files _ _ _ _ _ _ _ Hloop r Hr)
    as [[] | (rel & name & st & Hyield & Hhid & Hdata)].
  exists rel, name, st. split; [exact Hyield |].
  destruct (rglob_tree_files _ [] [] rel name st Hyield) as [_ (parent & Hrel)].
  simpl in Hrel.
  destruct (get_file_data_inv _ _ _ _ Hdata) as (stat & _ & _ & Hname).
  unfold record_name in Hname. rewrite relative_to_path_prefix in Hname.
  split; [| split; [| exact Hhid]].
  - rewrite Hname, Hrel. unfold path_str. destruct parent; reflexivity.
  - rewrite Hrel. apply last_last.
Qed.

(** ** Root scanner: errors, order and totals *)

(** A [PermissionError] leaves the loop over the entries of the root only
    out of [is_dir()], on an entry that is not passed over. *)
Lemma scan_items_raises (items : list node) :
  forall folders root_files e,
    scan_items items folders root_files = Raises e ->
    is_PermissionError e = true ->
    exists name,
      In (File name (Raises e)) items /\ excluded_segment name = false.
Proof.
  induction items as [| item items IH]; intros folders root_files e H Hperm.
  - discriminate H.
  - assert (Hnext :
      forall f r,
        scan_items items f r = Raises e ->
        exists name,
          In (File name (Raises e)) (item :: items) /\
          excluded_segment name = false).
    { intros f r H'. destruct (IH _ _ _ H' Hperm) as (name & Hin & Hexcl).
      exists name. split; [now right | exact Hexcl]. }
    cbn [scan_items] in H.
    destruct (startswith "." (node_name item)) eqn:Hhid; [exact (Hnext _ _ H) |].
    destruct (String.eqb (node_name item) "$RECYCLE.BIN") eqn:Htrash;
      [exact (Hnext _ _ H) |].
    destruct item as [name st | name access entries]; cbn [node_name] in *.
    + destruct (is_dir (File name st)) as [d | e'] eqn:Hdir; cbn [bind] in H.
      * destruct (get_file_data (DOWNLOADS_PATH ++ [name]) st None)
          as [[file_data |] | e'] eqn:Hdata; cbn [bind] in H;
          try exact (Hnext _ _ H).
        injection H as <-. apply is_PermissionError_OSError in Hperm.
        rewrite (get_file_data_raises _ _ _ _ Hdata) in Hperm. discriminate Hperm.
      * injection H as <-. exists name. split.
        -- left. now rewrite (stat_mode_test_raises _ _ _ Hdir).
        -- unfold excluded_segment, hidden_name, trash_name.
           now rewrite Hhid, Htrash.
    + destruct (scan_folder (DOWNLOADS_PATH ++ [name]) (Dir name access entries))
        as [folder_data | e'] eqn:Hfolder; cbn [bind] in H.
      * destruct (nonempty (FolderSummary.files folder_data)); exact (Hnext _ _ H).
      * injection H as <-. rewrite (scan_folder_raises _ _ _ Hfolder) in Hperm.
        discriminate Hperm.
Qed.

(** X9.  Once the root has been found, a scan raises what listing the root
    raises: the root is a file, or it cannot be listed.  And a
    [PermissionError] then leaves the scan at the level of the root only:
    out of the listing of the root, or out of [is_dir()] on an entry of the
    root that is neither hidden nor the trash folder and on which [stat()]
    raises it; below a subfolder it is absorbed. *)
Theorem scan_permission_errors_from_root_level (root_dir : node) (now : string) :
  (forall e,
     iterdir root_dir = Raises e ->
     scan_downloads (Some root_dir) now = Raises e) /\
  (scan_downloads (Some root_dir) now = Raises PermissionError ->
   iterdir root_dir = Raises PermissionError \/
   exists items name,
     iterdir root_dir = Returns items /\
     In (File name (Raises PermissionError)) items /\
     excluded_segment name = false).
Proof.
  split.
  - intros e H. unfold scan_downloads. now rewrite H.
  - intros H. unfold scan_downloads in H.
    destruct (iterdir root_dir) as [items | e'] eqn:Hiter; cbn [bind] in H;
      [| left; now injection H as ->].
    right. exists items.
    destruct (scan_items items [] []) as [[folders root_files] | e'] eqn:Hitems;
      cbn [bind] in H.
    + match type of H with
      | bind (format_size ?t) _ = _ =>
          destruct (format_size t) as [formatted | e'] eqn:Hfmt
      end; cbn [bind] in H; [discriminate H |].
      injection H as ->. discriminate (format_size_raises _ _ Hfmt).
    + injection H as ->.
      destruct (scan_items_raises _ _ _ _ Hitems eq_refl) as (name & Hin & Hexcl).
      exists name. repeat split; assumption.
Qed.

(** X10.  The folders of a scan are in descending order of total size. *)
Theorem folders_sorted_by_total_size (root : option node) (now : string)
    (res : ScanResult.t) :
  scan_downloads root now = Returns res ->
  descending FolderSummary.total_size (ScanResult.folders res).
Proof.
  destruct root as [root_dir |]; intros H.
  - destruct (scan_downloads_inv _ _ _ H)
      as (items & folders & root_files & all_files & formatted
          & _ & _ & Hfolders & _).
    rewrite Hfolders. apply sorted_descending, sort_desc_sorted.
  - injection H as <-. intros [| i] a b Ha; discriminate Ha.
Qed.

Lemma scan_items_nonempty (items : list node) :
  forall folders0 root_files0 folders root_files,
    scan_items items folders0 root_files0 = Returns (folders, root_files) ->
    Forall (fun fs => FolderSummary.files fs <> []) folders0 ->
    Forall (fun fs => FolderSummary.files fs <> []) folders.
Proof.
  induction items as [| item items IH];
    intros folders0 root_files0 folders root_files H Hall.
  - injection H as <- _. exact Hall.
  - cbn [scan_items] in H.
    destruct (startswith "." (node_name item)); [exact (IH _ _ _ _ H Hall) |].
    destruct (String.eqb (node_name item) "$RECYCLE.BIN");
      [exact (IH _ _ _ _ H Hall) |].
    destruct item as [name st | name access entries]; cbn [node_name] in H.
    + destruct (is_dir (File name st)) as [d | e']; cbn [bind] in H;
        [| discriminate H].
      destruct (get_file_data (DOWNLOADS_PATH ++ [name]) st None)
        as [[file_data |] | e']; cbn [bind] in H;
        try exact (IH _ _ _ _ H Hall).
      discriminate H.
    + destruct (scan_folder (DOWNLOADS_PATH ++ [name]) (Dir name access entries))
        as [folder_data | e']; cbn [bind] in H; [| discriminate H].
      destruct (FolderSummary.files folder_data) as [| r files] eqn:Hfiles;
        cbn [nonempty] in H; [exact (IH _ _ _ _ H Hall) |].
      apply (IH _ _ _ _ H). apply Forall_app. split; [exact Hall |].
      constructor; [| constructor]. rewrite Hfiles. discriminate.
Qed.

(** X11.  No folder of a scan is empty: a subfolder that yields no file,
    and the "Uncategorized" folder when there is no loose file, are left
    out. *)
Theorem no_empty_folder (root : option node) (now : string) (res : ScanResult.t)
    (fs : FolderSummary.t) :
  scan_downloads root now = Returns res ->
  In fs (ScanResult.folders res) ->
  FolderSummary.files fs <> [].
Proof.
  destruct root as [root_dir |]; intros H Hfs.
  - destruct (scan_downloads_inv _ _ _ H)
      as (items & folders & root_files & all_files & formatted
          & _ & Hitems & Hfolders & _).
    rewrite Hfolders in Hfs. apply sort_desc_In in Hfs.
    pose proof (scan_items_nonempty _ _ _ _ _ Hitems (Forall_nil _)) as Hall.
    rewrite Forall_forall in Hall.
    destruct root_files as [| r root_files]; cbn [nonempty] in Hfs.
    + now apply Hall.
    + apply in_app_or in Hfs. destruct Hfs as [Hin | [<- | []]];
        [now apply Hall | discriminate].
  - injection H as <-. contradiction Hfs.
Qed.

Lemma sum_flat_map_le (l : list FolderSummary.t) :
  (forall fs, In fs l ->
     sum (map FileRecord.size_bytes (FolderSummary.files fs))
     <= FolderSummary.total_size fs) ->
  sum (map FileRecord.size_bytes (flat_map FolderSummary.files l))
  <= sum (map FolderSummary.total_size l).
Proof.
  induction l as [| fs l IH]; intros H; simpl; [reflexivity |].
  rewrite map_app, sum_app, sum_cons.
  assert (sum (map FileRecord.size_bytes (FolderSummary.files fs))
          <= FolderSummary.total_size fs) by (apply H; now left).
  assert (sum (map FileRecord.size_bytes (flat_map FolderSummary.files l))
          <= sum (map FolderSummary.total_size l))
    by (apply IH; intros fs' Hin; apply H; now right).
  lia.
Qed.

(** X14.  When no file has a negative size, the total size in the stats,
    which counts the files displayed, is at most the sum of the total
    sizes of the folders, which count every file. *)
Theorem stats_total_at_most_folder_totals (root_dir : node) (now : string)
    (res : ScanResult.t) :
  sizes_nonneg root_dir ->
  scan_downloads (Some root_dir) now = Returns res ->
  Stats.total_size (ScanResult.stats res)
  <= sum (map FolderSummary.total_size (ScanResult.folders res)).
Proof.
  intros Hnonneg H.
  destruct (scan_downloads_inv _ _ _ H)
    as (items & folders & root_files & all_files & formatted
        & Hiter & _ & _ & Hall & _ & Hstats & _).
  rewrite Hstats. cbn [Stats.total_size]. subst all_files.
  apply sum_flat_map_le. intros fs Hfs.
  destruct (scan_downloads_folders _ _ _ _ H Hfs)
    as (items' & folders' & root_files' & Hiter' & _ & Hcases).
  destruct (iterdir_inv _ _ Hiter') as [root_name ->].
  destruct Hcases as [(name & access & entries & Hin & _ & Hfolder) | [_ ->]];
    [| reflexivity].
  destruct (scan_folder_totals _ _ _ Hfolder)
    as (files & fmt & (total & raised & Hloop) & Hfiles & _ & _ & Hsize & _).
  rewrite Hfiles, Hsize, <- firstn_map.
  rewrite <- (sum_perm _ _ (Permutation_map FileRecord.size_bytes
                              (sort_desc_perm FileRecord.size_bytes files))).
  apply sum_firstn_le. apply Forall_forall. intros x Hx.
  apply in_map_iff in Hx. destruct Hx as (r & <- & Hr).
  apply sort_desc_In in Hr.
  destruct (scan_folder_loop_files _ _ _ _ _ _ _ Hloop r Hr)
    as [[] | (rel & fname & st & Hyield & _ & Hdata)].
  destruct (get_file_data_inv _ _ _ _ Hdata) as (stat & -> & -> & _).
  destruct (rglob_tree_files _ [] [name] rel fname _ Hyield) as [Htree _].
  apply (Hnonneg ([name] ++ rel)). simpl. apply in_flat_map.
  exists (Dir name access entries). split; [exact Hin | exact Htree].
Qed.

(** ** Order among equal sizes *)




(** ** Entries the root scanner passes over *)

Lemma scan_items_filter (keep : node -> bool) (items : list node) :
  (forall item rest folders root_files,
     keep item = false ->
     scan_items (item :: rest) folders root_files = scan_items rest folders root_files) ->
  forall folders root_files,
    scan_items (filter keep items) folders root_files
    = scan_items items folders root_files.
Proof.
  intros Hskip. induction items as [| item items IH]; intros folders root_files;
    [reflexivity |].
  cbn [filter]. destruct (keep item) eqn:E.
  - cbn [scan_items].
    destruct (startswith "." (node_name item)); [apply IH |].
    destruct (String.eqb (node_name item) "$RECYCLE.BIN"); [apply IH |].
    destruct item as [name st | name access entries].
    + destruct (is_dir (File name st)) as [d | e]; cbn [bind]; [| reflexivity].
      destruct (get_file_data (DOWNLOADS_PATH ++ [node_name (File name st)]) st None)
        as [[file_data |] | e]; cbn [bind]; try apply IH. reflexivity.
    + destruct (scan_folder (DOWNLOADS_PATH ++ [node_name (Dir name access entries)])
                  (Dir name access entries)) as [folder_data | e]; cbn [bind];
        [| reflexivity].
      destruct (nonempty (FolderSummary.files folder_data)); apply IH.
  - rewrite (Hskip item items folders root_files E). apply IH.
Qed.

(** X16.  Hidden top-level entries and a top-level "$RECYCLE.BIN" have no
    effect on a scan, whatever they hold: the scan of a root equals the
    scan of the root without them.  Nor does the name of the root. *)
Theorem hidden_entries_ignored (name name' : string) (items : list node)
    (now : string) :
  scan_downloads (Some (Dir name Listable items)) now
  = scan_downloads (Some (Dir name' Listable (filter visible items))) now.
Proof.
  unfold scan_downloads. cbn [iterdir bind].
  rewrite (scan_items_filter visible items); [reflexivity |].
  intros item rest folders root_files Hvis.
  unfold visible, excluded_segment, hidden_name, trash_name in Hvis.
  apply negb_false_iff, orb_true_iff in Hvis. cbn [scan_items].
  destruct Hvis as [Hhid | Htrash].
  - now rewrite Hhid.
  - rewrite Htrash. now destruct (startswith "." (node_name item)).
Qed.

(** X17.  A top-level entry on which [stat()] fails with an error that
    [is_dir()] ignores (the entry is not found, as for a symbolic link to
    nothing, or a segment of its path is no directory) has no effect on a
    scan: the scan of a root equals the scan of the root without such
    entries. *)
Theorem unavailable_files_ignored (name : string) (items : list node)
    (now : string) :
  scan_downloads (Some (Dir name Listable items)) now
  = scan_downloads
      (Some (Dir name Listable (filter (fun item => negb (unavailable item)) items)))
      now.
Proof.
  unfold scan_downloads. cbn [iterdir bind].
  rewrite (scan_items_filter (fun item => negb (unavailable item)) items);
    [reflexivity |].
  intros item rest folders root_files Hun.
  apply negb_false_iff in Hun.
  destruct item as [fname [stat | e] | fname access entries];
    cbn [unavailable] in Hun; try discriminate Hun.
  apply andb_true_iff in Hun. destruct Hun as [Hos Hignored].
  cbn [scan_items node_name].
  destruct (startswith "." fname); [reflexivity |].
  destruct (String.eqb fname "$RECYCLE.BIN"); [reflexivity |].
  unfold is_dir, stat_mode_test, get_file_data. cbn [bind].
  rewrite Hos, Hignored. reflexivity.
Qed.

(** ** Every visible file is listed *)

Lemma rglob_quiet (folder : node) :
  never_raising folder = true ->
  forall rel e, ~ In (GlobRaises e) (rglob_from rel folder).
Proof.
  induction folder as [name st | name access entries IH] using node_nested_ind;
    intros Hquiet rel e Hin.
  - contradiction.
  - destruct access; simpl in Hquiet, Hin; try contradiction; try discriminate Hquiet.
    apply in_app_or in Hin. destruct Hin as [Hin | Hin].
    + apply in_map_iff in Hin. destruct Hin as (c & Hc & _). discriminate Hc.
    + apply in_flat_map in Hin. destruct Hin as (c & Hc & Hin).
      rewrite Forall_forall in IH. rewrite forallb_forall in Hquiet.
      exact (IH c Hc (Hquiet c Hc) _ _ Hin).
Qed.

Lemma never_raising_is_file (item : node) (e : exn) :
  never_raising item = true -> is_file item <> Raises e.
Proof.
  destruct item as [name st | name access entries]; [| discriminate].
  cbn [never_raising is_file].
  destruct (stat_mode_test st true); discriminate.
Qed.

Lemma rglob_quiet_items (folder : node) :
  never_raising folder = true ->
  forall rel rel' item e,
    In (Yield rel' item) (rglob_from rel folder) -> is_file item <> Raises e.
Proof.
  induction folder as [name st | name access entries IH] using node_nested_ind;
    intros Hquiet rel rel' item e Hin.
  - contradiction.
  - destruct access; simpl in Hquiet, Hin; try contradiction; try discriminate Hquiet.
    rewrite forallb_forall in Hquiet.
    apply in_app_or in Hin. destruct Hin as [Hin | Hin].
    + apply in_map_iff in Hin. destruct Hin as (c & Hc & Hin).
      injection Hc as _ <-. exact (never_raising_is_file _ _ (Hquiet c Hin)).
    + apply in_flat_map in Hin. destruct Hin as (c & Hc & Hin).
      rewrite Forall_forall in IH.
      exact (IH c Hc (Hquiet c Hc) _ _ _ _ Hin).
Qed.

(** The glob yields every file that can be reached below a directory. *)
Lemma rglob_complete (folder : node) :
  forall rel name access entries rel' st,
    folder = Dir name access entries ->
    In (rel', st) (listed_files rel folder) ->
    exists fname, In (Yield rel' (File fname st)) (rglob_from rel folder).
Proof.
  induction folder as [name0 st0 | name0 access0 entries0 IH] using node_nested_ind;
    intros rel name access entries rel' st Hdir Hin.
  - discriminate Hdir.
  - destruct access0; simpl in Hin; try contradiction.
    apply in_flat_map in Hin. destruct Hin as (c & Hc & Hin).
    destruct c as [fname st1 | dname daccess dentries].
    + destruct Hin as [Hin | []]. injection Hin as <- <-.
      exists fname. simpl. apply in_or_app. left.
      apply in_map_iff. exists (File fname st1). split; [reflexivity | exact Hc].
    + rewrite Forall_forall in IH.
      destruct (IH _ Hc _ _ _ _ _ _ eq_refl Hin) as (fname & Hyield).
      exists fname. simpl. apply in_or_app. right.
      apply in_flat_map. exists (Dir dname daccess dentries).
      split; [exact Hc | exact Hyield].
Qed.

(** A loop that runs to the end has probed every file yielded. *)
Lemma scan_folder_loop_complete (folder_path : path) (events : list glob_event) :
  forall files0 total0 files total,
    scan_folder_loop folder_path events files0 total0 = (files, total, None) ->
    (forall r, In r files0 -> In r files) /\
    (forall rel name st r,
       In (Yield rel (File name st)) events ->
       hidden_name name = false ->
       get_file_data (folder_path ++ rel) st (Some folder_path) = Returns (Some r) ->
       In r files).
Proof.
  induction events as [| ev events IH]; intros files0 total0 files total Hloop.
  - injection Hloop as <- _. split; [auto | intros ? ? ? ? []].
  - destruct ev as [rel [name st | name access entries] | e']; simpl in Hloop.
    + destruct st as [stat | e']; cbn [stat_mode_test] in Hloop.
      * cbn [andb] in Hloop.
        destruct (startswith "." name) eqn:Hhid; cbn [negb] in Hloop.
        -- destruct (IH _ _ _ _ Hloop) as [Hkeep Hall]. split; [exact Hkeep |].
           intros rel' name' st' r [Heq | Hin] Hvis Hdata; [| eauto].
           injection Heq as <- <- <-. unfold hidden_name in Hvis.
           rewrite Hhid in Hvis. discriminate Hvis.
        -- destruct (get_file_data (folder_path ++ rel) (Returns stat) (Some folder_path))
             as [[file_data |] | e'] eqn:Hdata; [| | discriminate Hloop].
           ++ destruct (IH _ _ _ _ Hloop) as [Hkeep Hall]. split.
              ** intros r Hr. apply Hkeep, in_or_app. now left.
              ** intros rel' name' st' r [Heq | Hin] Hvis Hdata'; [| eauto].
                 injection Heq as <- <- <-. rewrite Hdata in Hdata'.
                 injection Hdata' as <-. apply Hkeep, in_or_app. right. now left.
           ++ destruct (IH _ _ _ _ Hloop) as [Hkeep Hall]. split; [exact Hkeep |].
              intros rel' name' st' r [Heq | Hin] Hvis Hdata'; [| eauto].
              injection Heq as <- <- <-. rewrite Hdata in Hdata'. discriminate Hdata'.
      * assert (Hnone : forall r,
                  get_file_data (folder_path ++ rel) (Raises e') (Some folder_path)
                  <> Returns (Some r)).
        { intros r. unfold get_file_data. cbn [bind].
          destruct (is_OSError e'); discriminate. }
        assert (Hskip : scan_folder_loop folder_path events files0 total0
                        = (files, total, None)).
        { destruct e'; cbn in Hloop; try discriminate Hloop; exact Hloop. }
        destruct (IH _ _ _ _ Hskip) as [Hkeep Hall]. split; [exact Hkeep |].
        intros rel' name' st' r [Heq | Hin] Hvis Hdata'; [| eauto].
        injection Heq as <- <- <-. exfalso. exact (Hnone _ Hdata').
    + destruct (IH _ _ _ _ Hloop) as [Hkeep Hall]. split; [exact Hkeep |].
      intros rel' name' st' r [Heq | Hin] Hvis Hdata; [discriminate Heq | eauto].
    + discriminate Hloop.
Qed.

(** X19.  In a folder in which nothing that the glob reaches raises (no
    directory when it is listed, no entry in [is_file()]), every file that
    can be reached, whose own name is not hidden and that the file prober
    returns a record for, is counted: its record is listed, or files are
    hidden by the display cap. *)
Theorem every_visible_file_listed (folder_path : path) (name : string)
    (access : dir_access) (entries : list node) (fs : FolderSummary.t)
    (rel : path) (st : except stat_result) (r : FileRecord.t) :
  never_raising (Dir name access entries) = true ->
  scan_folder folder_path (Dir name access entries) = Returns fs ->
  In (rel, st) (listed_files [] (Dir name access entries)) ->
  hidden_name (last rel "") = false ->
  get_file_data (folder_path ++ rel) st (Some folder_path) = Returns (Some r) ->
  In r (FolderSummary.files fs) \/
  exists hidden, FolderSummary.hidden_files fs = Some hidden /\ 0 < hidden.
Proof.
  intros Hquiet Hscan Hin Hvis Hdata.
  destruct (scan_folder_totals _ _ _ Hscan)
    as (files & fmt & (total & raised & Hloop) & Hfiles & _ & Hhidden & _).
  assert (Hnone : raised = None).
  { destruct raised as [e |]; [| reflexivity]. exfalso.
    destruct (scan_folder_loop_raised _ _ _ _ _ _ _ Hloop)
      as [Hraise | [(rel' & name' & st' & Hyield & Hfile) | Hos]].
    - exact (rglob_quiet _ Hquiet _ _ Hraise).
    - exact (rglob_quiet_items _ Hquiet _ _ _ _ Hyield Hfile).
    - unfold scan_folder in Hscan. rewrite Hloop in Hscan.
      destruct e; try discriminate Hos; cbn in Hscan; discriminate Hscan. }
  subst raised.
  destruct (rglob_complete _ [] name access entries rel st eq_refl Hin)
    as (fname & Hyield).
  destruct (rglob_tree_files _ [] [] rel fname st Hyield) as [_ (parent & Hrel)].
  simpl in Hrel.
  assert (Hlast : last rel "" = fname) by (rewrite Hrel; apply last_last).
  rewrite Hlast in Hvis.
  destruct (scan_folder_loop_complete _ _ _ _ _ _ Hloop) as [_ Hall].
  pose proof (Hall rel fname st r Hyield Hvis Hdata) as Hr.
  rewrite Hhidden, Hfiles.
  destruct (20 <? len files) eqn:E.
  - right. apply Z.ltb_lt in E. eexists. split; [reflexivity | lia].
  - left. apply Z.ltb_ge in E.
    rewrite firstn_all2.
    + now apply sort_desc_In.
    + rewrite (Permutation_length (sort_desc_perm FileRecord.size_bytes files)).
      unfold len in E. lia.
Qed.

(** ** The stats of a scan *)

Lemma length_flat_map_nonempty (l : list FolderSummary.t) :
  Forall (fun fs => FolderSummary.files fs <> []) l ->
  len l <= len (flat_map FolderSummary.files l).
Proof.
  unfold len. induction 1 as [| fs l Hfs _ IH]; simpl; [lia |].
  rewrite length_app.
  destruct (FolderSummary.files fs); [contradiction | simpl; lia].
Qed.

(** X20.  In the stats of a scan that finds the root, the number of
    folders and the number of distinct extensions are each at most the
    number of files counted, and that number is the number of files the
    folders list. *)
Theorem stats_counts_bounded (root_dir : node) (now : string) (res : ScanResult.t) :
  scan_downloads (Some root_dir) now = Returns res ->
  Stats.total_files (ScanResult.stats res)
    = len (flat_map FolderSummary.files (ScanResult.folders res)) /\
  Stats.categories (ScanResult.stats res) = len (ScanResult.folders res) /\
  Stats.categories (ScanResult.stats res) <= Stats.total_files (ScanResult.stats res) /\
  exists count,
    Stats.file_types (ScanResult.stats res) = FileTypesCount count /\
    0 <= count <= Stats.total_files (ScanResult.stats res).
Proof.
  intros H.
  destruct (scan_downloads_inv _ _ _ H)
    as (items & folders & root_files & all_files & formatted
        & _ & Hitems & Hfolders & Hall & _ & Hstats & _).
  rewrite Hstats. cbn [Stats.total_files Stats.categories Stats.file_types].
  subst all_files. split; [reflexivity |]. split; [reflexivity |]. split.
  - apply length_flat_map_nonempty. apply Forall_forall. intros fs Hfs.
    rewrite Hfolders in Hfs. apply sort_desc_In in Hfs.
    pose proof (scan_items_nonempty _ _ _ _ _ Hitems (Forall_nil _)) as Hne.
    rewrite Forall_forall in Hne.
    destruct root_files as [| r root_files]; cbn [nonempty] in Hfs.
    + now apply Hne.
    + apply in_app_or in Hfs. destruct Hfs as [Hin | [<- | []]];
        [now apply Hne | discriminate].
  - eexists. split; [reflexivity |]. unfold len. split; [lia |].
    apply Nat2Z.inj_le.
    etransitivity; [apply NoDup_incl_length; [apply NoDup_nodup |] |].
    + intros x Hx. apply nodup_In in Hx. exact Hx.
    + etransitivity; [apply filter_length_le |]. now rewrite length_map.
Qed.

(** X21.  A root that exists but shows nothing (it lists no entry, or only
    hidden entries and the trash folder) scans to a result without folders
    whose stats, unlike those of a missing root, hold the count 0 under
    [file_types] and the formatted total "0 B". *)
Theorem scan_root_without_visible_entries (name : string) (items : list node)
    (now : string) :
  filter visible items = [] ->
  scan_downloads (Some (Dir name Listable items)) now
  = Returns
      {| ScanResult.folders := [];
         ScanResult.stats :=
           {| Stats.total_files := 0;
              Stats.total_size := 0;
              Stats.categories := 0;
              Stats.file_types := FileTypesCount 0;
              Stats.total_size_formatted := Some "0 B" |};
         ScanResult.scanned_at := now |}.
Proof.
  intros Hnone. unfold scan_downloads. cbn [iterdir bind].
  assert (Hitems : scan_items items [] [] = Returns ([], [])).
  { rewrite <- (scan_items_filter visible items).
    - rewrite Hnone. reflexivity.
    - intros item rest folders root_files Hvis.
      unfold visible, excluded_segment, hidden_name, trash_name in Hvis.
      apply negb_false_iff, orb_true_iff in Hvis. cbn [scan_items].
      destruct Hvis as [Hhid | Htrash].
      + now rewrite Hhid.
      + rewrite Htrash. now destruct (startswith "." (node_name item)). }
  rewrite Hitems. reflexivity.
Qed.

End Scanner.

(** ** The example trees *)

Lemma nested_trash_scan :
  scan_downloads example_path example_clock (Some nested_trash_root) example_now
  = Returns nested_trash_result.
Proof.
  vm_compute. reflexivity.
Qed.


Lemma scenario_scan :
  scan_downloads example_path example_clock (Some scenario_root) example_now
  = Returns scenario_result.
Proof.
  vm_compute. reflexivity.
Qed.

(** C1, as the specification states it, fails: the scan of
    [nested_trash_root] lists "$RECYCLE.BIN/old.txt" under "Videos", and the
    only file of the tree that record comes from is
    Videos/$RECYCLE.BIN/old.txt, a path with a trash-folder segment (the
    same scan lists ".cache/a.bin", from a hidden directory). *)
Lemma nested_trash_not_excluded :
  ~ excluded_at_every_level example_path example_clock nested_trash_root example_now.
Proof.
  intros H.
  destruct (H nested_trash_result nested_trash_videos old_txt_record
              nested_trash_scan (or_introl eq_refl) (or_intror (or_introl eq_refl)))
    as (rel & (st & Hin & Hrel) & Hsegments).
  simpl in Hin.
  destruct Hin as [Hin | [Hin | [Hin | []]]]; injection Hin as <- <-.
  - destruct Hrel as [Hdata _]. vm_compute in Hdata. discriminate Hdata.
  - vm_compute in Hsegments. discriminate Hsegments.
  - vm_compute in Hsegments. discriminate Hsegments.
Qed.

(** The amended C1 at the same scan: the record of "clip.mp4". *)
Lemma hidden_and_trash_excluded_witness :
  scan_downloads example_path example_clock (Some nested_trash_root) example_now
    = Returns nested_trash_result /\
  In nested_trash_videos (ScanResult.folders nested_trash_result) /\
  In clip_record (FolderSummary.files nested_trash_videos) /\
  exists rel,
    provenance example_path example_clock nested_trash_root nested_trash_videos
      clip_record rel /\
    excluded_segment (hd "" rel) = false /\
    hidden_name (last rel "") = false.
Proof.
  split; [vm_compute; reflexivity |].
  split; [left; reflexivity |].
  split; [left; reflexivity |].
  apply (hidden_and_trash_excluded example_path example_clock nested_trash_root
           example_now nested_trash_result nested_trash_videos clip_record).
  - vm_compute. reflexivity.
  - left. reflexivity.
  - left. reflexivity.
Defined.



(** C3, as the specification states it, fails: the formatter returns no
    string for [2 ^ 1054], whose quotient by [1024 ^ 3] is [2 ^ 1024], no
    double. *)
Lemma format_size_overflow :
  0 <= 2 ^ 1054 /\ format_size (2 ^ 1054) = Raises OverflowError.
Proof.
  split; [discriminate | vm_compute; reflexivity].
Qed.

(** The amended C3 at 1500000 bytes. *)
Lemma format_size_units_witness :
  1024 ^ 2 <= 1500000 < 1024 ^ 3 /\
  exists whole tenth,
    0 <= whole /\ 0 <= tenth <= 9 /\
    format_size 1500000 =
      Returns (str_of_int whole +++ "." +++ String (digit tenth) " MB") /\
    2 * Z.abs (10 * 1500000 - 1024 ^ 2 * (10 * whole + tenth)) <= 1024 ^ 2.
Proof.
  assert (H : 1024 ^ 2 <= 1500000 < 1024 ^ 3) by (split; [discriminate | reflexivity]).
  split; [exact H |].
  exact (proj1 (proj2 (proj2 (format_size_units 1500000))) H).
Defined.

(** C4 at "Video Projects": the first predicate matches. *)
Lemma folder_category_first_match_wins_witness :
  heuristic_chain = [] ++ (["video"], video) :: skipn 1 heuristic_chain /\
  none_matches [] (lower "Video Projects") /\
  predicate_matches ["video"] (lower "Video Projects") = true /\
  folder_category (lower "Video Projects") = video.
Proof.
  split; [reflexivity |].
  split; [constructor |].
  split; [reflexivity |].
  exact (proj1 (proj2 folder_category_first_match_wins) "Video Projects" []
           ["video"] video (skipn 1 heuristic_chain) eq_refl
           (Forall_nil _) eq_refl).
Defined.

(** C9 at "Code Projects": none of the eight earlier predicates matches. *)
Lemma folder_category_range_witness :
  none_matches (firstn 8 heuristic_chain) (lower "Code Projects") /\
  str_in "code" (lower "Code Projects") || str_in "project" (lower "Code Projects")
    = true /\
  folder_category (lower "Code Projects") = archive.
Proof.
  assert (H : none_matches (firstn 8 heuristic_chain) (lower "Code Projects"))
    by (repeat constructor).
  split; [exact H |].
  split; [reflexivity |].
  exact (proj1 (proj2 (proj2 (proj2 (folder_category_range "Code Projects"))))
           H eq_refl).
Defined.

(** C5 at [scenario_root]. *)
Lemma scan_scenario_witness :
  exists res sub loose,
    scan_downloads example_path example_clock (Some scenario_root) example_now
      = Returns res /\
    ScanResult.folders res = [sub; loose] /\
    FolderSummary.name sub = "Videos" /\
    FolderSummary.category sub = video /\
    FolderSummary.name loose = "Uncategorized" /\
    Stats.total_files (ScanResult.stats res) = 2 /\
    Stats.total_size (ScanResult.stats res) = 2010.
Proof.
  destruct (scan_scenario example_path example_clock
              "Downloads" ".DS_Store" "notes.txt" "Videos" "clip.mp4"
              (readable 99) 0 0 "2024-01-01T00:00:00" "2024-01-01T00:00:00"
              example_now
              [ File ".DS_Store" (readable 99);
                File "notes.txt" (readable 10);
                Dir "Videos" Listable [ File "clip.mp4" (readable 2000) ] ]
              eq_refl eq_refl eq_refl eq_refl eq_refl eq_refl
              (Permutation_refl _))
    as (res & sub & loose & in_sub & in_loose & Hscan & Hfolders & Hname & _
        & Hcategory & _ & _ & _ & Hloose & _ & _ & _ & Hfiles & Hsize & _).
  exists res, sub, loose.
  split; [exact Hscan |]. split; [exact Hfolders |]. split; [exact Hname |].
  split; [exact Hcategory |]. split; [exact Hloose |].
  split; [exact Hfiles | exact Hsize].
Defined.

(** C7 at a path that is not below the ancestor given. *)
Lemma get_file_data_unavailable_witness :
  relative_to_path ["home"; "user"; "Downloads"; "notes.txt"] ["srv"; "other"] = None /\
  exists r,
    get_file_data example_clock ["home"; "user"; "Downloads"; "notes.txt"]
      (readable 10) (Some ["srv"; "other"]) = Returns (Some r) /\
    FileRecord.name r = "notes.txt".
Proof.
  split; [reflexivity |].
  destruct (proj2 (proj2 (get_file_data_unavailable example_clock
              ["home"; "user"; "Downloads"; "notes.txt"] (readable 10)
              (Some ["srv"; "other"])))
              (mkstat 10 0) "10 B" "2024-01-01T00:00:00" eq_refl eq_refl eq_refl)
    as (r & Hdata & _ & _ & _ & _ & _ & _ & _ & _ & Hbare & _).
  exists r. split; [exact Hdata |].
  exact (Hbare ["srv"; "other"] eq_refl eq_refl).
Defined.

(** C10 at the scan of [scenario_root]. *)
Lemma stats_shape_witness :
  scan_downloads example_path example_clock (Some scenario_root) example_now
    = Returns scenario_result /\
  exists count formatted,
    Stats.file_types (ScanResult.stats scenario_result) = FileTypesCount count /\
    0 <= count /\
    Stats.total_size_formatted (ScanResult.stats scenario_result) = Some formatted /\
    format_size (Stats.total_size (ScanResult.stats scenario_result))
      = Returns formatted.
Proof.
  assert (H : scan_downloads example_path example_clock (Some scenario_root)
                example_now = Returns scenario_result) by (vm_compute; reflexivity).
  split; [exact H |].
  exact (proj2 (stats_shape example_path example_clock example_now)
           scenario_root scenario_result H).
Defined.

(** ** The further properties, at the examples *)

(** X1 at "CLIP.MP4". *)
Lemma get_file_type_listed_witness :
  "CLIP" <> "" /\
  In (video, [".mp4"; ".mov"; ".avi"; ".mkv"; ".webm"; ".m4v"]) FILE_CATEGORIES /\
  In (lower ".MP4") [".mp4"; ".mov"; ".avi"; ".mkv"; ".webm"; ".m4v"] /\
  get_file_type ("CLIP" +++ ".MP4") = video.
Proof.
  assert (H1 : "CLIP" <> "") by discriminate.
  assert (H2 : In (video, [".mp4"; ".mov"; ".avi"; ".mkv"; ".webm"; ".m4v"])
                 FILE_CATEGORIES) by (left; reflexivity).
  assert (H3 : In (lower ".MP4") [".mp4"; ".mov"; ".avi"; ".mkv"; ".webm"; ".m4v"])
    by (left; reflexivity).
  split; [exact H1 |]. split; [exact H2 |]. split; [exact H3 |].
  exact (get_file_type_listed "CLIP" ".MP4" video _ H1 H2 H3).
Defined.

(** X5 at the record of "notes.txt". *)
Lemma display_name_bounded_witness :
  get_file_data example_clock (example_path ++ ["notes.txt"]) (readable 10) None
    = Returns (Some notes_record) /\
  (String.length (FileRecord.display_name notes_record) <= 53)%nat.
Proof.
  assert (H : get_file_data example_clock (example_path ++ ["notes.txt"])
                (readable 10) None = Returns (Some notes_record))
    by (vm_compute; reflexivity).
  split; [exact H |].
  exact (proj1 (display_name_bounded example_clock _ _ _ _ H)).
Defined.

(** X6 at the records of "notes.txt" and "small.txt". *)
Lemma same_extension_same_type_witness :
  get_file_data example_clock (example_path ++ ["notes.txt"]) (readable 10) None
    = Returns (Some notes_record) /\
  get_file_data example_clock (example_path ++ ["small.txt"]) (readable 1) None
    = Returns (Some small_record) /\
  FileRecord.extension notes_record = FileRecord.extension small_record /\
  FileRecord.type notes_record = FileRecord.type small_record /\
  FileRecord.icon notes_record = FileRecord.icon small_record.
Proof.
  assert (H1 : get_file_data example_clock (example_path ++ ["notes.txt"])
                 (readable 10) None = Returns (Some notes_record))
    by (vm_compute; reflexivity).
  assert (H2 : get_file_data example_clock (example_path ++ ["small.txt"])
                 (readable 1) None = Returns (Some small_record))
    by (vm_compute; reflexivity).
  split; [exact H1 |]. split; [exact H2 |]. split; [reflexivity |].
  exact (same_extension_same_type example_clock _ _ _ _ _ _ _ _ H1 H2 eq_refl).
Defined.

(** X7 at the record of "notes.txt". *)
Lemma record_fields_agree_witness :
  get_file_data example_clock (example_path ++ ["notes.txt"]) (readable 10) None
    = Returns (Some notes_record) /\
  format_size (FileRecord.size_bytes notes_record)
    = Returns (FileRecord.size notes_record) /\
  rfind_dot (FileRecord.extension notes_record) = None.
Proof.
  assert (H : get_file_data example_clock (example_path ++ ["notes.txt"])
                (readable 10) None = Returns (Some notes_record))
    by (vm_compute; reflexivity).
  split; [exact H |].
  destruct (record_fields_agree example_clock _ _ _ _ H) as (Hsize & _ & Hdot & _).
  split; [exact Hsize | exact Hdot].
Defined.

(** X10 at the scan of [scenario_root]. *)
Lemma folders_sorted_by_total_size_witness :
  scan_downloads example_path example_clock (Some scenario_root) example_now
    = Returns scenario_result /\
  descending FolderSummary.total_size (ScanResult.folders scenario_result).
Proof.
  assert (H : scan_downloads example_path example_clock (Some scenario_root)
                example_now = Returns scenario_result) by (vm_compute; reflexivity).
  split; [exact H |].
  exact (folders_sorted_by_total_size example_path example_clock _ _ _ H).
Defined.

(** X11 at the scan of [scenario_root]. *)
Lemma no_empty_folder_witness :
  scan_downloads example_path example_clock (Some scenario_root) example_now
    = Returns scenario_result /\
  In scenario_videos (ScanResult.folders scenario_result) /\
  FolderSummary.files scenario_videos <> [].
Proof.
  assert (H : scan_downloads example_path example_clock (Some scenario_root)
                example_now = Returns scenario_result) by (vm_compute; reflexivity).
  assert (Hin : In scenario_videos (ScanResult.folders scenario_result))
    by (left; reflexivity).
  split; [exact H |]. split; [exact Hin |].
  exact (no_empty_folder example_path example_clock _ _ _ _ H Hin).
Defined.

(** X12 at the scan of [videos_dir]. *)
Lemma displayed_plus_hidden_witness :
  scan_folder example_clock (example_path ++ ["Videos"]) videos_dir
    = Returns nested_trash_videos /\
  exists total hidden,
    FolderSummary.total_files nested_trash_videos = Some total /\
    FolderSummary.hidden_files nested_trash_videos = Some hidden /\
    len (FolderSummary.files nested_trash_videos) + hidden = total /\
    0 <= hidden /\
    (0 < hidden -> len (FolderSummary.files nested_trash_videos) = 20).
Proof.
  assert (H : scan_folder example_clock (example_path ++ ["Videos"]) videos_dir
              = Returns nested_trash_videos) by (vm_compute; reflexivity).
  split; [exact H |].
  exact (displayed_plus_hidden example_clock _ _ _ H).
Defined.

(** X13 at the scan of [videos_dir]. *)
Lemma folder_totals_agree_witness :
  scan_folder example_clock (example_path ++ ["Videos"]) videos_dir
    = Returns nested_trash_videos /\
  FolderSummary.hidden_files nested_trash_videos = Some 0 /\
  FolderSummary.total_size nested_trash_videos
  = sum (map FileRecord.size_bytes (FolderSummary.files nested_trash_videos)).
Proof.
  assert (H : scan_folder example_clock (example_path ++ ["Videos"]) videos_dir
              = Returns nested_trash_videos) by (vm_compute; reflexivity).
  split; [exact H |]. split; [reflexivity |].
  exact (proj2 (folder_totals_agree example_clock _ _ _ H) eq_refl).
Defined.

(** X14 at the scan of [scenario_root]. *)
Lemma stats_total_at_most_folder_totals_witness :
  sizes_nonneg scenario_root /\
  scan_downloads example_path example_clock (Some scenario_root) example_now
    = Returns scenario_result /\
  Stats.total_size (ScanResult.stats scenario_result)
  <= sum (map FolderSummary.total_size (ScanResult.folders scenario_result)).
Proof.
  assert (Hn : sizes_nonneg scenario_root).
  { intros rel stat Hin. simpl in Hin.
    destruct Hin as [Hin | [Hin | [Hin | []]]]; injection Hin as _ <-;
      simpl; discriminate. }
  assert (H : scan_downloads example_path example_clock (Some scenario_root)
                example_now = Returns scenario_result) by (vm_compute; reflexivity).
  split; [exact Hn |]. split; [exact H |].
  exact (stats_total_at_most_folder_totals example_path example_clock _ _ _ Hn H).
Defined.


(** X18 at the record of "$RECYCLE.BIN/old.txt". *)
Lemma nested_names_have_prefix_witness :
  scan_folder example_clock (example_path ++ ["Videos"]) videos_dir
    = Returns nested_trash_videos /\
  In old_txt_record (FolderSummary.files nested_trash_videos) /\
  exists rel name st,
    In (Yield rel (File name st)) (rglob videos_dir) /\
    FileRecord.name old_txt_record = String.concat "/" rel /\
    last rel "" = name /\
    hidden_name name = false.
Proof.
  assert (H : scan_folder example_clock (example_path ++ ["Videos"]) videos_dir
              = Returns nested_trash_videos) by (vm_compute; reflexivity).
  assert (Hin : In old_txt_record (FolderSummary.files nested_trash_videos))
    by (right; left; reflexivity).
  split; [exact H |]. split; [exact Hin |].
  exact (nested_names_have_prefix example_clock _ _ _ _ H Hin).
Defined.

(** X19 at the file .cache/a.bin of [videos_dir]. *)
Lemma every_visible_file_listed_witness :
  never_raising videos_dir = true /\
  scan_folder example_clock (example_path ++ ["Videos"]) videos_dir
    = Returns nested_trash_videos /\
  In ([".cache"; "a.bin"], readable 5) (listed_files [] videos_dir) /\
  hidden_name (last [".cache"; "a.bin"] "") = false /\
  get_file_data example_clock ((example_path ++ ["Videos"]) ++ [".cache"; "a.bin"])
    (readable 5) (Some (example_path ++ ["Videos"])) = Returns (Some a_bin_record) /\
  (In a_bin_record (FolderSummary.files nested_trash_videos) \/
   exists hidden,
     FolderSummary.hidden_files nested_trash_videos = Some hidden /\ 0 < hidden).
Proof.
  assert (H1 : never_raising videos_dir = true) by reflexivity.
  assert (H2 : scan_folder example_clock (example_path ++ ["Videos"]) videos_dir
               = Returns nested_trash_videos) by (vm_compute; reflexivity).
  assert (H3 : In ([".cache"; "a.bin"], readable 5) (listed_files [] videos_dir))
    by (right; right; left; reflexivity).
  assert (H4 : hidden_name (last [".cache"; "a.bin"] "") = false) by reflexivity.
  assert (H5 : get_file_data example_clock
                 ((example_path ++ ["Videos"]) ++ [".cache"; "a.bin"])
                 (readable 5) (Some (example_path ++ ["Videos"]))
               = Returns (Some a_bin_record)) by (vm_compute; reflexivity).
  split; [exact H1 |]. split; [exact H2 |]. split; [exact H3 |].
  split; [exact H4 |]. split; [exact H5 |].
  exact (every_visible_file_listed example_clock _ "Videos" Listable _ _ _ _ _
           H1 H2 H3 H4 H5).
Defined.

(** X20 at the scan of [scenario_root]. *)
Lemma stats_counts_bounded_witness :
  scan_downloads example_path example_clock (Some scenario_root) example_now
    = Returns scenario_result /\
  Stats.categories (ScanResult.stats scenario_result)
  <= Stats.total_files (ScanResult.stats scenario_result).
Proof.
  assert (H : scan_downloads example_path example_clock (Some scenario_root)
                example_now = Returns scenario_result) by (vm_compute; reflexivity).
  split; [exact H |].
  exact (proj1 (proj2 (proj2
           (stats_counts_bounded example_path example_clock _ _ _ H)))).
Defined.

(** X21 at a root that lists a hidden file and the trash folder. *)
Lemma scan_root_without_visible_entries_witness :
  filter visible
    [ File ".DS_Store" (readable 99);
      Dir "$RECYCLE.BIN" Listable [ File "old.txt" (readable 7) ] ] = [] /\
  scan_downloads example_path example_clock
    (Some (Dir "Downloads" Listable
             [ File ".DS_Store" (readable 99);
               Dir "$RECYCLE.BIN" Listable [ File "old.txt" (readable 7) ] ]))
    example_now
  = Returns
      {| ScanResult.folders := [];
         ScanResult.stats :=
           {| Stats.total_files := 0;
              Stats.total_size := 0;
              Stats.categories := 0;
              Stats.file_types := FileTypesCount 0;
              Stats.total_size_formatted := Some "0 B" |};
         ScanResult.scanned_at := example_now |}.
Proof.
  split; [reflexivity |].
  exact (scan_root_without_visible_entries example_path example_clock "Downloads"
           [ File ".DS_Store" (readable 99);
             Dir "$RECYCLE.BIN" Listable [ File "old.txt" (readable 7) ] ]
           example_now eq_refl).
Defined.

(** X4 at 1048575 bytes, one byte below a megabyte. *)
Lemma format_size_shows_1024_witness :
  1048525 <= 1048575 < 1048576 /\ format_size 1048575 = Returns "1024.0 KB".
Proof.
  assert (H : 1048525 <= 1048575 < 1048576) by (split; [discriminate | reflexivity]).
  split; [exact H |].
  exact (proj1 (format_size_shows_1024 1048575) H).
Defined.


(** X9 at [locked_root]. *)
Lemma scan_permission_errors_from_root_level_witness :
  scan_downloads example_path example_clock (Some locked_root) example_now
    = Raises PermissionError /\
  (iterdir locked_root = Raises PermissionError \/
   exists items name,
     iterdir locked_root = Returns items /\
     In (File name (Raises PermissionError)) items /\
     excluded_segment name = false).
Proof.
  assert (H : scan_downloads example_path example_clock (Some locked_root) example_now
              = Raises PermissionError) by (vm_compute; reflexivity).
  split; [exact H |].
  exact (proj2 (scan_permission_errors_from_root_level example_path example_clock
                  locked_root example_now) H).
Defined.

(** C8 at [scenario_root], with a clock that advances between the two
    scans: what the first run returns is the scan of the tree at the first
    clock reading. *)
Lemma successive_scans_agree_witness :
  unchanged_tree (tree_os example_path (Some scenario_root)) /\
  fst (run (tree_os example_path (Some scenario_root))
         (scan_downloads_io example_path example_clock) 0)
  = scan_downloads example_path example_clock (Some scenario_root) "0" /\
  same_content
    (fst (run (tree_os example_path (Some scenario_root))
            (scan_downloads_io example_path example_clock) 0))
    (fst (run (tree_os example_path (Some scenario_root))
            (scan_downloads_io example_path example_clock)
            (snd (run (tree_os example_path (Some scenario_root))
                    (scan_downloads_io example_path example_clock) 0)))).
Proof.
  assert (H : unchanged_tree (tree_os example_path (Some scenario_root))).
  { intros c w w' Hc. destruct c; try discriminate Hc; reflexivity. }
  split; [exact H |]. split; [vm_compute; reflexivity |].
  exact (proj1 (successive_scans_agree example_path example_clock
                  (tree_os example_path (Some scenario_root)) 0 H)).
Defined.
